(** * excel-mcp-server: value inference, range transfer and path resolution

    A shallow embedding of [src/excel_mcp/data.py] and of [get_excel_path] in
    [src/excel_mcp/server.py], with the properties of the project
    specification stated over it.

    Conventions of the embedding.
    - A Python [str] is a list of Unicode code points ([pystr]).  The
      whitespace of [str.isspace], the decimal digits of [\d], [int] and
      [float], the digits of [str.isdigit] and the currency signs of the
      source are classified for every code point.
    - A Python exception is a value of [exn]; a computation that may raise
      has type [res A].  [try]/[except] is written with [catch].
    - Logging calls are effects on a log file only and are left out; the
      arguments of a logging call that can themselves raise are kept.
    - openpyxl is represented by the interface the code uses: a worksheet is
      its dictionary of cells keyed by (row, column), a workbook an ordered
      list of worksheets with an active index, the file system a finite map
      from paths to workbooks. *)

From Stdlib Require Import ZArith NArith List String Ascii DecimalString Lia Bool Sorted.
From Stdlib Require Import DecimalPos.
From stdpp Require Import base option list gmap.
Import ListNotations.

Local Open Scope Z_scope.

(** ** Strings *)

Definition char := N.
Definition pystr := list char.

(** A literal of the source, as code points (for ASCII literals). *)
Definition str (s : string) : pystr :=
  List.map N_of_ascii (list_ascii_of_string s).

Definition chr (s : string) : char :=
  match str s with c :: _ => c | [] => 0%N end.

Definition dquote : char := 34%N.
Definition newline : char := 10%N.
Definition euro : char := 8364%N.
Definition pound : char := 163%N.
Definition yen : char := 165%N.

Definition str_eqb (a b : pystr) : bool := bool_decide (a = b).

Definition in_range (lo hi c : N) : bool := ((lo <=? c) && (c <=? hi))%N.

(** [str.isspace] for one character: the Unicode whitespace set. *)
Definition is_space (c : char) : bool :=
  in_range 9 13 c || in_range 28 32 c || (c =? 133)%N || (c =? 160)%N
  || (c =? 5760)%N || in_range 8192 8202 c || (c =? 8232)%N || (c =? 8233)%N
  || (c =? 8239)%N || (c =? 8287)%N || (c =? 12288)%N.

(** The decimal digits of Unicode (general category Nd) come in runs of
    ten, zero to nine.  After the ASCII digits, these are the code points of
    the zeros of Unicode 14.0, the tables of CPython 3.11. *)
Definition decimal_zeros : list N :=
  [
   1632; 1776; 1984; 2406; 2534; 2662; 2790; 2918; 3046; 3174; 3302; 3430;
   3558; 3664; 3792; 3872; 4160; 4240; 6112; 6160; 6470; 6608; 6784; 6800;
   6992; 7088; 7232; 7248; 42528; 43216; 43264; 43472; 43504; 43600; 44016;
   65296; 66720; 68912; 69734; 69872; 69942; 70096; 70384; 70736; 70864;
   71248; 71360; 71472; 71904; 72016; 72784; 73040; 73120; 92768; 92864;
   93008; 120782; 120792; 120802; 120812; 120822; 123200; 123632; 125264;
   130032
  ]%N.

(** The zero of the run of digits a character lies in. *)
Definition zero_of (c : char) : option N :=
  if in_range 48 57 c then Some 48%N
  else List.find (fun z => in_range z (z + 9) c) decimal_zeros.

(** A decimal digit: what [\d] matches and what [int] and [float] read
    ([str.isdecimal] for one character). *)
Definition is_digit (c : char) : bool :=
  match zero_of c with Some _ => true | None => false end.

(** The value of a decimal digit. *)
Definition digit_val (c : char) : Z :=
  match zero_of c with Some z => Z.of_N c - Z.of_N z | None => 0 end.

(** The characters that are digits without being decimal digits:
    superscripts, subscripts, circled digits and the like (property
    Numeric_Type=Digit), as ranges of code points. *)
Definition other_digit_ranges : list (N * N) :=
  [
   (178, 179); (185, 185); (4969, 4977); (6618, 6618); (8304, 8304);
   (8308, 8313); (8320, 8329); (9312, 9320); (9332, 9340); (9352, 9360);
   (9450, 9450); (9461, 9469); (9471, 9471); (10102, 10110); (10112, 10120);
   (10122, 10130); (68160, 68163); (69216, 69224); (69714, 69722);
   (127232, 127242)
  ]%N.

(** [str.isdigit] for one character. *)
Definition has_digit_property (c : char) : bool :=
  is_digit c || existsb (fun r => in_range (fst r) (snd r) c) other_digit_ranges.

Fixpoint lstrip (s : pystr) : pystr :=
  match s with
  | c :: s' => if is_space c then lstrip s' else s
  | [] => []
  end.

Definition rstrip (s : pystr) : pystr := rev (lstrip (rev s)).

(** [s.strip()] *)
Definition strip (s : pystr) : pystr := rstrip (lstrip s).

Definition lower_char (c : char) : char :=
  if in_range 65 90 c then (c + 32)%N else c.

(** [s.lower()].  Only membership in lists of ASCII words and the presence
    of the letter e are observed on the result; no non-ASCII character
    lowers to a letter of those words, so the ASCII mapping is exact for
    these uses. *)
Definition lower (s : pystr) : pystr := List.map lower_char s.

(** [s.endswith(c)] for a one-character suffix. *)
Definition endswith (s : pystr) (c : char) : bool :=
  match rev s with
  | d :: _ => (d =? c)%N
  | [] => false
  end.

(** [s[:-1]] *)
Definition drop_last (s : pystr) : pystr := removelast s.

(** [s.replace(c, "")] for a one-character pattern. *)
Definition remove_char (c : char) (s : pystr) : pystr :=
  List.filter (fun d => negb (d =? c)%N) s.

(** [c in s] for a one-character needle. *)
Definition contains_char (c : char) (s : pystr) : bool :=
  existsb (fun d => (d =? c)%N) s.

Fixpoint is_prefix (p s : pystr) : bool :=
  match p, s with
  | [], _ => true
  | a :: p', b :: s' => (a =? b)%N && is_prefix p' s'
  | _ :: _, [] => false
  end.

(** [p in s] for strings. *)
Fixpoint contains (p s : pystr) : bool :=
  is_prefix p s ||
  match s with
  | [] => false
  | _ :: s' => contains p s'
  end.

(** [s.isdigit()] *)
Definition isdigit (s : pystr) : bool :=
  match s with
  | [] => false
  | _ => forallb has_digit_property s
  end.

(** [s in words] *)
Definition str_in (s : pystr) (words : list pystr) : bool :=
  existsb (str_eqb s) words.

(** ** Exceptions

    The kinds of exception the modelled code can meet.  [DataError] is the
    project's own class ([exceptions.py]) and [IllegalCharacterError] is
    openpyxl's; both derive from [Exception] and from none of the built-in
    kinds, so [except ValueError] lets them pass. *)

Inductive exn_kind :=
| ValueError | TypeError | IndexError | KeyError | AttributeError
| FileNotFoundError | DataError | IllegalCharacterError.

Record exn := Exn { exn_kind_of : exn_kind; exn_msg : pystr }.

Inductive res (A : Type) :=
| Ok (a : A)
| Raise (e : exn).
Arguments Ok {A} a.
Arguments Raise {A} e.

Definition bind {A B} (m : res A) (k : A -> res B) : res B :=
  match m with
  | Ok a => k a
  | Raise e => Raise e
  end.

#[global] Instance res_bind : MBind res := fun A B k m => bind m k.
#[global] Instance res_ret : MRet res := @Ok.

(** [try: m except kinds: handler] *)
Definition catch {A} (m : res A) (handles : exn -> bool) (h : exn -> res A)
  : res A :=
  match m with
  | Ok a => Ok a
  | Raise e => if handles e then h e else Raise e
  end.

Definition kind_eqb (a b : exn_kind) : bool :=
  match a, b with
  | ValueError, ValueError | TypeError, TypeError | IndexError, IndexError
  | KeyError, KeyError | AttributeError, AttributeError
  | FileNotFoundError, FileNotFoundError | DataError, DataError
  | IllegalCharacterError, IllegalCharacterError => true
  | _, _ => false
  end.

Definition is_kind (ks : list exn_kind) (e : exn) : bool :=
  existsb (kind_eqb (exn_kind_of e)) ks.

(** ** Regular expressions of Python's [re], by backtracking

    [rmatch r cs s] lists, in the order Python tries them, the ways [r] can
    match a prefix of [s]: the named groups captured and the rest of the
    string.  [re.match] succeeds with the first element. *)

Inductive regex :=
| Eps
| Cls (p : char -> bool)
| Cat (r1 r2 : regex)
| Alt (r1 r2 : regex)
| Opt (r : regex)
| Star (r : regex)
| Grp (name : string) (r : regex)
| Eos.

Definition Chr (c : char) : regex := Cls (fun d => (d =? c)%N).
Definition Plus (r : regex) : regex := Cat r (Star r).

Definition captures := list (string * pystr).

Fixpoint star_iter (m : captures -> pystr -> list (captures * pystr))
    (fuel : nat) (cs : captures) (s : pystr) : list (captures * pystr) :=
  match fuel with
  | O => [(cs, s)]
  | S fuel' =>
      flat_map (fun '(cs', s') =>
                  if (length s' <? length s)%nat
                  then star_iter m fuel' cs' s' else [])
               (m cs s)
      ++ [(cs, s)]
  end.

Fixpoint rmatch (r : regex) (cs : captures) (s : pystr)
  : list (captures * pystr) :=
  match r with
  | Eps => [(cs, s)]
  | Cls p =>
      match s with
      | c :: s' => if p c then [(cs, s')] else []
      | [] => []
      end
  | Cat r1 r2 => flat_map (fun '(cs', s') => rmatch r2 cs' s') (rmatch r1 cs s)
  | Alt r1 r2 => rmatch r1 cs s ++ rmatch r2 cs s
  | Opt r1 => rmatch r1 cs s ++ [(cs, s)]
  | Star r1 => star_iter (rmatch r1) (S (length s)) cs s
  | Grp g r1 =>
      List.map (fun '(cs', s') =>
                  ((g, firstn (length s - length s') s) :: cs', s'))
               (rmatch r1 cs s)
  | Eos =>
      match s with
      | [] => [(cs, s)]
      | [c] => if (c =? newline)%N then [(cs, s)] else []
      | _ => []
      end
  end.

(** [re.match(r, s)]: the first way to match, if any. *)
Definition re_match (r : regex) (s : pystr) : option (captures * pystr) :=
  head (rmatch r [] s).

(** A match of the whole string. *)
Definition re_fullmatch (r : regex) (s : pystr) : bool :=
  existsb (fun '(_, rest) => str_eqb rest []) (rmatch r [] s).

Fixpoint group (cs : captures) (g : string) : option pystr :=
  match cs with
  | [] => None
  | (g', v) :: cs' => if String.eqb g g' then Some v else group cs' g
  end.

Fixpoint cat_all (rs : list regex) : regex :=
  match rs with
  | [] => Eps
  | [r] => r
  | r :: rs' => Cat r (cat_all rs')
  end.

(** ** Python values *)

(** A float is kept as the expression that produced it: the literal handed
    to [float()], possibly divided by an integer. *)
Inductive pyfloat :=
| FloatOf (lit : pystr)
| FloatDiv (x : pyfloat) (d : Z).

Inductive pyval :=
| VNone
| VStr (s : pystr)
| VInt (z : Z)
| VFloat (x : pyfloat)
| VBool (b : bool)
| VDate (y m d : Z)
| VDateTime (y m d hh mm ss : Z).

Definition is_none (v : pyval) : bool :=
  match v with VNone => true | _ => false end.

(** [str(z)] for an integer. *)
Definition str_of_Z (z : Z) : pystr :=
  str (DecimalString.NilZero.string_of_int (Z.to_int z)).

(** [s.zfill(n)] for the digits of a non-negative number. *)
Definition zfill (n : nat) (s : pystr) : pystr :=
  repeat (chr "0") (n - length s) ++ s.

(** [repr(s)] for text without quotes or escapes. *)
Definition py_repr (s : pystr) : pystr := str "'" ++ s ++ str "'".

Definition digit : regex := Cls is_digit.
Definition sign : regex := Alt (Chr (chr "+")) (Chr (chr "-")).

(** [digitpart ::= digit (["_"] digit)*] *)
Definition digitpart : regex :=
  Cat digit (Star (Cat (Opt (Chr (chr "_"))) digit)).

(** [exponent ::= ("e" | "E") [sign] digitpart] *)
Definition exponent : regex :=
  cat_all [Alt (Chr (chr "e")) (Chr (chr "E")); Opt sign; digitpart].

(** [number ::= digitpart ["." [digitpart]] | "." digitpart] *)
Definition number : regex :=
  Alt (Cat digitpart (Opt (Cat (Chr (chr ".")) (Opt digitpart))))
      (Cat (Chr (chr ".")) digitpart).

(** [floatvalue ::= [sign] (number [exponent] | infinity | nan)] *)
Definition float_literal : regex :=
  cat_all [Opt sign; number; Opt exponent].

Definition drop_sign (s : pystr) : pystr :=
  match s with
  | c :: s' => if (c =? chr "+")%N || (c =? chr "-")%N then s' else s
  | [] => []
  end.

(** [float(s)] for a string: surrounding whitespace is ignored; a string
    outside the grammar raises [ValueError]. *)
Definition py_float (s : pystr) : res pyfloat :=
  let t := strip s in
  if re_fullmatch float_literal t
     || str_in (lower (drop_sign t)) [str "inf"; str "infinity"; str "nan"]
  then Ok (FloatOf t)
  else Raise (Exn ValueError
                (str "could not convert string to float: " ++ py_repr s)).

(** [sys.get_int_max_str_digits()], at its default. *)
Definition int_max_str_digits : nat := 4300.

Definition int_of_digits (ds : pystr) : Z :=
  fold_left (fun acc c => 10 * acc + digit_val c) ds 0.

(** [int(s)] for a string, base 10. *)
Definition py_int (s : pystr) : res Z :=
  let t := strip s in
  if re_fullmatch (Cat (Opt sign) digitpart) t then
    let ds := List.filter is_digit t in
    if (int_max_str_digits <? length ds)%nat then
      Raise (Exn ValueError
               (str "Exceeds the limit (4300 digits) for integer string conversion"))
    else
      let n := int_of_digits ds in
      Ok (if is_prefix (str "-") t then - n else n)
  else Raise (Exn ValueError
                (str "invalid literal for int() with base 10: " ++ py_repr s)).

(** ** [datetime.strptime]

    The regular expressions are those of [_strptime.TimeRE] for the
    directives the source uses. *)

Definition cls_range (lo hi : string) : regex :=
  Cls (in_range (chr lo) (chr hi)).

Definition directive (d : char) : option regex :=
  if (d =? chr "d")%N then
    Some (Grp "d" (Alt (Cat (Chr (chr "3")) (cls_range "0" "1"))
                  (Alt (Cat (cls_range "1" "2") digit)
                  (Alt (Cat (Chr (chr "0")) (cls_range "1" "9"))
                  (Alt (cls_range "1" "9")
                       (Cat (Chr (chr " ")) (cls_range "1" "9")))))))
  else if (d =? chr "H")%N then
    Some (Grp "H" (Alt (Cat (Chr (chr "2")) (cls_range "0" "3"))
                  (Alt (Cat (cls_range "0" "1") digit)
                       digit)))
  else if (d =? chr "M")%N then
    Some (Grp "M" (Alt (Cat (cls_range "0" "5") digit) digit))
  else if (d =? chr "S")%N then
    Some (Grp "S" (Alt (Cat (Chr (chr "6")) (cls_range "0" "1"))
                  (Alt (Cat (cls_range "0" "5") digit)
                       digit)))
  else if (d =? chr "m")%N then
    Some (Grp "m" (Alt (Cat (Chr (chr "1")) (cls_range "0" "2"))
                  (Alt (Cat (Chr (chr "0")) (cls_range "1" "9"))
                       (cls_range "1" "9"))))
  else if (d =? chr "Y")%N then
    Some (Grp "Y" (cat_all [digit; digit; digit; digit]))
  else None.

(** [TimeRE.pattern]: a directive becomes its expression, a run of
    whitespace becomes [\s+], any other character stands for itself. *)
Fixpoint pattern (in_space : bool) (fmt : pystr) : option regex :=
  match fmt with
  | [] => Some Eps
  | c :: rest =>
      if (c =? chr "%")%N then
        match rest with
        | d :: rest' =>
            match directive d, pattern false rest' with
            | Some r, Some k => Some (Cat r k)
            | _, _ => None
            end
        | [] => None
        end
      else if is_space c then
        if in_space then pattern true rest
        else option_map (Cat (Plus (Cls is_space))) (pattern true rest)
      else option_map (Cat (Chr c)) (pattern false rest)
  end.

Definition is_leap (y : Z) : bool :=
  (y mod 4 =? 0) && (negb (y mod 100 =? 0) || (y mod 400 =? 0)).

Definition days_in_month (y m : Z) : Z :=
  if m =? 2 then (if is_leap y then 29 else 28)
  else if (m =? 4) || (m =? 6) || (m =? 9) || (m =? 11) then 30
  else 31.

(** The range checks of the [datetime] constructor. *)
Definition valid_datetime (y m d hh mm ss : Z) : bool :=
  (1 <=? y) && (y <=? 9999) && (1 <=? m) && (m <=? 12)
  && (1 <=? d) && (d <=? days_in_month y m)
  && (0 <=? hh) && (hh <=? 23) && (0 <=? mm) && (mm <=? 59)
  && (0 <=? ss) && (ss <=? 59).

Record datetime := DateTime {
  dt_year : Z; dt_month : Z; dt_day : Z;
  dt_hour : Z; dt_minute : Z; dt_second : Z
}.

Definition bad_time_data (s fmt : pystr) : exn :=
  Exn ValueError (str "time data " ++ py_repr s ++ str " does not match format "
                  ++ py_repr fmt).

(** The value of a group, with the default of [_strptime] when the format
    has no such directive. *)
Definition group_int (cs : captures) (g : string) (default : Z) : res Z :=
  match group cs g with
  | Some v => py_int v
  | None => Ok default
  end.

(** [datetime.strptime(s, fmt)] *)
Definition strptime (s fmt : pystr) : res datetime :=
  match pattern false fmt with
  | None => Raise (Exn ValueError (str "bad directive in format " ++ py_repr fmt))
  | Some r =>
      match re_match r s with
      | None => Raise (bad_time_data s fmt)
      | Some (cs, rest) =>
          if negb (str_eqb rest []) then
            Raise (Exn ValueError (str "unconverted data remains: " ++ rest))
          else
            y ← group_int cs "Y" 1900;
            m ← group_int cs "m" 1;
            d ← group_int cs "d" 1;
            hh ← group_int cs "H" 0;
            mm ← group_int cs "M" 0;
            ss ← group_int cs "S" 0;
            if valid_datetime y m d hh mm ss
            then Ok (DateTime y m d hh mm ss)
            else Raise (Exn ValueError (str "value out of range"))
      end
  end.

(** ** Type inference ([_infer_and_convert_data_type]) *)

Section Collaborators.

(** [repr] of a float, which [str(value)] needs for a float argument; the
    shortest round-trip printing of doubles is left abstract. *)
Variable float_repr : pyfloat -> pystr.

(** [str(value)].  For an integer of more than 4300 digits [str] raises
    [ValueError].  Values reach this module from the JSON of a tool call
    and from the cells of a loaded file, and both parsers refuse an integer
    literal of that length; the integers of the model are those that have
    a text form, and a property that depends on the bound states it. *)
Definition py_str (v : pyval) : pystr :=
  match v with
  | VNone => str "None"
  | VStr s => s
  | VInt z => str_of_Z z
  | VFloat x => float_repr x
  | VBool b => if b then str "True" else str "False"
  | VDate y m d =>
      zfill 4 (str_of_Z y) ++ str "-" ++ zfill 2 (str_of_Z m) ++ str "-"
      ++ zfill 2 (str_of_Z d)
  | VDateTime y m d hh mm ss =>
      zfill 4 (str_of_Z y) ++ str "-" ++ zfill 2 (str_of_Z m) ++ str "-"
      ++ zfill 2 (str_of_Z d) ++ str " " ++ zfill 2 (str_of_Z hh) ++ str ":"
      ++ zfill 2 (str_of_Z mm) ++ str ":" ++ zfill 2 (str_of_Z ss)
  end.

(** [value == ""] *)
Definition eq_empty_str (v : pyval) : bool :=
  match v with
  | VStr [] => true
  | _ => false
  end.

Definition inferred : Type := pyval * option pystr.

Definition is_currency_symbol (c : char) : bool :=
  (c =? chr "$")%N || (c =? euro)%N || (c =? pound)%N || (c =? yen)%N.

Definition is_comma (c : char) : bool := (c =? chr ",")%N.

Definition digit_or_comma : regex := Cls (fun c => is_digit c || is_comma c).

(** [r"^[\$€£¥]?[\d,]+\.?\d*$"] *)
Definition currency_pattern : regex :=
  cat_all [Opt (Cls is_currency_symbol); Plus digit_or_comma;
           Opt (Chr (chr ".")); Star digit; Eos].

(** [r"^-?[\d,]+\.?\d*$"] *)
Definition number_pattern : regex :=
  cat_all [Opt (Chr (chr "-")); Plus digit_or_comma;
           Opt (Chr (chr ".")); Star digit; Eos].

(** [re.sub(r"[\$€£¥,]", "", s)] *)
Definition strip_currency (s : pystr) : pystr :=
  List.filter (fun c => negb (is_currency_symbol c || is_comma c)) s.

(** The display formats the source writes. *)
Definition fmt_percent : pystr := str "0.00%".
Definition fmt_currency_cents : pystr :=
  [dquote] ++ str "$" ++ [dquote] ++ str "#,##0.00".
Definition fmt_currency_int : pystr :=
  [dquote] ++ str "$" ++ [dquote] ++ str "#,##0".
Definition fmt_decimal : pystr := str "0.00".
Definition fmt_integer : pystr := str "0".
Definition fmt_datetime : pystr := str "mm/dd/yyyy h:mm".
Definition fmt_date : pystr := str "mm/dd/yyyy".

Definition is_match (m : option (captures * pystr)) : bool :=
  match m with Some _ => true | None => false end.

(** The statements of the first [try] block after the percentage check. *)
Definition detect_number (str_value : pystr) : res inferred :=
  if is_match (re_match currency_pattern str_value) then
    let numeric_part := strip_currency str_value in
    if contains_char (chr ".") numeric_part
    then x ← py_float numeric_part; Ok (VFloat x, Some fmt_currency_cents)
    else z ← py_int numeric_part; Ok (VInt z, Some fmt_currency_int)
  else if is_match (re_match number_pattern str_value) then
    let numeric_part := remove_char (chr ",") str_value in
    if contains_char (chr ".") numeric_part
    then x ← py_float numeric_part; Ok (VFloat x, Some fmt_decimal)
    else z ← py_int numeric_part; Ok (VInt z, Some fmt_integer)
  else if contains_char (chr ".") str_value
          || contains_char (chr "e") (lower str_value)
  then x ← py_float str_value; Ok (VFloat x, Some fmt_decimal)
  else z ← py_int str_value; Ok (VInt z, Some fmt_integer).

(** The first [try] block: it returns or raises. *)
Definition detect_numeric (str_value : pystr) : res inferred :=
  if endswith str_value (chr "%") then
    let numeric_part := remove_char (chr ",") (drop_last str_value) in
    if isdigit (remove_char (chr "-") (remove_char (chr ".") numeric_part))
    then x ← py_float numeric_part; Ok (VFloat (FloatDiv x 100), Some fmt_percent)
    else detect_number str_value
  else detect_number str_value.

Definition date_formats : list pystr :=
  [ str "%Y-%m-%d";
    str "%m/%d/%Y";
    str "%d/%m/%Y";
    str "%Y/%m/%d";
    str "%Y-%m-%d %H:%M:%S";
    str "%m/%d/%Y %H:%M:%S";
    str "%d/%m/%Y %H:%M:%S";
    str "%Y-%m-%d %H:%M";
    str "%m/%d/%Y %H:%M";
    str "%d/%m/%Y %H:%M" ].

(** The [for fmt in date_formats] loop; [None] when it runs to its end. *)
Fixpoint detect_date (formats : list pystr) (str_value : pystr)
  : res (option inferred) :=
  match formats with
  | [] => Ok None
  | fmt :: formats' =>
      catch
        (parsed_date ← strptime str_value fmt;
         if contains (str "%H") fmt
         then Ok (Some (VDateTime (dt_year parsed_date) (dt_month parsed_date)
                                  (dt_day parsed_date) (dt_hour parsed_date)
                                  (dt_minute parsed_date) (dt_second parsed_date),
                        Some fmt_datetime))
         else Ok (Some (VDate (dt_year parsed_date) (dt_month parsed_date)
                              (dt_day parsed_date),
                        Some fmt_date)))
        (is_kind [ValueError])
        (fun _ => detect_date formats' str_value)
  end.

(** The boolean check and the text fallback. *)
Definition detect_boolean (str_value : pystr) : inferred :=
  if str_in (lower str_value)
       [str "true"; str "false"; str "yes"; str "no"; str "1"; str "0"]
  then
    if str_in (lower str_value) [str "true"; str "yes"; str "1"]
    then (VBool true, None)
    else (VBool false, None)
  else (VStr str_value, None).

(** The function after [str_value] has been computed and found non-empty. *)
Definition infer_stripped (str_value : pystr) : res inferred :=
  catch (detect_numeric str_value) (is_kind [ValueError; TypeError])
    (fun _ =>
       d ← catch (detect_date date_formats str_value)
             (is_kind [ValueError; TypeError]) (fun _ => Ok None);
       match d with
       | Some r => Ok r
       | None => Ok (detect_boolean str_value)
       end).

Definition _infer_and_convert_data_type (value : pyval) : res inferred :=
  if is_none value || eq_empty_str value then Ok (VNone, None)
  else
    let str_value := strip (py_str value) in
    if str_eqb str_value [] then Ok (VNone, None)
    else infer_stripped str_value.

(** ** The spreadsheet collaborator (openpyxl) *)

Record cell := Cell { cell_value : pyval; cell_number_format : pystr }.

(** A cell that [ws.cell] creates on first access. *)
Definition blank_cell : cell := Cell VNone (str "General").

(** A worksheet: its title and [ws._cells], keyed by (row, column). *)
Record worksheet := Worksheet {
  ws_title : pystr;
  ws_cells : gmap (Z * Z) cell
}.

Definition cell_rows (ws : worksheet) : list Z :=
  List.map (fun kv => fst (fst kv)) (map_to_list (ws_cells ws)).

Definition cell_columns (ws : worksheet) : list Z :=
  List.map (fun kv => snd (fst kv)) (map_to_list (ws_cells ws)).

(** [min(l)] and [max(l)], with the value the properties report for a sheet
    without cells. *)
Definition min_or (d : Z) (l : list Z) : Z :=
  match l with [] => d | x :: l' => fold_right Z.min x l' end.
Definition max_or (d : Z) (l : list Z) : Z :=
  match l with [] => d | x :: l' => fold_right Z.max x l' end.

Definition min_row (ws : worksheet) : Z := min_or 1 (cell_rows ws).
Definition max_row (ws : worksheet) : Z := max_or 1 (cell_rows ws).
Definition min_column (ws : worksheet) : Z := min_or 1 (cell_columns ws).
Definition max_column (ws : worksheet) : Z := max_or 1 (cell_columns ws).

Definition max_sheet_row : Z := 1048576.

(** The argument checks of [ws.cell(row, column)]. *)
Definition check_cell (row column : Z) : res unit :=
  if (row <? 1) || (column <? 1) then
    Raise (Exn ValueError (str "Row or column values must be at least 1"))
  else if max_sheet_row <? row then
    Raise (Exn ValueError
             (str "Row numbers must be between 1 and 1048576. Row number supplied was "
              ++ str_of_Z row))
  else Ok tt.

Definition cell_at (ws : worksheet) (row column : Z) : cell :=
  default blank_cell (ws_cells ws !! (row, column)).

(** [ws.cell(row, column).value], reading.  The blank cells that the access
    adds to the sheet in memory hold [None] and are left out: a reader never
    saves the workbook. *)
Definition read_cell_value (ws : worksheet) (row column : Z) : res pyval :=
  _ ← check_cell row column;
  Ok (cell_value (cell_at ws row column)).

(** [ws.cell(row, column)], writing: the cell exists afterwards. *)
Definition ws_cell (ws : worksheet) (row column : Z) : res worksheet :=
  _ ← check_cell row column;
  Ok (Worksheet (ws_title ws)
        (<[(row, column) := cell_at ws row column]> (ws_cells ws))).

(** [openpyxl.styles.numbers.is_date_format], which the setter of a cell
    value consults.  The test has changed between versions of the library
    and is left abstract. *)
Variable is_date_format : pystr -> bool.

(** The formats of [ISO_FORMATS] for a [date] and a [datetime]. *)
Definition iso_date_format : pystr := str "yyyy-mm-dd".
Definition iso_datetime_format : pystr := str "yyyy-mm-dd h:mm:ss".

(** [Cell.check_string]: text is cut to 32767 characters and may hold none
    of the control characters of [ILLEGAL_CHARACTERS_RE]. *)
Definition max_cell_text : nat := Z.to_nat 32767.

Definition is_illegal_char (c : char) : bool :=
  in_range 0 8 c || in_range 11 12 c || in_range 14 31 c.

Definition check_string (s : pystr) : res pystr :=
  let value := firstn max_cell_text s in
  if existsb is_illegal_char value then
    Raise (Exn IllegalCharacterError
             (value ++ str " cannot be used in worksheets."))
  else Ok value.

(** [Cell._bind_value], the setter of [cell.value], on the cell: a date or
    a date-time gives the cell an ISO format unless its format is a date
    format already; text goes through [check_string]; any other value is
    stored as it is. *)
Definition bind_value (c : cell) (v : pyval) : res cell :=
  match v with
  | VStr s =>
      value ← check_string s;
      Ok (Cell (VStr value) (cell_number_format c))
  | VDate _ _ _ =>
      Ok (Cell v (if is_date_format (cell_number_format c)
                  then cell_number_format c else iso_date_format))
  | VDateTime _ _ _ _ _ _ =>
      Ok (Cell v (if is_date_format (cell_number_format c)
                  then cell_number_format c else iso_datetime_format))
  | _ => Ok (Cell v (cell_number_format c))
  end.

(** [cell.value = v] *)
Definition set_value (ws : worksheet) (row column : Z) (v : pyval)
  : res worksheet :=
  c ← bind_value (cell_at ws row column) v;
  Ok (Worksheet (ws_title ws) (<[(row, column) := c]> (ws_cells ws))).

(** [cell.number_format = f] *)
Definition set_number_format (ws : worksheet) (row column : Z) (f : pystr)
  : worksheet :=
  Worksheet (ws_title ws)
    (<[(row, column) := Cell (cell_value (cell_at ws row column)) f]>
       (ws_cells ws)).

Definition letter_of (k : Z) : char := Z.to_N (65 + k).

Fixpoint column_letters (fuel : nat) (n : Z) : pystr :=
  match fuel with
  | O => []
  | S fuel' =>
      if n <=? 0 then []
      else column_letters fuel' ((n - 1) / 26) ++ [letter_of ((n - 1) mod 26)]
  end.

(** [openpyxl.utils.get_column_letter]: columns 1 (A) to 18278 (ZZZ). *)
Definition get_column_letter (col_idx : Z) : res pystr :=
  if (1 <=? col_idx) && (col_idx <=? 18278)
  then Ok (column_letters 3 col_idx)
  else Raise (Exn ValueError (str "Invalid column index " ++ str_of_Z col_idx)).

(** A workbook: its sheets in order and the index of the active one. *)
Record workbook := Workbook {
  wb_sheets : list worksheet;
  wb_active_index : nat
}.

Definition sheetnames (wb : workbook) : list pystr :=
  List.map ws_title (wb_sheets wb).

(** [wb[name]] *)
Definition wb_getitem (wb : workbook) (name : pystr) : res worksheet :=
  match List.find (fun ws => str_eqb (ws_title ws) name) (wb_sheets wb) with
  | Some ws => Ok ws
  | None => Raise (Exn KeyError (str "Worksheet " ++ name ++ str " does not exist."))
  end.

(** [wb.active] *)
Definition wb_active (wb : workbook) : option worksheet :=
  nth_error (wb_sheets wb) (wb_active_index wb).

(** [openpyxl.workbook.child.avoid_duplicate_name]: the title a new sheet
    gets, from the titles of the workbook and the title asked for.  The
    library compares titles without regard to case and appends a number to
    a title that is taken; the function is left abstract. *)
Variable avoid_duplicate_name : list pystr -> pystr -> pystr.

(** [INVALID_TITLE_REGEX]: a backslash or one of the characters of the
    list. *)
Definition is_invalid_title_char (c : char) : bool :=
  (c =? 92)%N || contains_char c (str "*?:/[]").

(** [wb.create_sheet(title)]: a new empty sheet after the others.  The
    title setter of the new sheet refuses some characters and renames a
    duplicate. *)
Definition create_sheet (wb : workbook) (title : pystr) : res workbook :=
  let value := match title with [] => str "Sheet" | _ => title end in
  match List.find is_invalid_title_char value with
  | Some c =>
      Raise (Exn ValueError
               (str "Invalid character " ++ [c] ++ str " found in sheet title"))
  | None =>
      Ok (Workbook
            (wb_sheets wb
             ++ [Worksheet (avoid_duplicate_name (sheetnames wb) value) ∅])
            (wb_active_index wb))
  end.

(** The sheet [wb[name]] is an object of the workbook: after it has been
    written to, the workbook holds the written sheet. *)
Fixpoint replace_sheet (sheets : list worksheet) (name : pystr)
    (ws' : worksheet) : list worksheet :=
  match sheets with
  | [] => []
  | ws :: rest =>
      if str_eqb (ws_title ws) name then ws' :: rest
      else ws :: replace_sheet rest name ws'
  end.

Definition wb_update (wb : workbook) (name : pystr) (ws' : worksheet) : workbook :=
  Workbook (replace_sheet (wb_sheets wb) name ws') (wb_active_index wb).

(** The files on disk: a file is the workbook it holds, as the library
    keeps a workbook in memory.  The encoding of a workbook in the file is
    not represented, so what a file returns when it is loaded after a save
    is outside the model (the library reads an empty string back as
    [None], for one); the properties of a write are about the workbook
    that is saved. *)
Definition files := gmap pystr workbook.

(** [load_workbook(filepath)] *)
Definition load_workbook (fs : files) (filepath : pystr) : res workbook :=
  match fs !! filepath with
  | Some wb => Ok wb
  | None =>
      Raise (Exn FileNotFoundError
               (str "[Errno 2] No such file or directory: " ++ py_repr filepath))
  end.

(** [wb.save(filepath)] *)
Definition save (fs : files) (filepath : pystr) (wb : workbook) : files :=
  <[filepath := wb]> fs.

(** ** Range transfer ([data.py]) *)

(** [str(e)] *)
Definition exn_str (e : exn) : pystr :=
  match exn_kind_of e with
  | KeyError => py_repr (exn_msg e)
  | _ => exn_msg e
  end.

(** [except DataError: raise] followed by
    [except Exception as e: raise DataError(str(e))]. *)
Definition as_data_error {A} (m : res A) : res A :=
  catch m (fun e => negb (is_kind [DataError] e))
    (fun e => Raise (Exn DataError (exn_str e))).

(** [cell_utils.parse_cell_range], which is not among the source files: a
    function from the reference text to a tuple of coordinates, or an
    exception. *)
Variable parse_cell_range : pystr -> res (list (option Z)).

(** [range(a, b)] *)
Definition py_range (a b : Z) : list Z :=
  List.map (fun i => a + Z.of_nat i) (seq 0 (Z.to_nat (b - a))).

(** [s.split(c)] *)
Fixpoint split (c : char) (s : pystr) : list pystr :=
  match s with
  | [] => [[]]
  | d :: s' =>
      if (d =? c)%N then [] :: split c s'
      else match split c s' with
           | part :: parts => (d :: part) :: parts
           | [] => [[d]]
           end
  end.

(** [a, b = parts] *)
Definition unpack2 (parts : list pystr) : res (pystr * pystr) :=
  match parts with
  | [a; b] => Ok (a, b)
  | _ :: _ :: _ :: _ =>
      Raise (Exn ValueError (str "too many values to unpack (expected 2)"))
  | _ => Raise (Exn ValueError (str "not enough values to unpack (expected 2)"))
  end.

(** The test on a parsed tuple and the selection of its first two entries. *)
Definition first_two (coords : list (option Z)) (invalid : exn) : res (Z * Z) :=
  match coords with
  | [] => Raise invalid
  | [Some _] => Raise (Exn IndexError (str "tuple index out of range"))
  | Some r :: Some c :: _ => Ok (r, c)
  | _ => Raise invalid
  end.

(** The [try] block that resolves the coordinates of one cell reference;
    [which] is the word "start" or "end" of the messages. *)
Definition cell_coords (which cell_ref parsed_text : pystr) : res (Z * Z) :=
  catch
    (coords ← parse_cell_range parsed_text;
     first_two coords
       (Exn DataError (str "Invalid " ++ which ++ str " cell reference: " ++ cell_ref)))
    (is_kind [ValueError])
    (fun e => Raise (Exn DataError
                       (str "Invalid " ++ which ++ str " cell format: " ++ exn_str e))).

Definition truthy_str (s : option pystr) : bool :=
  match s with
  | Some (_ :: _) => true
  | _ => false
  end.

(** The inner [for col in range(start_col, end_col + 1)] loop. *)
Fixpoint read_row (ws : worksheet) (row : Z) (cols : list Z)
    (row_data : list pyval) : res (list pyval) :=
  match cols with
  | [] => Ok row_data
  | col :: cols' =>
      v ← read_cell_value ws row col;
      read_row ws row cols' (row_data ++ [v])
  end.

(** The outer [for row in range(start_row, end_row + 1)] loop. *)
Fixpoint read_rows (ws : worksheet) (rows cols : list Z)
    (data : list (list pyval)) : res (list (list pyval)) :=
  match rows with
  | [] => Ok data
  | row :: rows' =>
      row_data ← read_row ws row cols [];
      read_rows ws rows' cols
        (if existsb (fun v => negb (is_none v)) row_data
         then data ++ [row_data] else data)
  end.

(** The sheet is the single empty cell of a sheet without data. *)
Definition sheet_is_empty (ws : worksheet) : bool :=
  (max_row ws =? 1) && (max_column ws =? 1)
  && is_none (cell_value (cell_at ws 1 1)).

(** The arguments of the warning of the bounds check. *)
Definition boundary_text (ws : worksheet) : res pystr :=
  a ← get_column_letter (min_column ws);
  b ← get_column_letter (max_column ws);
  Ok (a ++ str_of_Z (min_row ws) ++ str ":" ++ b ++ str_of_Z (max_row ws)).

(** The start and end references after the split of a range given as the
    start cell. *)
Definition split_start (start_cell : pystr) (end_cell : option pystr)
  : res (pystr * option pystr) :=
  if contains_char (chr ":") start_cell then
    '(a, b) ← unpack2 (split (chr ":") start_cell);
    Ok (a, Some b)
  else Ok (start_cell, end_cell).

Definition read_excel_range (fs : files) (filepath sheet_name start_cell : pystr)
    (end_cell : option pystr) (preview_only : bool) : res (list (list pyval)) :=
  as_data_error
    (wb ← load_workbook fs filepath;
     if negb (str_in sheet_name (sheetnames wb)) then
       Raise (Exn DataError (str "Sheet '" ++ sheet_name ++ str "' not found"))
     else
       ws ← wb_getitem wb sheet_name;
       '(start_cell, end_cell) ← split_start start_cell end_cell;
       '(start_row, start_col) ←
          cell_coords (str "start") start_cell (start_cell ++ str ":" ++ start_cell);
       '(start_row, start_col, end_row, end_col) ←
          (if truthy_str end_cell then
             let end_cell := default [] end_cell in
             '(end_row, end_col) ←
                cell_coords (str "end") end_cell (end_cell ++ str ":" ++ end_cell);
             Ok (start_row, start_col, end_row, end_col)
           else if sheet_is_empty ws then
             Ok (start_row, start_col, start_row, start_col)
           else
             Ok (min_row ws, min_column ws, max_row ws, max_column ws));
       if (max_row ws <? start_row) || (max_column ws <? start_col) then
         _ ← boundary_text ws;
         Ok []
       else
         read_rows ws (py_range start_row (end_row + 1))
           (py_range start_col (end_col + 1)) []).

(** [cell_validation.get_data_validation_for_cell], which is not among the
    source files, and the type of the descriptors it returns ([None] stands
    for a result that tests false). *)
Variable validation_info : Type.
Variable get_data_validation_for_cell :
  worksheet -> pystr -> res (option validation_info).

(** The value under the key "validation" of a cell record. *)
Inductive validation_entry :=
| Validation (info : validation_info)
| HasNoValidation.

(** The dictionary [cell_data]; [cr_validation] is [None] when the key is
    absent. *)
Record cell_record := CellRecord {
  cr_address : pystr;
  cr_value : pyval;
  cr_row : Z;
  cr_column : Z;
  cr_validation : option validation_entry
}.

(** The dictionary [range_data]. *)
Record range_data := RangeData {
  rd_range : pystr;
  rd_sheet_name : pystr;
  rd_cells : list cell_record
}.

(** The body of the inner loop of the metadata read. *)
Definition read_cell_record (ws : worksheet) (include_validation : bool)
    (row col : Z) : res cell_record :=
  v ← read_cell_value ws row col;
  letter ← get_column_letter col;
  let cell_address := letter ++ str_of_Z row in
  if include_validation then
    validation_info ← get_data_validation_for_cell ws cell_address;
    Ok (CellRecord cell_address v row col
          (Some (match validation_info with
                 | Some info => Validation info
                 | None => HasNoValidation
                 end)))
  else Ok (CellRecord cell_address v row col None).

Fixpoint read_record_row (ws : worksheet) (include_validation : bool)
    (row : Z) (cols : list Z) (cells : list cell_record)
  : res (list cell_record) :=
  match cols with
  | [] => Ok cells
  | col :: cols' =>
      cell_data ← read_cell_record ws include_validation row col;
      read_record_row ws include_validation row cols' (cells ++ [cell_data])
  end.

Fixpoint read_records (ws : worksheet) (include_validation : bool)
    (rows cols : list Z) (cells : list cell_record) : res (list cell_record) :=
  match rows with
  | [] => Ok cells
  | row :: rows' =>
      cells' ← read_record_row ws include_validation row cols cells;
      read_records ws include_validation rows' cols cells'
  end.

Definition read_excel_range_with_metadata (fs : files)
    (filepath sheet_name start_cell : pystr) (end_cell : option pystr)
    (include_validation : bool) : res range_data :=
  as_data_error
    (wb ← load_workbook fs filepath;
     if negb (str_in sheet_name (sheetnames wb)) then
       Raise (Exn DataError (str "Sheet '" ++ sheet_name ++ str "' not found"))
     else
       ws ← wb_getitem wb sheet_name;
       '(start_cell, end_cell) ← split_start start_cell end_cell;
       '(start_row, start_col) ←
          cell_coords (str "start") start_cell (start_cell ++ str ":" ++ start_cell);
       '(start_row, start_col, end_row, end_col) ←
          (if truthy_str end_cell then
             let end_cell := default [] end_cell in
             '(end_row, end_col) ←
                cell_coords (str "end") end_cell (end_cell ++ str ":" ++ end_cell);
             Ok (start_row, start_col, end_row, end_col)
           else if sheet_is_empty ws then
             Ok (start_row, start_col, start_row, start_col)
           else if str_eqb start_cell (str "A1") then
             Ok (min_row ws, min_column ws, max_row ws, max_column ws)
           else
             Ok (start_row, start_col, max_row ws, max_column ws));
       if (max_row ws <? start_row) || (max_column ws <? start_col) then
         _ ← boundary_text ws;
         Ok (RangeData (start_cell ++ str ":") sheet_name [])
       else
         a ← get_column_letter start_col;
         b ← get_column_letter end_col;
         let range_str := a ++ str_of_Z start_row ++ str ":" ++ b ++ str_of_Z end_row in
         cells ← read_records ws include_validation
                   (py_range start_row (end_row + 1))
                   (py_range start_col (end_col + 1)) [];
         Ok (RangeData range_str sheet_name cells)).

(** [enumerate(l)] *)
Definition enumerate {A} (l : list A) : list (Z * A) :=
  combine (List.map Z.of_nat (seq 0 (length l))) l.

(** [if number_format:] *)
Definition truthy_format (f : option pystr) : bool := truthy_str f.

(** The body of the inner loop of the write, on the worksheet in memory. *)
Definition write_cell (ws : worksheet) (auto_detect_types : bool)
    (row col : Z) (val : pyval) : worksheet * res unit :=
  match ws_cell ws row col with
  | Raise e => (ws, Raise e)
  | Ok ws1 =>
      if auto_detect_types then
        match _infer_and_convert_data_type val with
        | Raise e => (ws1, Raise e)
        | Ok (converted_value, number_format) =>
            match set_value ws1 row col converted_value with
            | Raise e => (ws1, Raise e)
            | Ok ws2 =>
                if truthy_format number_format
                then (set_number_format ws2 row col (default [] number_format),
                      Ok tt)
                else (ws2, Ok tt)
            end
        end
      else
        match set_value ws1 row col val with
        | Raise e => (ws1, Raise e)
        | Ok ws2 => (ws2, Ok tt)
        end
  end.

(** [for j, val in enumerate(row)] *)
Fixpoint write_row (ws : worksheet) (auto_detect_types : bool)
    (start_row start_col i : Z) (row : list (Z * pyval)) : worksheet * res unit :=
  match row with
  | [] => (ws, Ok tt)
  | (j, val) :: row' =>
      match write_cell ws auto_detect_types (start_row + i) (start_col + j) val with
      | (ws', Ok _) => write_row ws' auto_detect_types start_row start_col i row'
      | (ws', Raise e) => (ws', Raise e)
      end
  end.

(** [for i, row in enumerate(data)] *)
Fixpoint write_rows (ws : worksheet) (auto_detect_types : bool)
    (start_row start_col : Z) (data : list (Z * list pyval))
  : worksheet * res unit :=
  match data with
  | [] => (ws, Ok tt)
  | (i, row) :: data' =>
      match write_row ws auto_detect_types start_row start_col i (enumerate row) with
      | (ws', Ok _) => write_rows ws' auto_detect_types start_row start_col data'
      | (ws', Raise e) => (ws', Raise e)
      end
  end.

Definition no_data : exn := Exn DataError (str "No data provided to write").

(** The worksheet is changed in place: the result is the worksheet after
    the call together with the outcome. *)
Definition _write_data_to_worksheet (sheet : worksheet)
    (data : list (list pyval)) (start_cell : pystr) (auto_detect_types : bool)
  : worksheet * res unit :=
  match data with
  | [] => (sheet, as_data_error (Raise no_data))
  | _ =>
      match cell_coords (str "start") start_cell start_cell with
      | Raise e => (sheet, as_data_error (Raise e))
      | Ok (start_row, start_col) =>
          let '(ws', r) :=
            write_rows sheet auto_detect_types start_row start_col
              (enumerate data) in
          (ws', as_data_error r)
      end
  end.

(** The dictionary that [write_data] returns. *)
Record write_result := WriteResult {
  message : pystr;
  active_sheet : pystr
}.

Definition falsy_data (data : option (list (list pyval))) : bool :=
  match data with
  | Some (_ :: _) => false
  | _ => true
  end.

(** The sheet to write to: the workbook, with the sheet created if it was
    missing, and the name of the sheet. *)
Definition target_sheet (wb : workbook) (sheet_name : option pystr)
  : res (workbook * pystr) :=
  if negb (truthy_str sheet_name) then
    match wb_active wb with
    | Some ws => Ok (wb, ws_title ws)
    | None =>
        Raise (Exn AttributeError
                 (str "'NoneType' object has no attribute 'title'"))
    end
  else
    let sheet_name := default [] sheet_name in
    if negb (str_in sheet_name (sheetnames wb))
    then wb' ← create_sheet wb sheet_name; Ok (wb', sheet_name)
    else Ok (wb, sheet_name).

(** The files after the call, and the outcome; the workbook is saved only
    when every statement before [wb.save] has succeeded. *)
Definition write_data (fs : files) (filepath : pystr) (sheet_name : option pystr)
    (data : option (list (list pyval))) (start_cell : pystr)
    (auto_detect_types : bool) : files * res write_result :=
  let outcome :=
    as_data_error
      (if falsy_data data then Raise no_data
       else
         let data := default [] data in
         wb ← load_workbook fs filepath;
         '(wb, sheet_name) ← target_sheet wb sheet_name;
         ws ← wb_getitem wb sheet_name;
         _ ← cell_coords (str "start") start_cell start_cell;
         ws' ← (if (0 <? length data)%nat then
                  match _write_data_to_worksheet ws data start_cell
                          auto_detect_types with
                  | (ws', Ok _) => Ok ws'
                  | (_, Raise e) => Raise e
                  end
                else Ok ws);
         Ok (save fs filepath (wb_update wb sheet_name ws'),
             WriteResult
               (str "Data written to " ++ sheet_name ++ str " with type detection")
               sheet_name))
  in
  match outcome with
  | Ok (fs', result) => (fs', Ok result)
  | Raise e => (fs, Raise e)
  end.

End Collaborators.

Arguments Validation {validation_info} info.
Arguments HasNoValidation {validation_info}.
Arguments CellRecord {validation_info} _ _ _ _ _.
Arguments cr_address {validation_info} c.
Arguments cr_value {validation_info} c.
Arguments cr_row {validation_info} c.
Arguments cr_column {validation_info} c.
Arguments cr_validation {validation_info} c.
Arguments RangeData {validation_info} _ _ _.
Arguments rd_range {validation_info} r.
Arguments rd_sheet_name {validation_info} r.
Arguments rd_cells {validation_info} r.
Arguments read_cell_record {validation_info} _ _ _ _ _.
Arguments read_record_row {validation_info} _ _ _ _ _ _.
Arguments read_records {validation_info} _ _ _ _ _ _.
Arguments read_excel_range_with_metadata _ {validation_info} _ _ _ _ _ _ _.

(** ** Path resolution ([server.py]) *)

(** [os.path.isabs] and [os.path.join] of [posixpath]. *)
Definition isabs (p : pystr) : bool := is_prefix (str "/") p.

Definition path_join (a b : pystr) : pystr :=
  if isabs b then b
  else if str_eqb a [] || endswith a (chr "/") then a ++ b
  else a ++ str "/" ++ b.

(** The module variable [EXCEL_FILES_PATH] is an argument. *)
Definition get_excel_path (EXCEL_FILES_PATH : option pystr) (filename : pystr)
  : res pystr :=
  if isabs filename then Ok filename
  else
    match EXCEL_FILES_PATH with
    | None =>
        Raise (Exn ValueError
                 (str "Invalid filename: " ++ filename
                  ++ str ", must be an absolute path when not in SSE mode"))
    | Some base => Ok (path_join base filename)
    end.

(** ** An address parser for concrete runs *)

Definition is_letter (c : char) : bool := in_range 65 90 c || in_range 97 122 c.

Definition upper_char (c : char) : char :=
  if in_range 97 122 c then (c - 32)%N else c.

(** Base 26 without a zero digit: A = 1, Z = 26, AA = 27. *)
Definition column_index (letters : pystr) : Z :=
  fold_left (fun acc c => 26 * acc + (Z.of_N (upper_char c) - 64)) letters 0.

Definition address_pattern : regex :=
  Cat (Grp "col" (Plus (Cls is_letter))) (Grp "row" (Plus digit)).

Definition bad_address (s : pystr) : exn :=
  Exn ValueError (str "Invalid cell reference: " ++ s).

(** Modelled from the spec: the decoding of one cell address by
    [cell_utils.parse_cell_range], which is not among the source files.
    Section 4.1: column letters, case-insensitive, then row digits; the row
    is at least 1; anything else is a parse failure. *)
Definition parse_address (s : pystr) : res (Z * Z) :=
  match List.find (fun '(_, rest) => str_eqb rest []) (rmatch address_pattern [] s) with
  | Some (cs, _) =>
      match group cs "col", group cs "row" with
      | Some letters, Some digits =>
          row ← py_int digits;
          if row <? 1 then Raise (bad_address s)
          else Ok (row, column_index letters)
      | _, _ => Raise (bad_address s)
      end
  | None => Raise (bad_address s)
  end.

(** Modelled from the spec: [cell_utils.parse_cell_range], which is not
    among the source files.  Section 4.1: a bare cell reference or a
    [start:end] reference, split on the colon with each side decoded on its
    own; for a bare reference start and end coincide.  The result is the
    tuple (start row, start column, end row, end column). *)
Definition spec_parse_cell_range (range_text : pystr) : res (list (option Z)) :=
  match split (chr ":") range_text with
  | [a] =>
      '(r, c) ← parse_address a;
      Ok [Some r; Some c; Some r; Some c]
  | [a; b] =>
      '(r1, c1) ← parse_address a;
      '(r2, c2) ← parse_address b;
      Ok [Some r1; Some c1; Some r2; Some c2]
  | _ => Raise (bad_address range_text)
  end.

(** A float printer for concrete runs on data without floats. *)
Definition no_float_repr (x : pyfloat) : pystr := str "nan".

(** ** Vocabulary of the properties *)

(** An absent, empty or whitespace-only input. *)
Definition is_blank (value : pyval) : bool :=
  match value with
  | VNone => true
  | VStr s => forallb is_space s
  | _ => false
  end.

Definition is_ok {A} (m : res A) : bool :=
  match m with Ok _ => true | Raise _ => false end.

(** The tests of the detection steps, as the source writes them. *)
Definition percent_shape (sv : pystr) : bool :=
  endswith sv (chr "%")
  && isdigit (remove_char (chr "-") (remove_char (chr ".")
                (remove_char (chr ",") (drop_last sv)))).

Definition currency_shape (sv : pystr) : bool :=
  is_match (re_match currency_pattern sv).

Definition number_shape (sv : pystr) : bool :=
  is_match (re_match number_pattern sv).

Definition converts_directly (sv : pystr) : bool :=
  if contains_char (chr ".") sv || contains_char (chr "e") (lower sv)
  then is_ok (py_float sv) else is_ok (py_int sv).

Definition date_shape (sv : pystr) : bool :=
  existsb (fun fmt => is_ok (strptime sv fmt)) date_formats.

Definition boolean_word (sv : pystr) : bool :=
  str_in (lower sv)
    [str "true"; str "false"; str "yes"; str "no"; str "1"; str "0"].

Definition matches_no_pattern (sv : pystr) : bool :=
  negb (percent_shape sv || currency_shape sv || number_shape sv
        || converts_directly sv || date_shape sv || boolean_word sv).

(** A string of digits and thousands separators with at least one digit. *)
Definition digits_and_commas (s : pystr) : bool :=
  forallb (fun c => is_digit c || is_comma c) s && existsb is_digit s.

Definition truth_words : list pystr :=
  [str "true"; str "false"; str "yes"; str "no"].

(** The values of one row of a rectangle, and the test of the plain read
    for keeping a row. *)
Definition row_values (ws : worksheet) (cols : list Z) (row : Z) : list pyval :=
  List.map (fun col => cell_value (cell_at ws row col)) cols.

Definition has_value (row_data : list pyval) : bool :=
  existsb (fun v => negb (is_none v)) row_data.

(** What the metadata read is compared on: row, column and value. *)
Definition record_key {validation_info} (cr : cell_record validation_info)
  : Z * Z * pyval :=
  (cr_row cr, cr_column cr, cr_value cr).

(** Every cell of a rectangle, row by row. *)
Definition rectangle_cells (ws : worksheet) (rows cols : list Z)
  : list (Z * Z * pyval) :=
  flat_map (fun row =>
              List.map (fun col => (row, col, cell_value (cell_at ws row col))) cols)
           rows.

(** The rectangle a reader resolves once the start cell and the end cell,
    when there is one, have their coordinates: the coordinates given, the
    start cell alone on an empty sheet, or the corners the sheet reports;
    the metadata read keeps the coordinates of a start cell that is not
    written "A1". *)
Definition plain_rectangle (ws : worksheet) (start : Z * Z)
    (end_coords : option (Z * Z)) : Z * Z * Z * Z :=
  match end_coords with
  | Some e => (fst start, snd start, fst e, snd e)
  | None =>
      if sheet_is_empty ws then (fst start, snd start, fst start, snd start)
      else (min_row ws, min_column ws, max_row ws, max_column ws)
  end.

Definition metadata_rectangle (ws : worksheet) (start_ref : pystr)
    (start : Z * Z) (end_coords : option (Z * Z)) : Z * Z * Z * Z :=
  match end_coords with
  | Some e => (fst start, snd start, fst e, snd e)
  | None =>
      if sheet_is_empty ws then (fst start, snd start, fst start, snd start)
      else if str_eqb start_ref (str "A1")
      then (min_row ws, min_column ws, max_row ws, max_column ws)
      else (fst start, snd start, max_row ws, max_column ws)
  end.

(** The coordinates of the end cell: those its text resolves to, and none
    when no end cell is given. *)
Definition end_resolves (parse_cell_range : pystr -> res (list (option Z)))
    (end_ref : option pystr) (end_coords : option (Z * Z)) : Prop :=
  if truthy_str end_ref then
    exists e,
      end_coords = Some e
      /\ cell_coords parse_cell_range (str "end") (default [] end_ref)
           (default [] end_ref ++ str ":" ++ default [] end_ref)
         = Ok e
  else end_coords = None.

(** A sheet with one more cell of the format "General", for the sheets of
    concrete runs. *)
Definition with_cell (ws : worksheet) (row column : Z) (v : pyval) : worksheet :=
  Worksheet (ws_title ws)
    (<[(row, column) := Cell v (str "General")]> (ws_cells ws)).

(** A sheet for concrete runs: "Name" in A1 and 5 in B2. *)
Definition demo_sheet : worksheet :=
  with_cell (with_cell (Worksheet (str "Sheet1") ∅) 1 1 (VStr (str "Name")))
    2 2 (VInt 5).

(** A date-format test for concrete runs: one of the letters d, m, h, y, s
    outside quoted text.  It agrees with the library on the formats of
    this file. *)
Fixpoint unquoted (inside : bool) (s : pystr) : pystr :=
  match s with
  | [] => []
  | c :: s' =>
      if (c =? dquote)%N then unquoted (negb inside) s'
      else if inside then unquoted inside s'
      else c :: unquoted inside s'
  end.

Definition date_letters (fmt : pystr) : bool :=
  existsb (fun c => contains_char (lower_char c) (str "dmhys"))
    (unquoted false fmt).

(** A duplicate check for concrete runs: a title that no sheet has, up to
    the case of ASCII letters, is kept, and 1 is appended to a title that
    is taken.  It agrees with the library on the titles of this file. *)
Definition first_free_title (names : list pystr) (value : pystr) : pystr :=
  if existsb (fun n => str_eqb (lower n) (lower value)) names
  then value ++ str "1" else value.

Definition demo_workbook : workbook := Workbook [demo_sheet] 0.

Definition demo_files : files := {[ str "/data/book.xlsx" := demo_workbook ]}.

(** ** The writing tool ([server.py])

    [write_data_to_excel]: the files after the call and the text returned,
    or the exception raised.  [ValidationError] is the project's own class
    and no modelled code raises it, so the first [except] clause is the one
    for [DataError]. *)
Definition write_data_to_excel (float_repr : pyfloat -> pystr)
    (is_date_format : pystr -> bool)
    (avoid_duplicate_name : list pystr -> pystr -> pystr)
    (parse_cell_range : pystr -> res (list (option Z)))
    (EXCEL_FILES_PATH : option pystr) (fs : files)
    (filepath sheet_name : pystr) (data : list (list pyval))
    (start_cell : pystr) (auto_detect_types : bool) : files * res pystr :=
  match get_excel_path EXCEL_FILES_PATH filepath with
  | Raise e => (fs, Raise e)
  | Ok full_path =>
      match write_data float_repr is_date_format avoid_duplicate_name
              parse_cell_range fs full_path (Some sheet_name) (Some data)
              start_cell auto_detect_types with
      | (fs', Ok result) => (fs', Ok (message result))
      | (fs', Raise e) =>
          if is_kind [DataError] e
          then (fs', Ok (str "Error: " ++ exn_str e))
          else (fs', Raise e)
      end
  end.

(** ** Automatic formatting ([auto_format_data_range] in [server.py]) *)

Section AutoFormat.

Variable float_repr : pyfloat -> pystr.
Variable is_date_format : pystr -> bool.

(** The call [parse_cell_range(start_cell, end_cell)] of the missing
    [cell_utils.parse_cell_range] with both of its arguments. *)
Variable parse_cell_range_2 : pystr -> pystr -> res (list (option Z)).

(** [a, b, c, d = t] *)
Definition unpack4 (t : list (option Z))
  : res (option Z * option Z * option Z * option Z) :=
  match t with
  | [a; b; c; d] => Ok (a, b, c, d)
  | _ =>
      if (length t <? 4)%nat then
        Raise (Exn ValueError
                 (str "not enough values to unpack (expected 4, got "
                  ++ str_of_Z (Z.of_nat (length t)) ++ str ")"))
      else Raise (Exn ValueError (str "too many values to unpack (expected 4)"))
  end.

(** [range(start, stop + 1)] where either bound may be [None]. *)
Definition range_through (start stop : option Z) : res (list Z) :=
  match stop, start with
  | None, _ =>
      Raise (Exn TypeError
               (str "unsupported operand type(s) for +: 'NoneType' and 'int'"))
  | Some _, None =>
      Raise (Exn TypeError
               (str "'NoneType' object cannot be interpreted as an integer"))
  | Some e, Some s => Ok (py_range s (e + 1))
  end.

(** The body of the inner loop: the worksheet and the count afterwards. *)
Definition format_cell (ws : worksheet) (row col : Z) (formatted_count : Z)
  : res (worksheet * Z) :=
  ws1 ← ws_cell ws row col;
  let value := cell_value (cell_at ws1 row col) in
  if negb (is_none value) then
    '(converted_value, number_format) ←
       _infer_and_convert_data_type float_repr value;
    if truthy_format number_format && negb (is_none converted_value) then
      ws2 ← set_value is_date_format ws1 row col converted_value;
      Ok (set_number_format ws2 row col (default [] number_format),
          formatted_count + 1)
    else Ok (ws1, formatted_count)
  else Ok (ws1, formatted_count).

Fixpoint format_row (ws : worksheet) (row : Z) (cols : list Z)
    (formatted_count : Z) : res (worksheet * Z) :=
  match cols with
  | [] => Ok (ws, formatted_count)
  | col :: cols' =>
      '(ws', formatted_count') ← format_cell ws row col formatted_count;
      format_row ws' row cols' formatted_count'
  end.

Fixpoint format_rows (ws : worksheet) (rows : list Z)
    (start_col end_col : option Z) (formatted_count : Z)
  : res (worksheet * Z) :=
  match rows with
  | [] => Ok (ws, formatted_count)
  | row :: rows' =>
      cols ← range_through start_col end_col;
      '(ws', formatted_count') ← format_row ws row cols formatted_count;
      format_rows ws' rows' start_col end_col formatted_count'
  end.

(** The range to format: the text of an early return, or the four bounds. *)
Definition format_bounds (ws : worksheet) (start_cell : pystr)
    (end_cell : option pystr)
  : res (pystr + (option Z * option Z * option Z * option Z)) :=
  if truthy_str end_cell then
    match (t ← parse_cell_range_2 start_cell (default [] end_cell); unpack4 t) with
    | Ok bounds => Ok (inr bounds)
    | Raise e =>
        if is_kind [ValueError] e
        then Ok (inl (str "Error: Invalid cell range: " ++ exn_str e))
        else Raise e
    end
  else Ok (inr (Some 1, Some 1, Some (max_row ws), Some (max_column ws))).

(** The files after the call and the text returned; the function catches
    every exception. *)
Definition auto_format_data_range (EXCEL_FILES_PATH : option pystr)
    (fs : files) (filepath sheet_name start_cell : pystr)
    (end_cell : option pystr) : files * pystr :=
  let attempt : res (files * pystr) :=
    full_path ← get_excel_path EXCEL_FILES_PATH filepath;
    wb ← load_workbook fs full_path;
    if negb (str_in sheet_name (sheetnames wb)) then
      Ok (fs, str "Error: Sheet '" ++ sheet_name ++ str "' not found")
    else
      ws ← wb_getitem wb sheet_name;
      bounds ← format_bounds ws start_cell end_cell;
      match bounds with
      | inl text => Ok (fs, text)
      | inr (start_row, start_col, end_row, end_col) =>
          rows ← range_through start_row end_row;
          '(ws', formatted_count) ← format_rows ws rows start_col end_col 0;
          let fs' := save fs full_path (wb_update wb sheet_name ws') in
          let range_desc :=
            if truthy_str end_cell
            then Ok (start_cell ++ str ":" ++ default [] end_cell)
            else
              letter ← match end_col with
                       | Some end_col => get_column_letter end_col
                       | None =>
                           Raise (Exn TypeError
                                    (str "'<=' not supported between instances of 'int' and 'NoneType'"))
                       end;
              Ok (start_cell ++ str " to " ++ letter
                  ++ match end_row with
                     | Some end_row => str_of_Z end_row
                     | None => str "None"
                     end) in
          match range_desc with
          | Ok range_desc =>
              Ok (fs', str "Applied automatic formatting to "
                       ++ str_of_Z formatted_count ++ str " cells in range "
                       ++ range_desc)
          | Raise e => Ok (fs', str "Error: " ++ exn_str e)
          end
      end
  in
  match attempt with
  | Ok outcome => outcome
  | Raise e => (fs, str "Error: " ++ exn_str e)
  end.

End AutoFormat.

(** ** Vocabulary of the further properties *)

(** The display formats that go with each kind of inferred value. *)
Definition format_fits (r : inferred) : bool :=
  match r with
  | (VInt _, Some f) => str_in f [fmt_currency_int; fmt_integer]
  | (VFloat _, Some f) => str_in f [fmt_percent; fmt_currency_cents; fmt_decimal]
  | (VDate _ _ _, Some f) => str_eqb f fmt_date
  | (VDateTime _ _ _ _ _ _, Some f) => str_eqb f fmt_datetime
  | (VNone, None) | (VBool _, None) | (VStr _, None) => true
  | _ => false
  end.

(** The decimal digits of a number, as [str] prints them. *)
Definition uint_chars (d : Decimal.uint) : pystr :=
  str (NilEmpty.string_of_uint d).

(** The cell a write leaves at one of its targets, from the cell that was
    there and the raw value: the body of the loop of the write, seen from
    the cell. *)
Definition written_cell (float_repr : pyfloat -> pystr)
    (is_date_format : pystr -> bool) (auto_detect_types : bool)
    (old : cell) (val : pyval) : res cell :=
  if auto_detect_types then
    '(converted_value, number_format) ←
       _infer_and_convert_data_type float_repr val;
    c ← bind_value is_date_format old converted_value;
    Ok (if truthy_format number_format
        then Cell (cell_value c) (default [] number_format) else c)
  else bind_value is_date_format old val.

(** The value a cell holds after a value has been assigned to it: text is
    cut to the length a cell can hold. *)
Definition stored_value (v : pyval) : pyval :=
  match v with
  | VStr s => VStr (firstn max_cell_text s)
  | _ => v
  end.

(** A date or a date-time, and its ISO format. *)
Definition is_temporal (v : pyval) : bool :=
  match v with
  | VDate _ _ _ | VDateTime _ _ _ _ _ _ => true
  | _ => false
  end.

Definition iso_format (v : pyval) : pystr :=
  match v with
  | VDateTime _ _ _ _ _ _ => iso_datetime_format
  | _ => iso_date_format
  end.

(** The targets of a write: the cell at offset (i, j) for every [data[i][j]]. *)
Definition is_target (data : list (list pyval)) (start_row start_col row col : Z)
  : Prop :=
  exists (i j : nat) (r : list pyval) (v : pyval),
    data !! i = Some r /\ r !! j = Some v
    /\ row = start_row + Z.of_nat i /\ col = start_col + Z.of_nat j.

(** Whether automatic formatting rewrites a cell, and the cell it leaves. *)
Definition will_format (float_repr : pyfloat -> pystr) (c : cell) : bool :=
  negb (is_none (cell_value c))
  && match _infer_and_convert_data_type float_repr (cell_value c) with
     | Ok (converted_value, number_format) =>
         truthy_format number_format && negb (is_none converted_value)
     | Raise _ => false
     end.

Definition reformatted (float_repr : pyfloat -> pystr) (c : cell) : cell :=
  if will_format float_repr c then
    match _infer_and_convert_data_type float_repr (cell_value c) with
    | Ok (converted_value, number_format) =>
        Cell converted_value (default [] number_format)
    | Raise _ => c
    end
  else c.

Definition count_formatted (float_repr : pyfloat -> pystr) (ws : worksheet)
    (rows cols : list Z) : Z :=
  Z.of_nat
    (length (List.filter (fun rc => will_format float_repr (cell_at ws (fst rc) (snd rc)))
               (list_prod rows cols))).

(** A sheet for concrete runs of the formatting tool: "Name" in A1,
    "1,000" in B1, 5 in B2, "50%" in A3 and a boolean in B3. *)
Definition ledger_sheet : worksheet :=
  with_cell
    (with_cell (with_cell demo_sheet 1 2 (VStr (str "1,000")))
       3 1 (VStr (str "50%")))
    3 2 (VBool true).

Definition ledger_files : files :=
  {[ str "/data/book.xlsx" := Workbook [ledger_sheet] 0 ]}.

(** A sheet without cells, and a workbook that holds only it. *)
Definition empty_sheet : worksheet := Worksheet (str "Sheet1") ∅.

Definition empty_files : files :=
  {[ str "/data/empty.xlsx" := Workbook [empty_sheet] 0 ]}.

(** * Properties *)

(** ** Tactics and basic facts *)

Ltac unfold_bind := unfold mbind, res_bind, bind in *.

Ltac case_if :=
  match goal with
  | |- context [if ?b then _ else _] => destruct b eqn:?
  end.

Lemma str_eqb_true (a b : pystr) : str_eqb a b = true <-> a = b.
Proof. unfold str_eqb. apply bool_decide_eq_true. Qed.

Lemma str_eqb_false (a b : pystr) : str_eqb a b = false <-> a <> b.
Proof. unfold str_eqb. apply bool_decide_eq_false. Qed.

Lemma lstrip_blank (s : pystr) : forallb is_space s = true -> lstrip s = [].
Proof.
  induction s as [|c s IH]; simpl; [reflexivity|].
  intros H. apply andb_prop in H as [Hc Hs]. rewrite Hc. auto.
Qed.

Lemma strip_blank (s : pystr) : forallb is_space s = true -> strip s = [].
Proof. intros H. unfold strip. rewrite lstrip_blank by assumption. reflexivity. Qed.

Lemma lstrip_nil_blank (s : pystr) : lstrip s = [] -> forallb is_space s = true.
Proof.
  induction s as [|c s IH]; simpl; [reflexivity|].
  destruct (is_space c); [auto | discriminate].
Qed.

Lemma strip_nil_blank (s : pystr) : strip s = [] -> forallb is_space s = true.
Proof.
  unfold strip, rstrip. intros H.
  assert (Hr : lstrip (rev (lstrip s)) = []).
  { destruct (lstrip (rev (lstrip s))) as [|x l]; [reflexivity|].
    simpl in H. destruct (rev l); discriminate. }
  apply lstrip_nil_blank in Hr.
  destruct (lstrip s) as [|c t] eqn:E; [now apply lstrip_nil_blank|].
  exfalso.
  assert (Hc : is_space c = false).
  { clear -E. induction s as [|d s IH]; simpl in E; [discriminate|].
    destruct (is_space d) eqn:Ed; [auto | congruence]. }
  rewrite forallb_forall in Hr.
  specialize (Hr c). rewrite Hc in Hr.
  assert (In c (rev (c :: t))) as Hin by (rewrite <- in_rev; left; reflexivity).
  specialize (Hr Hin). discriminate.
Qed.

(** ** Only [ValueError] escapes the conversions *)

Lemma py_float_raises (s : pystr) (e : exn) :
  py_float s = Raise e -> exn_kind_of e = ValueError.
Proof. unfold py_float. case_if; intros H; inversion H; reflexivity. Qed.

Lemma py_int_raises (s : pystr) (e : exn) :
  py_int s = Raise e -> exn_kind_of e = ValueError.
Proof.
  unfold py_int. repeat case_if; intros H; inversion H; reflexivity.
Qed.

Lemma group_int_raises cs g d e :
  group_int cs g d = Raise e -> exn_kind_of e = ValueError.
Proof.
  unfold group_int. destruct (group cs g); [apply py_int_raises | discriminate].
Qed.

Lemma strptime_raises (s fmt : pystr) (e : exn) :
  strptime s fmt = Raise e -> exn_kind_of e = ValueError.
Proof.
  unfold strptime.
  destruct (pattern false fmt); [|intros H; inversion H; reflexivity].
  destruct (re_match r s) as [[cs rest]|]; [|intros H; inversion H; reflexivity].
  case_if; [intros H; inversion H; reflexivity|].
  unfold_bind.
  repeat match goal with
  | |- context [group_int ?c ?g ?d] =>
      let E := fresh "E" in
      destruct (group_int c g d) eqn:E;
      [| intros H; inversion H; subst; eapply group_int_raises; eassumption]
  end.
  case_if; intros H; inversion H; reflexivity.
Qed.

Lemma detect_number_raises (sv : pystr) (e : exn) :
  detect_number sv = Raise e -> exn_kind_of e = ValueError.
Proof.
  unfold detect_number. unfold_bind.
  repeat case_if;
    match goal with
    | |- context [py_float ?x] =>
        let E := fresh "E" in
        destruct (py_float x) eqn:E;
        [discriminate | intros H; inversion H; subst; eapply py_float_raises; eassumption]
    | |- context [py_int ?x] =>
        let E := fresh "E" in
        destruct (py_int x) eqn:E;
        [discriminate | intros H; inversion H; subst; eapply py_int_raises; eassumption]
    end.
Qed.

Lemma detect_numeric_raises (sv : pystr) (e : exn) :
  detect_numeric sv = Raise e -> exn_kind_of e = ValueError.
Proof.
  unfold detect_numeric. unfold_bind.
  repeat case_if; try apply detect_number_raises.
  destruct (py_float _) eqn:E; [discriminate|].
  intros H; inversion H; subst. eapply py_float_raises; eassumption.
Qed.

Lemma detect_date_total (formats : list pystr) (sv : pystr) :
  exists d, detect_date formats sv = Ok d.
Proof.
  induction formats as [|fmt formats IH]; simpl; [eauto|].
  unfold_bind. destruct (strptime sv fmt) eqn:E; simpl.
  - case_if; simpl; eauto.
  - apply strptime_raises in E. unfold is_kind. rewrite E. simpl. exact IH.
Qed.

Lemma infer_stripped_total (sv : pystr) : exists r, infer_stripped sv = Ok r.
Proof.
  unfold infer_stripped.
  destruct (detect_date_total date_formats sv) as [d Hd]. rewrite Hd.
  destruct (detect_numeric sv) eqn:E; [simpl; eauto|].
  apply detect_numeric_raises in E.
  unfold catch, is_kind. rewrite E. cbn [existsb kind_eqb orb].
  unfold_bind. destruct d; eauto.
Qed.

Section InferenceProperties.

Variable float_repr : pyfloat -> pystr.

Lemma infer_total (value : pyval) :
  exists r, _infer_and_convert_data_type float_repr value = Ok r.
Proof.
  unfold _infer_and_convert_data_type.
  repeat case_if; eauto using infer_stripped_total.
Qed.

End InferenceProperties.

(** ** Type inference *)

Lemma lower_char_digit (c : char) (d : N) :
  (d < 65)%N -> lower_char c = d -> c = d.
Proof.
  unfold lower_char, in_range. intros Hd.
  destruct ((65 <=? c)%N && (c <=? 90)%N) eqn:E; [|auto].
  apply andb_prop in E as [E1 E2]. apply N.leb_le in E1. lia.
Qed.

Lemma lower_char_letter (c : char) (x : N) :
  (97 <= x <= 122)%N -> lower_char c = x -> c = x \/ c = (x - 32)%N.
Proof.
  unfold lower_char, in_range. intros Hx.
  destruct ((65 <=? c)%N && (c <=? 90)%N) eqn:E; [|auto].
  intros H. right. lia.
Qed.

Lemma str_in_cons (s w : pystr) (ws : list pystr) :
  str_in s (w :: ws) = true -> s = w \/ str_in s ws = true.
Proof.
  unfold str_in. simpl. intros H. apply orb_prop in H as [H|H]; [|auto].
  left. now apply str_eqb_true.
Qed.

(** Splits a hypothesis [lower sv = w], for a literal word [w], into the
    spellings of [sv]. *)
Ltac spelling_of Hc :=
  first [ apply lower_char_digit in Hc; [|lia]
        | apply lower_char_letter in Hc; [|lia]; destruct Hc as [Hc|Hc] ];
  vm_compute in Hc; subst.

Ltac spellings H :=
  unfold lower in H; vm_compute (str _) in H;
  repeat match type of H with
  | List.map lower_char [] = [] => clear H
  | List.map lower_char [] = _ :: _ => discriminate H
  | List.map lower_char (_ :: _) = [] => discriminate H
  | List.map lower_char (_ :: _) = _ :: _ =>
      let Hc := fresh "Hc" in
      simpl in H; injection H as Hc H; spelling_of Hc
  | List.map lower_char ?sv = [] =>
      destruct sv; [clear H | discriminate H]
  | List.map lower_char ?sv = _ :: _ =>
      destruct sv; [discriminate H|]
  end.

(** *** The regular expressions on runs of characters *)

Lemma star_iter_chars (m : captures -> pystr -> list (captures * pystr))
    (p : char -> bool) (cs : captures) (s : pystr) (fuel : nat) :
  (forall cs c s, p c = true -> m cs (c :: s) = [(cs, s)]) ->
  forallb p s = true -> (length s < fuel)%nat ->
  In (cs, []) (star_iter m fuel cs s).
Proof.
  intros Hm. revert fuel. induction s as [|c s IH]; intros fuel Hall Hfuel.
  - destruct fuel; simpl; [lia|]. apply List.in_or_app. right. now left.
  - destruct fuel as [|fuel]; [simpl in Hfuel; lia|].
    simpl in Hall. apply andb_prop in Hall as [Hc Hs].
    cbn [star_iter]. rewrite (Hm cs c s Hc). cbn [flat_map].
    destruct (Nat.ltb_spec (length s) (length (c :: s))) as [_|Hn];
      [|simpl in Hn; lia].
    apply List.in_or_app. left. rewrite List.app_nil_r.
    apply IH; [assumption | simpl in Hfuel; lia].
Qed.

Lemma rmatch_cls (p : char -> bool) (cs : captures) (c : char) (s : pystr) :
  p c = true -> rmatch (Cls p) cs (c :: s) = [(cs, s)].
Proof. intros H. simpl. now rewrite H. Qed.

Lemma plus_all (p : char -> bool) (cs : captures) (s : pystr) :
  s <> [] -> forallb p s = true -> In (cs, []) (rmatch (Plus (Cls p)) cs s).
Proof.
  intros Hne Hall. destruct s as [|c s]; [contradiction|].
  simpl in Hall. apply andb_prop in Hall as [Hc Hs].
  unfold Plus. cbn [rmatch]. rewrite Hc. cbn [flat_map].
  rewrite List.app_nil_r.
  apply (star_iter_chars _ p); [apply rmatch_cls | assumption | lia].
Qed.

Lemma is_match_head {A} (l : list A) (x : A) :
  In x l -> match head l with Some _ => true | None => false end = true.
Proof. destruct l; [intros [] | reflexivity]. Qed.

Lemma space_codes (c : char) :
  is_space c = true ->
  In c [9; 10; 11; 12; 13; 28; 29; 30; 31; 32; 133; 160; 5760; 8192; 8193;
        8194; 8195; 8196; 8197; 8198; 8199; 8200; 8201; 8202; 8232; 8233;
        8239; 8287; 12288]%N.
Proof.
  unfold is_space, in_range. intros H.
  repeat match type of H with
  | (_ || _) = true => apply orb_prop in H as [H|H]
  end;
  repeat match type of H with
  | (_ && _) = true =>
      let H1 := fresh in let H2 := fresh in
      apply andb_prop in H as [H1 H2]; apply N.leb_le in H1, H2
  | (_ =? _)%N = true => apply N.eqb_eq in H
  end; simpl; lia.
Qed.

Lemma digit_not_space (c : char) : is_digit c = true -> is_space c = false.
Proof.
  intros H. apply not_true_is_false. intros Hs. apply space_codes in Hs.
  repeat (destruct Hs as [<- | Hs]; [vm_compute in H; discriminate H|]).
  destruct Hs.
Qed.

Lemma comma_not_space (c : char) : is_comma c = true -> is_space c = false.
Proof.
  unfold is_comma. intros H. apply N.eqb_eq in H. subst c. reflexivity.
Qed.

Lemma lstrip_id (s : pystr) :
  (forall c, In c s -> is_space c = false) -> lstrip s = s.
Proof.
  destruct s as [|c s]; [reflexivity|]. intros H. simpl.
  now rewrite (H c (or_introl eq_refl)).
Qed.

Lemma strip_id (s : pystr) :
  (forall c, In c s -> is_space c = false) -> strip s = s.
Proof.
  intros H. unfold strip, rstrip. rewrite (lstrip_id s H).
  rewrite lstrip_id; [apply List.rev_involutive|].
  intros c Hc. apply H. now apply List.in_rev.
Qed.

Lemma digit_other (c : char) (k : N) :
  is_digit c = true -> is_digit k = false -> (c =? k)%N = false.
Proof. intros H Hk. apply N.eqb_neq. intros ->. congruence. Qed.

Lemma digit_has_property (c : char) :
  is_digit c = true -> has_digit_property c = true.
Proof. unfold has_digit_property. now intros ->. Qed.

(** [int] accepts a non-empty string of digits within the length limit. *)
Lemma py_int_digits (ds : pystr) :
  ds <> [] -> forallb is_digit ds = true ->
  (length ds <= int_max_str_digits)%nat ->
  py_int ds = Ok (int_of_digits ds).
Proof.
  intros Hne Hall Hlen.
  assert (Hin : forall c, In c ds -> is_digit c = true)
    by (now apply List.forallb_forall).
  unfold py_int.
  rewrite strip_id by (intros c Hc; apply digit_not_space; auto).
  assert (Hfull : re_fullmatch (Cat (Opt sign) digitpart) ds = true).
  { unfold re_fullmatch. apply List.existsb_exists. exists ([], []).
    split; [|reflexivity].
    cbn [rmatch]. eapply List.in_flat_map. exists ([], ds). split.
    - apply List.in_or_app. right. now left.
    - destruct ds as [|d ds]; [contradiction|].
      simpl in Hall. apply andb_prop in Hall as [Hd Hds].
      unfold digitpart, digit. cbn [rmatch]. rewrite Hd. cbn [flat_map].
      rewrite List.app_nil_r.
      apply (star_iter_chars _ is_digit); [|assumption|lia].
      intros cs c s Hc. cbn [rmatch]. unfold Chr. cbn [rmatch].
      rewrite (digit_other c (chr "_") Hc) by (vm_compute; auto).
      cbn [app flat_map]. rewrite Hc. reflexivity. }
  rewrite Hfull.
  assert (Hfilter : List.filter is_digit ds = ds).
  { clear -Hin. induction ds as [|c ds IH]; [reflexivity|].
    simpl. rewrite (Hin c) by now left.
    f_equal. apply IH. intros; apply Hin; now right. }
  rewrite Hfilter.
  destruct (Nat.ltb_spec int_max_str_digits (length ds)) as [Hlt|_]; [lia|].
  destruct ds as [|d ds]; [contradiction|].
  cbn [is_prefix str List.map list_ascii_of_string]. 
  rewrite N.eqb_sym, (digit_other d _ (Hin d (or_introl eq_refl)))
    by (vm_compute; auto).
  reflexivity.
Qed.

Lemma currency_pattern_unsigned (s : pystr) :
  digits_and_commas s = true -> currency_shape s = true.
Proof.
  unfold digits_and_commas. intros H. apply andb_prop in H as [Hall Hex].
  assert (Hne : s <> []) by (destruct s; [discriminate Hex | discriminate]).
  unfold currency_shape, is_match, re_match.
  apply (is_match_head _ ([], [])).
  unfold currency_pattern. cbn [cat_all]. cbn [rmatch].
  eapply List.in_flat_map. exists ([], s). split.
  - apply List.in_or_app. right. now left.
  - eapply List.in_flat_map. exists ([], []). split.
    + apply (plus_all _ [] s Hne Hall).
    + vm_compute. now left.
Qed.

Lemma strip_currency_digits (s : pystr) :
  forallb (fun c => is_digit c || is_comma c) s = true ->
  strip_currency s = List.filter is_digit s.
Proof.
  unfold strip_currency. induction s as [|c s IH]; [reflexivity|].
  intros H. simpl in H. apply andb_prop in H as [Hc Hs].
  simpl. rewrite IH by assumption.
  destruct (is_digit c) eqn:Hd.
  - unfold is_currency_symbol, is_comma, euro, pound, yen.
    rewrite !(digit_other c _ Hd) by (vm_compute; auto). reflexivity.
  - simpl in Hc. rewrite Hc, orb_true_r. reflexivity.
Qed.

Section InferenceClaims.

Variable float_repr : pyfloat -> pystr.

Local Abbreviation infer := (_infer_and_convert_data_type float_repr).

Lemma infer_str (s : pystr) :
  strip s <> [] -> infer (VStr s) = infer_stripped (strip s).
Proof.
  intros H. unfold _infer_and_convert_data_type.
  destruct s as [|c s]; [elim H; reflexivity|].
  cbn [is_none eq_empty_str orb py_str].
  apply str_eqb_false in H. rewrite H. reflexivity.
Qed.

(** Every string of digits and thousands separators is taken by the
    currency step: the result is the integer it spells with the
    currency-integer format. *)
Lemma unsigned_number_gets_currency_format (s : pystr) :
  digits_and_commas s = true ->
  (length (List.filter is_digit s) <= int_max_str_digits)%nat ->
  _infer_and_convert_data_type float_repr (VStr s)
  = Ok (VInt (int_of_digits (List.filter is_digit s)), Some fmt_currency_int).
Proof.
  intros Hs Hlen. pose proof (currency_pattern_unsigned s Hs) as Hcur.
  unfold digits_and_commas in Hs. apply andb_prop in Hs as [Hall Hex].
  assert (Hin : forall c, In c s -> is_digit c || is_comma c = true)
    by (now apply List.forallb_forall).
  assert (Hne : s <> []) by (destruct s; [discriminate Hex | discriminate]).
  assert (Hstrip : strip s = s).
  { apply strip_id. intros c Hc. specialize (Hin c Hc).
    apply orb_prop in Hin as [H|H];
      [now apply digit_not_space | now apply comma_not_space]. }
  rewrite infer_str by (now rewrite Hstrip). rewrite Hstrip.
  unfold infer_stripped, detect_numeric.
  assert (Hend : endswith s (chr "%") = false).
  { unfold endswith. destruct (rev s) as [|d t] eqn:E; [reflexivity|].
    assert (Hd : In d s) by (apply List.in_rev; rewrite E; now left).
    specialize (Hin d Hd). apply orb_prop in Hin as [H|H].
    - apply digit_other; [assumption | vm_compute; auto].
    - unfold is_comma in H. apply N.eqb_eq in H. subst d. reflexivity. }
  rewrite Hend. unfold detect_number.
  unfold currency_shape in Hcur. rewrite Hcur.
  rewrite strip_currency_digits by assumption.
  assert (Hdigits : forallb is_digit (List.filter is_digit s) = true).
  { apply List.forallb_forall. intros c Hc. now apply List.filter_In in Hc. }
  assert (Hdot : contains_char (chr ".") (List.filter is_digit s) = false).
  { unfold contains_char.
    apply not_true_is_false. intros E.
    apply List.existsb_exists in E as [c [Hc Heq]].
    apply List.filter_In in Hc as [_ Hc].
    rewrite (digit_other c _ Hc) in Heq by (vm_compute; auto). discriminate. }
  rewrite Hdot, py_int_digits; [reflexivity | | assumption | assumption].
  apply List.existsb_exists in Hex as [c [Hc Hd]].
  intros E. assert (Hf : In c (List.filter is_digit s))
    by (apply List.filter_In; auto).
  rewrite E in Hf. destruct Hf.
Qed.

(** C1.  The input "1,000" (digits with a thousands separator, no currency
    symbol, percent sign or decimal point) is converted to the integer 1000
    but receives the currency-integer display format, not the plain integer
    format "0": the currency expression, whose symbol is optional, is tried
    before the plain-number expression. *)
Theorem C1_thousands_separator_gets_currency_format :
  infer (VStr (str "1,000")) = Ok (VInt 1000, Some fmt_currency_int)
  /\ fmt_currency_int <> fmt_integer
  /\ number_shape (str "1,000") = true.
Proof. split; [reflexivity | split; [discriminate | reflexivity]]. Qed.

Lemma detect_numeric_kind (sv : pystr) (v : pyval) (f : option pystr) :
  detect_numeric sv = Ok (v, f) -> (exists z, v = VInt z) \/ (exists x, v = VFloat x).
Proof.
  unfold detect_numeric, detect_number. unfold_bind.
  repeat case_if;
    match goal with
    | |- context [py_float ?x] => destruct (py_float x)
    | |- context [py_int ?x] => destruct (py_int x)
    end;
    intros H; inversion H; eauto.
Qed.

Lemma detect_date_kind (formats : list pystr) (sv : pystr) (v : pyval)
    (f : option pystr) :
  detect_date formats sv = Ok (Some (v, f)) ->
  match v with VDate _ _ _ | VDateTime _ _ _ _ _ _ => True | _ => False end.
Proof.
  induction formats as [|fmt formats IH]; simpl; [discriminate|].
  unfold_bind. destruct (strptime sv fmt); simpl.
  - case_if; intros H; inversion H; exact I.
  - case_if; [exact IH | discriminate].
Qed.

Lemma infer_stripped_bool (sv : pystr) (b : bool) (f : option pystr) :
  infer_stripped sv = Ok (VBool b, f) ->
  is_ok (detect_numeric sv) = false /\ boolean_word sv = true.
Proof.
  unfold infer_stripped.
  destruct (detect_date_total date_formats sv) as [d Hd]. rewrite Hd.
  destruct (detect_numeric sv) as [[v g]|e] eqn:E.
  - simpl. intros H. inversion H; subst.
    apply detect_numeric_kind in E as [[z Hz]|[x Hx]]; discriminate.
  - unfold catch. case_if; [|discriminate].
    cbn [existsb kind_eqb orb]. unfold_bind.
    destruct d as [[v g]|].
    + intros H. inversion H; subst.
      apply detect_date_kind in Hd. contradiction.
    + unfold detect_boolean, boolean_word.
      case_if; [split; [reflexivity|reflexivity]|discriminate].
Qed.

(** C5.  A string that trims to "1" or "0" is converted to the integer 1 or
    0, never to a boolean; a boolean result is produced exactly for the
    strings that, trimmed and lower-cased, are "true", "false", "yes" or
    "no". *)
Theorem C5_bare_digits_are_integers_not_booleans :
  (forall s, strip s = str "1" ->
             infer (VStr s) = Ok (VInt 1, Some fmt_currency_int))
  /\ (forall s, strip s = str "0" ->
                infer (VStr s) = Ok (VInt 0, Some fmt_currency_int))
  /\ (forall s b f, infer (VStr s) = Ok (VBool b, f) ->
                    str_in (lower (strip s)) truth_words = true)
  /\ (forall s, str_in (lower (strip s)) truth_words = true ->
                exists b, infer (VStr s) = Ok (VBool b, None)).
Proof.
  repeat split.
  - intros s H. rewrite infer_str by (rewrite H; discriminate).
    rewrite H. reflexivity.
  - intros s H. rewrite infer_str by (rewrite H; discriminate).
    rewrite H. reflexivity.
  - intros s b f H.
    destruct (strip s) as [|c sv] eqn:Es.
    { unfold _infer_and_convert_data_type in H.
      destruct (is_none (VStr s) || eq_empty_str (VStr s)); [discriminate|].
      cbn [py_str] in H. rewrite Es in H.
      rewrite (proj2 (str_eqb_true [] []) eq_refl) in H. discriminate. }
    rewrite infer_str in H by (rewrite Es; discriminate).
    rewrite Es in H. apply infer_stripped_bool in H as [Hnum Hword].
    unfold boolean_word in Hword.
    repeat (apply str_in_cons in Hword as [Hword|Hword];
            [ try (unfold truth_words, str_in; rewrite Hword; reflexivity) |]).
    + spellings Hword. vm_compute in Hnum. discriminate Hnum.
    + spellings Hword. vm_compute in Hnum. discriminate Hnum.
    + discriminate Hword.
  - intros s H.
    assert (Hne : strip s <> []).
    { intros E. rewrite E in H. discriminate H. }
    rewrite infer_str by assumption.
    unfold truth_words in H.
    repeat (apply str_in_cons in H as [H|H]); [| | | |discriminate H];
      spellings H; vm_compute; eexists; reflexivity.
Qed.

Lemma detect_number_fails (sv : pystr) :
  currency_shape sv = false -> number_shape sv = false ->
  converts_directly sv = false ->
  exists e, detect_number sv = Raise e.
Proof.
  unfold currency_shape, number_shape, converts_directly, detect_number.
  intros -> -> H. unfold_bind.
  destruct (contains_char (chr ".") sv || contains_char (chr "e") (lower sv)).
  - destruct (py_float sv); [discriminate H | eauto].
  - destruct (py_int sv); [discriminate H | eauto].
Qed.

Lemma detect_numeric_fails (sv : pystr) :
  percent_shape sv = false -> currency_shape sv = false ->
  number_shape sv = false -> converts_directly sv = false ->
  exists e, detect_numeric sv = Raise e.
Proof.
  unfold percent_shape, detect_numeric. intros Hp Hc Hn Hd.
  destruct (endswith sv (chr "%")); simpl in Hp;
    [rewrite Hp|]; now apply detect_number_fails.
Qed.

Lemma detect_date_fails (formats : list pystr) (sv : pystr) :
  existsb (fun fmt => is_ok (strptime sv fmt)) formats = false ->
  detect_date formats sv = Ok None.
Proof.
  induction formats as [|fmt formats IH]; simpl; [reflexivity|].
  intros H. apply orb_false_elim in H as [Hf Hrest].
  destruct (strptime sv fmt) eqn:E; [discriminate Hf|].
  apply strptime_raises in E. unfold_bind. unfold catch, is_kind.
  rewrite E. simpl. auto.
Qed.

Lemma infer_stripped_fallback (sv : pystr) :
  matches_no_pattern sv = true -> infer_stripped sv = Ok (VStr sv, None).
Proof.
  unfold matches_no_pattern. intros H. apply negb_true_iff in H.
  repeat (apply orb_false_elim in H as [H ?]).
  destruct (detect_numeric_fails sv) as [e He]; try assumption.
  unfold infer_stripped. rewrite He.
  apply detect_numeric_raises in He.
  unfold catch at 1, is_kind at 1. rewrite He. cbn [existsb kind_eqb orb].
  rewrite detect_date_fails by assumption.
  unfold_bind. cbn [catch]. unfold detect_boolean.
  match goal with Hb : boolean_word sv = false |- _ =>
    unfold boolean_word in Hb; rewrite Hb end.
  reflexivity.
Qed.

(** C6 (amended).  Inference is total on strings: every string yields a
    result and no exception.  A string whose trimmed form is not empty and
    passes none of the percentage, currency, number, direct-conversion,
    date and boolean tests yields its trimmed form with no display format;
    a string whose trimmed form is empty yields (none, none). *)
Theorem C6_inference_is_total_with_text_fallback (s : pystr) :
  (exists r, infer (VStr s) = Ok r)
  /\ (strip s <> [] -> matches_no_pattern (strip s) = true ->
      infer (VStr s) = Ok (VStr (strip s), None))
  /\ (strip s = [] -> infer (VStr s) = Ok (VNone, None)).
Proof.
  split; [apply infer_total|]. split.
  - intros Hne Hno. rewrite infer_str by assumption.
    now apply infer_stripped_fallback.
  - intros E. unfold _infer_and_convert_data_type.
    case_if; [reflexivity|]. cbn [py_str]. rewrite E. reflexivity.
Qed.

(** C7.  An absent input, the empty string and a whitespace-only string
    all yield the pair (none, none). *)
Theorem C7_blank_input_yields_none (value : pyval) :
  is_blank value = true -> infer value = Ok (VNone, None).
Proof.
  destruct value; simpl; try discriminate; [reflexivity|].
  intros H. unfold _infer_and_convert_data_type.
  case_if; [reflexivity|]. cbn [py_str].
  rewrite strip_blank by assumption. reflexivity.
Qed.

End InferenceClaims.

Lemma C5_witness :
  _infer_and_convert_data_type no_float_repr (VStr (str " 1 "))
    = Ok (VInt 1, Some fmt_currency_int)
  /\ exists b, _infer_and_convert_data_type no_float_repr (VStr (str "Yes"))
               = Ok (VBool b, None).
Proof.
  split.
  - apply (proj1 (C5_bare_digits_are_integers_not_booleans no_float_repr)).
    reflexivity.
  - apply (proj2 (proj2 (proj2
             (C5_bare_digits_are_integers_not_booleans no_float_repr)))).
    reflexivity.
Defined.

(** The claim of C6 as first stated fails on a whitespace-only string: it
    passes none of the tests, and the result is (none, none), not its
    trimmed form as text. *)
Lemma C6_blank_string_is_not_returned_as_text :
  matches_no_pattern (strip (str "  ")) = true
  /\ _infer_and_convert_data_type no_float_repr (VStr (str "  "))
     = Ok (VNone, None)
  /\ _infer_and_convert_data_type no_float_repr (VStr (str "  "))
     <> Ok (VStr (strip (str "  ")), None).
Proof. split; [reflexivity | split; [reflexivity | discriminate]]. Qed.

Lemma C6_witness :
  _infer_and_convert_data_type no_float_repr (VStr (str "  hello "))
  = Ok (VStr (str "hello"), None).
Proof.
  apply (proj1 (proj2 (C6_inference_is_total_with_text_fallback
                         no_float_repr (str "  hello "))));
    [discriminate | reflexivity].
Defined.

Lemma C7_witness :
  _infer_and_convert_data_type no_float_repr (VStr (str "   ")) = Ok (VNone, None).
Proof. apply (C7_blank_input_yields_none no_float_repr). reflexivity. Defined.

(** ** Path resolution *)

Lemma is_prefix_app (a b : pystr) : is_prefix a (a ++ b) = true.
Proof. induction a; simpl; [reflexivity|]. now rewrite N.eqb_refl. Qed.

Lemma contains_unfold (p s : pystr) :
  contains p s
  = is_prefix p s || match s with [] => false | _ :: s' => contains p s' end.
Proof. destruct s; reflexivity. Qed.

Lemma contains_middle (a p b : pystr) : contains p (a ++ p ++ b) = true.
Proof.
  induction a as [|c a IH].
  - rewrite contains_unfold. simpl app. now rewrite is_prefix_app.
  - change ((c :: a) ++ p ++ b) with (c :: (a ++ p ++ b)).
    rewrite contains_unfold, IH. apply orb_true_r.
Qed.

(** C9.  An absolute filename is returned unchanged; a relative filename
    raises [ValueError] when no files directory is configured, and is
    joined to the directory when one is. *)
Theorem C9_path_resolution (filename : pystr) :
  (isabs filename = true ->
   forall base, get_excel_path base filename = Ok filename)
  /\ (isabs filename = false ->
      exists msg, get_excel_path None filename = Raise (Exn ValueError msg)
                  /\ contains filename msg = true)
  /\ (isabs filename = false ->
      forall dir,
        get_excel_path (Some dir) filename = Ok (path_join dir filename)
        /\ path_join dir filename
           = dir ++ (if str_eqb dir [] || endswith dir (chr "/")
                     then [] else str "/") ++ filename).
Proof.
  unfold get_excel_path. repeat split.
  - intros H base. rewrite H. reflexivity.
  - intros H. rewrite H. eexists. split; [reflexivity|].
    apply contains_middle.
  - rewrite H. reflexivity.
  - unfold path_join. rewrite H. case_if; reflexivity.
Qed.

Lemma C9_witness :
  get_excel_path None (str "/tmp/a.xlsx") = Ok (str "/tmp/a.xlsx")
  /\ get_excel_path (Some (str "./excel_files")) (str "a.xlsx")
     = Ok (str "./excel_files/a.xlsx")
  /\ is_ok (get_excel_path None (str "a.xlsx")) = false.
Proof.
  split; [|split].
  - apply (proj1 (C9_path_resolution (str "/tmp/a.xlsx"))). reflexivity.
  - apply (proj2 (proj2 (C9_path_resolution (str "a.xlsx")))). reflexivity.
  - destruct (proj1 (proj2 (C9_path_resolution (str "a.xlsx"))) eq_refl)
      as [msg [Hmsg _]].
    rewrite Hmsg. reflexivity.
Defined.

(** ** Ranges, sheet bounds and cell access *)

Lemma in_py_range (x a b : Z) : In x (py_range a b) <-> a <= x < b.
Proof.
  unfold py_range. rewrite List.in_map_iff. split.
  - intros [i [<- Hi]]. apply List.in_seq in Hi. lia.
  - intros H. exists (Z.to_nat (x - a)). split; [lia|].
    apply List.in_seq. lia.
Qed.

Lemma py_range_sorted (a b : Z) : StronglySorted Z.lt (py_range a b).
Proof.
  unfold py_range. generalize (Z.to_nat (b - a)) as n. generalize 0%nat as k.
  intros k n. revert k.
  induction n as [|n IH]; intros k; simpl; constructor; [apply IH|].
  apply List.Forall_forall. intros y Hy.
  apply List.in_map_iff in Hy as [i [<- Hi]]. apply List.in_seq in Hi. lia.
Qed.

Lemma check_cell_ok (row col : Z) :
  1 <= row <= max_sheet_row -> 1 <= col -> check_cell row col = Ok tt.
Proof.
  intros [H1 H2] H3. unfold check_cell.
  destruct (Z.ltb_spec row 1); [lia|].
  destruct (Z.ltb_spec col 1); [lia|].
  destruct (Z.ltb_spec max_sheet_row row); [lia|]. reflexivity.
Qed.

Lemma min_or_le_max_or (d : Z) (l : list Z) : min_or d l <= max_or d l.
Proof.
  destruct l as [|x l]; simpl; [lia|].
  induction l as [|y l IH]; simpl; lia.
Qed.

Lemma has_value_exists (vs : list pyval) :
  has_value vs = true <-> exists v, In v vs /\ v <> VNone.
Proof.
  unfold has_value. rewrite List.existsb_exists. split.
  - intros [v [Hin Hv]]. exists v. split; [assumption|]. now destruct v.
  - intros [v [Hin Hv]]. exists v. split; [assumption|]. now destruct v.
Qed.

Lemma read_row_spec (ws : worksheet) (row : Z) (cols : list Z) (acc : list pyval) :
  (forall col, In col cols -> check_cell row col = Ok tt) ->
  read_row ws row cols acc = Ok (acc ++ row_values ws cols row).
Proof.
  revert acc. induction cols as [|col cols IH]; intros acc H; simpl.
  - now rewrite List.app_nil_r.
  - unfold read_cell_value. rewrite (H col) by now left.
    unfold_bind. rewrite IH by (intros; apply H; now right).
    now rewrite <- List.app_assoc.
Qed.

Lemma read_rows_spec (ws : worksheet) (rows cols : list Z)
    (acc : list (list pyval)) :
  (forall row col, In row rows -> In col cols -> check_cell row col = Ok tt) ->
  read_rows ws rows cols acc
  = Ok (acc ++ List.map (row_values ws cols)
                 (List.filter (fun row => has_value (row_values ws cols row)) rows)).
Proof.
  revert acc. induction rows as [|row rows IH]; intros acc H; simpl.
  - now rewrite List.app_nil_r.
  - rewrite read_row_spec by (intros; apply H; [now left | assumption]).
    unfold_bind. simpl app. fold (has_value (row_values ws cols row)).
    rewrite IH by (intros; apply H; [now right | assumption]).
    destruct (has_value (row_values ws cols row)); simpl; [|reflexivity].
    now rewrite <- List.app_assoc.
Qed.

Lemma get_column_letter_ok (col : Z) :
  1 <= col <= 18278 -> get_column_letter col = Ok (column_letters 3 col).
Proof.
  intros [H1 H2]. unfold get_column_letter.
  destruct (Z.leb_spec 1 col); [|lia].
  destruct (Z.leb_spec col 18278); [|lia]. reflexivity.
Qed.

Lemma StronglySorted_filter_lt (f : Z -> bool) (l : list Z) :
  StronglySorted Z.lt l -> StronglySorted Z.lt (List.filter f l).
Proof.
  induction 1 as [|x l Hs IH Hall]; simpl; [constructor|].
  destruct (f x); [|assumption]. constructor; [assumption|].
  apply List.Forall_forall. intros y Hy. apply List.filter_In in Hy as [Hy _].
  rewrite List.Forall_forall in Hall. now apply Hall.
Qed.

Lemma cell_at_insert (t : pystr) (m : gmap (Z * Z) cell) (k : Z * Z) (x : cell)
    (r c : Z) :
  cell_at (Worksheet t (<[k := x]> m)) r c
  = if decide (k = (r, c)) then x else cell_at (Worksheet t m) r c.
Proof.
  unfold cell_at. simpl. rewrite lookup_insert. now case_decide.
Qed.

Lemma as_data_error_ok {A} (m : res A) (a : A) :
  as_data_error m = Ok a <-> m = Ok a.
Proof.
  unfold as_data_error, catch. destruct m; [tauto|].
  destruct (negb _); split; discriminate.
Qed.

Lemma enumerate_fst_NoDup (k n : nat) : NoDup (List.map Z.of_nat (seq k n)).
Proof.
  revert k. induction n as [|n IH]; intros k; simpl; constructor; [|apply IH].
  rewrite list_elem_of_In. intros Hin.
  apply List.in_map_iff in Hin as [i [Hi Hin]].
  apply List.in_seq in Hin. lia.
Qed.

Lemma combine_seq_fst {A} (l : list A) (k : nat) :
  List.map fst (combine (List.map Z.of_nat (seq k (length l))) l)
  = List.map Z.of_nat (seq k (length l)).
Proof.
  revert k. induction l as [|x l IH]; intros k; simpl; [reflexivity|].
  now rewrite IH.
Qed.

Lemma combine_seq_lookup {A} (l : list A) (k n : nat) (x : A) :
  l !! n = Some x ->
  In (Z.of_nat (k + n), x) (combine (List.map Z.of_nat (seq k (length l))) l).
Proof.
  revert k n. induction l as [|y l IH]; intros k n H; [discriminate|].
  destruct n as [|n]; simpl in *.
  - inversion H; subst. left. f_equal. f_equal. lia.
  - right. replace (k + S n)%nat with (S k + n)%nat by lia. now apply IH.
Qed.

Lemma enumerate_NoDup {A} (l : list A) : NoDup (List.map fst (enumerate l)).
Proof. unfold enumerate. rewrite combine_seq_fst. apply enumerate_fst_NoDup. Qed.

Lemma enumerate_lookup {A} (l : list A) (n : nat) (x : A) :
  l !! n = Some x -> In (Z.of_nat n, x) (enumerate l).
Proof. intros H. apply (combine_seq_lookup l 0 n x H). Qed.

Lemma enumerate_In_bounds {A} (l : list A) (j : Z) (x : A) :
  In (j, x) (enumerate l) -> 0 <= j < Z.of_nat (length l).
Proof.
  unfold enumerate. intros H. apply List.in_combine_l in H.
  apply List.in_map_iff in H as [n [<- Hn]]. apply List.in_seq in Hn. lia.
Qed.

Lemma str_eqb_sym (a b : pystr) : str_eqb a b = str_eqb b a.
Proof.
  destruct (str_eqb b a) eqn:E.
  - apply str_eqb_true in E. now apply str_eqb_true.
  - apply str_eqb_false in E. apply str_eqb_false. congruence.
Qed.

Lemma find_sheet_appended (l : list worksheet) (name : pystr) (w : worksheet) :
  str_in name (List.map ws_title l) = false -> ws_title w = name ->
  List.find (fun ws => str_eqb (ws_title ws) name) (l ++ [w]) = Some w.
Proof.
  unfold str_in. intros Hl Hw. induction l as [|x l IH]; simpl in *.
  - now rewrite (proj2 (str_eqb_true _ _) Hw).
  - apply orb_false_elim in Hl as [Hx Hl]. rewrite str_eqb_sym, Hx. auto.
Qed.

Lemma replace_sheet_appended (l : list worksheet) (name : pystr)
    (w ws' : worksheet) :
  str_in name (List.map ws_title l) = false -> ws_title w = name ->
  replace_sheet (l ++ [w]) name ws' = l ++ [ws'].
Proof.
  unfold str_in. intros Hl Hw. induction l as [|x l IH]; simpl in *.
  - now rewrite (proj2 (str_eqb_true _ _) Hw).
  - apply orb_false_elim in Hl as [Hx Hl]. rewrite str_eqb_sym, Hx.
    now rewrite IH.
Qed.

Lemma find_sheet_unique (l : list worksheet) (ws : worksheet) :
  NoDup (List.map ws_title l) -> In ws l ->
  List.find (fun w => str_eqb (ws_title w) (ws_title ws)) l = Some ws.
Proof.
  induction l as [|x l IH]; intros Hnd Hin; [destruct Hin|].
  simpl in *. inversion Hnd as [|? ? Hnotin Hnd']; subst.
  destruct (str_eqb (ws_title x) (ws_title ws)) eqn:E.
  - destruct Hin as [-> | Hin]; [reflexivity|].
    apply str_eqb_true in E. exfalso. apply Hnotin.
    rewrite list_elem_of_In, E. now apply List.in_map.
  - destruct Hin as [-> | Hin]; [|auto].
    apply str_eqb_false in E. congruence.
Qed.

Lemma wb_getitem_in (wb : workbook) (name : pystr) (ws : worksheet) :
  wb_getitem wb name = Ok ws ->
  str_in name (sheetnames wb) = true /\ ws_title ws = name /\ In ws (wb_sheets wb).
Proof.
  unfold wb_getitem.
  destruct (List.find _ _) as [w|] eqn:E; [|discriminate].
  intros H. inversion H; subst w. apply List.find_some in E as [Hin Ht].
  apply str_eqb_true in Ht. repeat split; try assumption.
  unfold str_in, sheetnames. apply List.existsb_exists.
  exists (ws_title ws). split; [now apply List.in_map|].
  now apply str_eqb_true.
Qed.

Section TransferClaims.

Variable float_repr : pyfloat -> pystr.
Variable is_date_format : pystr -> bool.
Variable avoid_duplicate_name : list pystr -> pystr -> pystr.
Variable parse_cell_range : pystr -> res (list (option Z)).
Variable validation_info : Type.
Variable get_data_validation_for_cell :
  worksheet -> pystr -> res (option validation_info).

Local Abbreviation lookup_validation := get_data_validation_for_cell.
Local Abbreviation read_range := (read_excel_range parse_cell_range).
Local Abbreviation coords_of := (cell_coords parse_cell_range).
Local Abbreviation write_sheet :=
  (_write_data_to_worksheet float_repr is_date_format parse_cell_range).
Local Abbreviation write_file :=
  (write_data float_repr is_date_format avoid_duplicate_name parse_cell_range).

Lemma read_cell_record_spec (ws : worksheet) (incl : bool) (row col : Z) :
  check_cell row col = Ok tt -> 1 <= col <= 18278 ->
  (incl = true -> forall addr, is_ok (get_data_validation_for_cell ws addr) = true) ->
  exists cr, read_cell_record lookup_validation ws incl row col = Ok cr
             /\ record_key cr = (row, col, cell_value (cell_at ws row col)).
Proof.
  intros Hc Hcol Hv. unfold read_cell_record, read_cell_value.
  rewrite Hc, get_column_letter_ok by assumption. unfold_bind.
  destruct incl; [|eexists; split; reflexivity].
  specialize (Hv eq_refl (column_letters 3 col ++ str_of_Z row)).
  destruct (get_data_validation_for_cell _ _); [|discriminate Hv].
  eexists; split; reflexivity.
Qed.

Lemma read_record_row_spec (ws : worksheet) (incl : bool) (row : Z)
    (cols : list Z) (acc : list (cell_record validation_info)) :
  (forall col, In col cols -> check_cell row col = Ok tt /\ 1 <= col <= 18278) ->
  (incl = true -> forall addr, is_ok (lookup_validation ws addr) = true) ->
  exists cells,
    read_record_row lookup_validation ws incl row cols acc = Ok (acc ++ cells)
    /\ List.map record_key cells
       = List.map (fun col => (row, col, cell_value (cell_at ws row col))) cols.
Proof.
  intros Hc Hv. revert acc.
  induction cols as [|col cols IH]; intros acc; simpl.
  - exists []. now rewrite List.app_nil_r.
  - destruct (read_cell_record_spec ws incl row col) as [cr [Hcr Hkey]];
      try apply Hc; try (now left); try assumption.
    rewrite Hcr. unfold_bind.
    destruct (IH (fun c Hin => Hc c (or_intror Hin)) (acc ++ [cr]))
      as [cells [Hcells Hkeys]].
    exists (cr :: cells). rewrite Hcells, <- List.app_assoc. split; [reflexivity|].
    simpl. now rewrite Hkey, Hkeys.
Qed.

Lemma read_records_spec (ws : worksheet) (incl : bool) (rows cols : list Z)
    (acc : list (cell_record validation_info)) :
  (forall row col, In row rows -> In col cols ->
                   check_cell row col = Ok tt /\ 1 <= col <= 18278) ->
  (incl = true -> forall addr, is_ok (lookup_validation ws addr) = true) ->
  exists cells,
    read_records lookup_validation ws incl rows cols acc = Ok (acc ++ cells)
    /\ List.map record_key cells = rectangle_cells ws rows cols.
Proof.
  intros Hc Hv. revert acc.
  induction rows as [|row rows IH]; intros acc; simpl.
  - exists []. now rewrite List.app_nil_r.
  - destruct (read_record_row_spec ws incl row cols acc) as [c1 [H1 K1]];
      [intros; apply Hc; [now left | assumption] | assumption |].
    rewrite H1. unfold_bind.
    destruct (IH (fun r c Hr => Hc r c (or_intror Hr)) (acc ++ c1))
      as [c2 [H2 K2]].
    exists (c1 ++ c2). rewrite H2, <- List.app_assoc. split; [reflexivity|].
    now rewrite List.map_app, K1, K2.
Qed.

(** The loops are what the two readers run on the rectangle they have
    resolved from a start and an end cell inside the sheet bounds. *)
Lemma read_excel_range_runs_read_rows (fs : files)
    (filepath sheet_name start_cell : pystr) (end_cell : option pystr)
    (preview_only : bool) (wb : workbook) (ws : worksheet)
    (start_ref end_text : pystr) (start_row start_col end_row end_col : Z) :
  fs !! filepath = Some wb ->
  wb_getitem wb sheet_name = Ok ws ->
  split_start start_cell end_cell = Ok (start_ref, Some end_text) ->
  end_text <> [] ->
  cell_coords parse_cell_range (str "start") start_ref
    (start_ref ++ str ":" ++ start_ref) = Ok (start_row, start_col) ->
  cell_coords parse_cell_range (str "end") end_text
    (end_text ++ str ":" ++ end_text) = Ok (end_row, end_col) ->
  start_row <= max_row ws -> start_col <= max_column ws ->
  read_excel_range parse_cell_range fs filepath sheet_name start_cell end_cell
    preview_only
  = as_data_error
      (read_rows ws (py_range start_row (end_row + 1))
         (py_range start_col (end_col + 1)) []).
Proof.
  intros Hfs Hws Hsplit Hne Hstart Hend Hr Hc.
  destruct (wb_getitem_in _ _ _ Hws) as [Hin _].
  assert (Ht : truthy_str (Some end_text) = true)
    by (destruct end_text; [contradiction | reflexivity]).
  unfold read_excel_range, load_workbook. rewrite Hfs. unfold_bind.
  rewrite Hin. cbn [negb]. rewrite Hws, Hsplit. cbn beta iota.
  rewrite Hstart. cbn beta iota. rewrite Ht.
  change (default [] (Some end_text)) with end_text.
  rewrite Hend. cbn beta iota.
  destruct (Z.ltb_spec (max_row ws) start_row); [lia|].
  destruct (Z.ltb_spec (max_column ws) start_col); [lia|].
  reflexivity.
Qed.

Lemma read_with_metadata_runs_read_records (fs : files)
    (filepath sheet_name start_cell : pystr) (end_cell : option pystr)
    (include_validation : bool) (wb : workbook) (ws : worksheet)
    (start_ref end_text : pystr) (start_row start_col end_row end_col : Z) :
  fs !! filepath = Some wb ->
  wb_getitem wb sheet_name = Ok ws ->
  split_start start_cell end_cell = Ok (start_ref, Some end_text) ->
  end_text <> [] ->
  cell_coords parse_cell_range (str "start") start_ref
    (start_ref ++ str ":" ++ start_ref) = Ok (start_row, start_col) ->
  cell_coords parse_cell_range (str "end") end_text
    (end_text ++ str ":" ++ end_text) = Ok (end_row, end_col) ->
  start_row <= max_row ws -> start_col <= max_column ws ->
  1 <= start_col <= 18278 -> 1 <= end_col <= 18278 ->
  read_excel_range_with_metadata parse_cell_range lookup_validation fs filepath
    sheet_name start_cell end_cell include_validation
  = as_data_error
      (cells ← read_records lookup_validation ws include_validation
                 (py_range start_row (end_row + 1))
                 (py_range start_col (end_col + 1)) [];
       Ok (RangeData
             (column_letters 3 start_col ++ str_of_Z start_row ++ str ":"
              ++ column_letters 3 end_col ++ str_of_Z end_row)
             sheet_name cells)).
Proof.
  intros Hfs Hws Hsplit Hne Hstart Hend Hr Hc Hsc Hec.
  destruct (wb_getitem_in _ _ _ Hws) as [Hin _].
  assert (Ht : truthy_str (Some end_text) = true)
    by (destruct end_text; [contradiction | reflexivity]).
  unfold read_excel_range_with_metadata, load_workbook. rewrite Hfs. unfold_bind.
  rewrite Hin. cbn [negb]. rewrite Hws, Hsplit. cbn beta iota.
  rewrite Hstart. cbn beta iota. rewrite Ht.
  change (default [] (Some end_text)) with end_text.
  rewrite Hend. cbn beta iota.
  destruct (Z.ltb_spec (max_row ws) start_row); [lia|].
  destruct (Z.ltb_spec (max_column ws) start_col); [lia|].
  cbn [orb]. rewrite !get_column_letter_ok by assumption.
  reflexivity.
Qed.

(** Decides the bounds check of a reader whose start lies inside the
    reported bounds. *)
Ltac in_bounds :=
  repeat match goal with
  | |- context [(?a <? ?b)] => destruct (Z.ltb_spec a b); [lia|]
  end;
  cbn [orb].


(** C4.  With no data (absent or an empty list of rows) the write fails with
    the data error "No data provided to write" and leaves the files as
    they were; the worksheet-level write fails the same way and leaves the
    worksheet as it was. *)
Theorem C4_empty_data_is_rejected (fs : files) (filepath : pystr)
    (sheet_name : option pystr) (data : option (list (list pyval)))
    (start_cell : pystr) (auto_detect_types : bool) :
  data = None \/ data = Some [] ->
  write_file fs filepath sheet_name data start_cell auto_detect_types
    = (fs, Raise no_data)
  /\ (forall ws, write_sheet ws [] start_cell auto_detect_types
                 = (ws, Raise no_data))
  /\ no_data = Exn DataError (str "No data provided to write").
Proof.
  intros [-> | ->]; repeat split; reflexivity.
Qed.

Lemma boundary_text_ok (ws : worksheet) :
  1 <= min_column ws -> max_column ws <= 18278 -> is_ok (boundary_text ws) = true.
Proof.
  intros H1 H2. unfold boundary_text.
  pose proof (min_or_le_max_or 1 (cell_columns ws)) as Hle.
  fold (min_column ws) in Hle. fold (max_column ws) in Hle.
  rewrite !get_column_letter_ok by lia. reflexivity.
Qed.

(** C2 (amended).  Let the start cell resolve to a row beyond the sheet's
    reported maximum row or a column beyond its reported maximum column.
    When an end cell is supplied, separately or after a colon in the start
    text, and resolves, the read returns the empty sequence and does not
    raise (the reported columns lying in the library's range A to ZZZ).
    When no end cell is supplied and the sheet is populated, the start is
    replaced by the sheet's minimum corner and the read returns the rows
    of the whole populated rectangle that hold a value. *)
Theorem C2_out_of_bounds_start (fs : files)
    (filepath sheet_name start_cell : pystr) (end_cell : option pystr)
    (preview_only : bool) (wb : workbook) (ws : worksheet)
    (start_ref : pystr) (end_ref : option pystr) (start_row start_col : Z) :
  fs !! filepath = Some wb ->
  wb_getitem wb sheet_name = Ok ws ->
  split_start start_cell end_cell = Ok (start_ref, end_ref) ->
  coords_of (str "start") start_ref (start_ref ++ str ":" ++ start_ref)
    = Ok (start_row, start_col) ->
  max_row ws < start_row \/ max_column ws < start_col ->
  1 <= min_column ws -> max_column ws <= 18278 ->
  (forall end_text,
      end_ref = Some end_text -> end_text <> [] ->
      is_ok (coords_of (str "end") end_text (end_text ++ str ":" ++ end_text)) = true ->
      read_range fs filepath sheet_name start_cell end_cell preview_only = Ok [])
  /\ (truthy_str end_ref = false -> sheet_is_empty ws = false ->
      1 <= min_row ws -> max_row ws <= max_sheet_row ->
      let rows := py_range (min_row ws) (max_row ws + 1) in
      let cols := py_range (min_column ws) (max_column ws + 1) in
      read_range fs filepath sheet_name start_cell end_cell preview_only
      = Ok (List.map (row_values ws cols)
              (List.filter (fun row => has_value (row_values ws cols row)) rows))).
Proof.
  intros Hfs Hws Hsplit Hstart Hbeyond Hmin Hmax.
  destruct (wb_getitem_in _ _ _ Hws) as [Hin _].
  assert (Hcheck : (max_row ws <? start_row) || (max_column ws <? start_col) = true).
  { apply orb_true_iff. destruct Hbeyond; [left | right]; now apply Z.ltb_lt. }
  pose proof (boundary_text_ok ws Hmin Hmax) as Hb.
  split.
  - intros end_text -> Hne Hend.
    assert (Ht : truthy_str (Some end_text) = true)
      by (destruct end_text; [contradiction | reflexivity]).
    destruct (coords_of (str "end") end_text _) as [[er ec]|] eqn:Eend;
      [|discriminate Hend].
    unfold read_excel_range, load_workbook. rewrite Hfs. unfold_bind.
    rewrite Hin. cbn [negb]. rewrite Hws, Hsplit. cbn beta iota.
    rewrite Hstart. cbn beta iota. rewrite Ht.
    change (default [] (Some end_text)) with end_text.
    rewrite Eend. cbn beta iota. rewrite Hcheck.
    destruct (boundary_text ws); [reflexivity | discriminate Hb].
  - intros Hnone Hpop Hrow1 Hrow2 rows cols.
    unfold read_excel_range, load_workbook. rewrite Hfs. unfold_bind.
    rewrite Hin. cbn [negb]. rewrite Hws, Hsplit. cbn beta iota.
    rewrite Hstart. cbn beta iota. rewrite Hnone, Hpop. cbn beta iota.
    pose proof (min_or_le_max_or 1 (cell_rows ws)) as Hr.
    pose proof (min_or_le_max_or 1 (cell_columns ws)) as Hc.
    fold (min_row ws) in Hr. fold (max_row ws) in Hr.
    fold (min_column ws) in Hc. fold (max_column ws) in Hc.
    destruct (Z.ltb_spec (max_row ws) (min_row ws)); [lia|].
    destruct (Z.ltb_spec (max_column ws) (min_column ws)); [lia|].
    cbn [orb]. rewrite read_rows_spec; [reflexivity|].
    intros row col Hrow Hcol. apply in_py_range in Hrow. apply in_py_range in Hcol.
    apply check_cell_ok; lia.
Qed.

End TransferClaims.

(** ** Concrete runs *)

(** The claim of C2 as first stated fails when no end cell is supplied: on
    a populated sheet whose data end at B2, a read from Z100 returns the
    rows of the sheet instead of the empty sequence. *)
Lemma C2_no_end_cell_reads_whole_sheet :
  sheet_is_empty demo_sheet = false
  /\ max_row demo_sheet = 2 /\ max_column demo_sheet = 2
  /\ cell_coords spec_parse_cell_range (str "start") (str "Z100") (str "Z100:Z100")
     = Ok (100, 26)
  /\ read_excel_range spec_parse_cell_range demo_files (str "/data/book.xlsx")
       (str "Sheet1") (str "Z100") None false
     = Ok [[VStr (str "Name"); VNone]; [VNone; VInt 5]]
  /\ read_excel_range spec_parse_cell_range demo_files (str "/data/book.xlsx")
       (str "Sheet1") (str "Z100") None false
     <> Ok [].
Proof.
  repeat split; try (vm_compute; reflexivity).
  vm_compute. discriminate.
Qed.

Lemma C2_witness :
  read_excel_range spec_parse_cell_range demo_files (str "/data/book.xlsx")
    (str "Sheet1") (str "Z100") (Some (str "Z101")) false
  = Ok [].
Proof.
  destruct (C2_out_of_bounds_start spec_parse_cell_range demo_files
              (str "/data/book.xlsx") (str "Sheet1") (str "Z100")
              (Some (str "Z101")) false demo_workbook demo_sheet
              (str "Z100") (Some (str "Z101")) 100 26) as [Hend _].
  - vm_compute; reflexivity.
  - vm_compute; reflexivity.
  - vm_compute; reflexivity.
  - vm_compute; reflexivity.
  - left. vm_compute; reflexivity.
  - vm_compute; discriminate.
  - vm_compute; discriminate.
  - apply (Hend (str "Z101")); [reflexivity | discriminate | vm_compute; reflexivity].
Defined.

Lemma C4_witness :
  write_data no_float_repr date_letters first_free_title spec_parse_cell_range
    demo_files (str "/data/book.xlsx") None (Some []) (str "A1") true
  = (demo_files, Raise no_data).
Proof.
  apply (C4_empty_data_is_rejected no_float_repr date_letters first_free_title
           spec_parse_cell_range).
  right. reflexivity.
Defined.

(** * Further properties *)

Lemma detect_numeric_fits (sv : pystr) (r : inferred) :
  detect_numeric sv = Ok r ->
  format_fits r = true /\ forall t, fst r <> VStr t.
Proof.
  unfold detect_numeric, detect_number. unfold_bind.
  repeat case_if;
    match goal with
    | |- context [py_float ?x] => destruct (py_float x)
    | |- context [py_int ?x] => destruct (py_int x)
    end;
    intros H; inversion H; split; try reflexivity; intros t; discriminate.
Qed.

Lemma detect_date_fits (formats : list pystr) (sv : pystr) (r : inferred) :
  detect_date formats sv = Ok (Some r) ->
  format_fits r = true /\ forall t, fst r <> VStr t.
Proof.
  induction formats as [|fmt formats IH]; simpl; [discriminate|].
  unfold_bind. destruct (strptime sv fmt); simpl.
  - case_if; intros H; inversion H; split; try reflexivity; intros t; discriminate.
  - case_if; [exact IH | discriminate].
Qed.

Lemma infer_stripped_fits (sv : pystr) (r : inferred) :
  infer_stripped sv = Ok r ->
  format_fits r = true /\ forall t, fst r = VStr t -> t = sv.
Proof.
  unfold infer_stripped.
  destruct (detect_date_total date_formats sv) as [d Hd]. rewrite Hd.
  destruct (detect_numeric sv) as [r0|e] eqn:E.
  - simpl. intros H. inversion H; subst r0.
    destruct (detect_numeric_fits _ _ E) as [Hf Hn]. split; [assumption|].
    intros t Ht. now apply Hn in Ht.
  - unfold catch. case_if; [|discriminate].
    cbn [existsb kind_eqb orb]. unfold_bind.
    destruct d as [r0|].
    + intros H. inversion H; subst r0.
      destruct (detect_date_fits _ _ _ Hd) as [Hf Hn]. split; [assumption|].
      intros t Ht. now apply Hn in Ht.
    + unfold detect_boolean. intros H. inversion H.
      repeat case_if; split; try reflexivity; try discriminate.
      intros t Ht. now inversion Ht.
Qed.

(** ** The format goes with the kind of value *)

Section InferenceInvariant.

Variable float_repr : pyfloat -> pystr.

Local Abbreviation infer := (_infer_and_convert_data_type float_repr).

Lemma infer_fits (value : pyval) (r : inferred) :
  infer value = Ok r ->
  format_fits r = true
  /\ forall t, fst r = VStr t -> t = strip (py_str float_repr value) /\ t <> [].
Proof.
  unfold _infer_and_convert_data_type.
  case_if; [intros H; inversion H; split; [reflexivity | discriminate]|].
  destruct (str_eqb (strip (py_str float_repr value)) []) eqn:E;
    [intros H; inversion H; split; [reflexivity | discriminate]|].
  intros H. apply infer_stripped_fits in H as [Hf Ht]. split; [assumption|].
  intros t Hr. apply Ht in Hr. subst t. split; [reflexivity|].
  now apply str_eqb_false.
Qed.

(** X1.  Whatever the input, the display format returned goes with the kind
    of the value returned: an integer comes with the currency-integer or
    the integer format, a float with the percentage, currency-with-cents or
    two-decimals format, a date with the date format, a date-time with the
    date-time format, and none, a boolean or text with no format.  Text is
    returned only as the trimmed, non-empty string form of the input. *)
Theorem X1_inferred_format_fits_value (value : pyval) (r : inferred) :
  infer value = Ok r ->
  format_fits r = true
  /\ forall t, fst r = VStr t -> t = strip (py_str float_repr value) /\ t <> [].
Proof. apply infer_fits. Qed.

End InferenceInvariant.

(** *** Trimming *)

Lemma lstrip_suffix (s : pystr) : exists p, s = p ++ lstrip s.
Proof.
  induction s as [|c s [p Hp]]; [exists []; reflexivity|].
  simpl. destruct (is_space c); [|exists []; reflexivity].
  exists (c :: p). simpl. now rewrite <- Hp.
Qed.

Lemma lstrip_head (s : pystr) (c : char) (t : pystr) :
  lstrip s = c :: t -> is_space c = false.
Proof.
  induction s as [|d s IH]; simpl; [discriminate|].
  destruct (is_space d) eqn:E; [assumption|].
  intros H. inversion H; subst. assumption.
Qed.

Lemma lstrip_fixed (s : pystr) :
  match s with [] => True | c :: _ => is_space c = false end -> lstrip s = s.
Proof. destruct s as [|c s]; [reflexivity|]. simpl. now intros ->. Qed.

Lemma strip_idempotent (s : pystr) : strip (strip s) = strip s.
Proof.
  unfold strip, rstrip.
  set (t := lstrip s). set (u := lstrip (rev t)).
  assert (Hu : match u with [] => True | c :: _ => is_space c = false end).
  { destruct u as [|c u'] eqn:E; [exact I|]. now apply lstrip_head in E. }
  assert (Hr : lstrip (rev u) = rev u).
  { apply lstrip_fixed. destruct (rev u) as [|c w] eqn:E; [exact I|].
    destruct (lstrip_suffix (rev t)) as [p Hp]. fold u in Hp.
    assert (Ht : t = rev u ++ rev p).
    { rewrite <- (List.rev_involutive t), Hp, List.rev_app_distr. reflexivity. }
    rewrite E in Ht. simpl in Ht. unfold t in Ht.
    now apply lstrip_head in Ht. }
  rewrite Hr, List.rev_involutive. now rewrite (lstrip_fixed u Hu).
Qed.

Lemma filter_all_digits (ds : pystr) :
  forallb is_digit ds = true -> List.filter is_digit ds = ds.
Proof.
  induction ds as [|c ds IH]; [reflexivity|]. simpl. intros H.
  apply andb_prop in H as [Hc Hs]. rewrite Hc. now rewrite IH.
Qed.

Lemma remove_comma_digits (s : pystr) :
  forallb (fun c => is_digit c || is_comma c) s = true ->
  remove_char (chr ",") s = List.filter is_digit s.
Proof.
  unfold remove_char. induction s as [|c s IH]; [reflexivity|].
  intros H. simpl in H. apply andb_prop in H as [Hc Hs].
  simpl. rewrite IH by assumption.
  destruct (is_digit c) eqn:Hd.
  - rewrite (digit_other c _ Hd) by (vm_compute; auto). reflexivity.
  - simpl in Hc. unfold is_comma in Hc. rewrite Hc. reflexivity.
Qed.

Lemma remove_other_digits (k : char) (ds : pystr) :
  is_digit k = false -> forallb is_digit ds = true -> remove_char k ds = ds.
Proof.
  intros Hk. unfold remove_char. induction ds as [|c ds IH]; [reflexivity|].
  simpl. intros H. apply andb_prop in H as [Hc Hs].
  rewrite (digit_other c k Hc Hk). simpl. now rewrite IH.
Qed.

Lemma digitpart_all (cs : captures) (ds : pystr) :
  ds <> [] -> forallb is_digit ds = true -> In (cs, []) (rmatch digitpart cs ds).
Proof.
  intros Hne Hall. destruct ds as [|d ds]; [contradiction|].
  simpl in Hall. apply andb_prop in Hall as [Hd Hds].
  unfold digitpart, digit. cbn [rmatch]. rewrite Hd. cbn [flat_map].
  rewrite List.app_nil_r.
  apply (star_iter_chars _ is_digit); [|assumption|lia].
  intros cs' c s Hc. cbn [rmatch]. unfold Chr. cbn [rmatch].
  rewrite (digit_other c (chr "_") Hc) by (vm_compute; auto).
  cbn [app flat_map]. rewrite Hc. reflexivity.
Qed.

Lemma digits_no_space (ds : pystr) (c : char) :
  forallb is_digit ds = true -> In c ds -> is_space c = false.
Proof.
  intros H Hc. apply digit_not_space.
  rewrite List.forallb_forall in H. now apply H.
Qed.

(** [int] accepts a minus sign before a non-empty string of digits. *)
Lemma py_int_negative_digits (ds : pystr) :
  ds <> [] -> forallb is_digit ds = true ->
  (length ds <= int_max_str_digits)%nat ->
  py_int (chr "-" :: ds) = Ok (- int_of_digits ds).
Proof.
  intros Hne Hall Hlen. unfold py_int.
  rewrite strip_id.
  2:{ intros c [<- | Hc]; [reflexivity | now apply (digits_no_space ds)]. }
  assert (Hfull : re_fullmatch (Cat (Opt sign) digitpart) (chr "-" :: ds) = true).
  { unfold re_fullmatch. apply List.existsb_exists. exists ([], []).
    split; [|reflexivity].
    cbn [rmatch]. eapply List.in_flat_map. exists ([], ds). split.
    - vm_compute. now left.
    - now apply digitpart_all. }
  rewrite Hfull. cbn [List.filter].
  change (is_digit (chr "-")) with false. cbv iota.
  rewrite filter_all_digits by assumption.
  destruct (Nat.ltb_spec int_max_str_digits (length ds)) as [Hlt|_]; [lia|].
  reflexivity.
Qed.

(** [float] accepts a non-empty string of digits. *)
Lemma py_float_digits (ds : pystr) :
  ds <> [] -> forallb is_digit ds = true -> py_float ds = Ok (FloatOf ds).
Proof.
  intros Hne Hall. unfold py_float.
  rewrite strip_id by (intros c; now apply digits_no_space).
  assert (Hfull : re_fullmatch float_literal ds = true).
  { unfold re_fullmatch. apply List.existsb_exists. exists ([], []).
    split; [|reflexivity].
    unfold float_literal. cbn [cat_all]. cbn [rmatch].
    eapply List.in_flat_map. exists ([], ds). split.
    - apply List.in_or_app. right. now left.
    - eapply List.in_flat_map. exists ([], []). split; [|vm_compute; auto].
      unfold number. cbn [rmatch]. apply List.in_or_app. left.
      eapply List.in_flat_map. exists ([], []). split.
      + now apply digitpart_all.
      + vm_compute. now left. }
  now rewrite Hfull.
Qed.

Lemma number_pattern_negative (t : pystr) :
  digits_and_commas t = true -> number_shape (chr "-" :: t) = true.
Proof.
  unfold digits_and_commas. intros H. apply andb_prop in H as [Hall Hex].
  assert (Hne : t <> []) by (destruct t; [discriminate Hex | discriminate]).
  unfold number_shape, is_match, re_match.
  apply (is_match_head _ ([], [])).
  unfold number_pattern. cbn [cat_all]. cbn [rmatch].
  eapply List.in_flat_map. exists ([], t). split.
  - vm_compute. now left.
  - eapply List.in_flat_map. exists ([], []). split.
    + apply (plus_all _ [] t Hne Hall).
    + vm_compute. now left.
Qed.

Lemma currency_pattern_negative (t : pystr) :
  currency_shape (chr "-" :: t) = false.
Proof. reflexivity. Qed.

Lemma digits_and_commas_facts (t : pystr) :
  digits_and_commas t = true ->
  forallb (fun c => is_digit c || is_comma c) t = true
  /\ List.filter is_digit t <> []
  /\ forallb is_digit (List.filter is_digit t) = true
  /\ (forall c, In c t -> is_space c = false)
  /\ (forall c k, In c t -> is_digit k || is_comma k = false ->
                  (c =? k)%N = false).
Proof.
  unfold digits_and_commas. intros H. apply andb_prop in H as [Hall Hex].
  assert (Hin : forall c, In c t -> is_digit c || is_comma c = true)
    by (now apply List.forallb_forall).
  repeat split.
  - assumption.
  - apply List.existsb_exists in Hex as [c [Hc Hd]]. intros E.
    assert (Hf : In c (List.filter is_digit t)) by (apply List.filter_In; auto).
    rewrite E in Hf. destruct Hf.
  - apply List.forallb_forall. intros c Hc. now apply List.filter_In in Hc.
  - intros c Hc. specialize (Hin c Hc). apply orb_prop in Hin as [H|H];
      [now apply digit_not_space | now apply comma_not_space].
  - intros c k Hc Hk. specialize (Hin c Hc). apply orb_prop in Hin as [H|H].
    + apply orb_false_elim in Hk as [Hk _]. now apply digit_other.
    + apply orb_false_elim in Hk as [_ Hk].
      apply N.eqb_neq. intros ->. congruence.
Qed.

(** ** Whitespace, negative numbers and percentages *)

Section InferenceBranches.

Variable float_repr : pyfloat -> pystr.

Local Abbreviation infer := (_infer_and_convert_data_type float_repr).

(** X2.  Whitespace around a string does not change what is inferred: a
    string and its trimmed form give the same result. *)
Theorem X2_inference_ignores_surrounding_whitespace (s : pystr) :
  infer (VStr s) = infer (VStr (strip s)).
Proof.
  destruct (strip s) as [|c t] eqn:E.
  - unfold _infer_and_convert_data_type at 1.
    case_if; [reflexivity|]. cbn [py_str]. rewrite E. reflexivity.
  - rewrite <- E.
    rewrite (infer_str float_repr s) by (rewrite E; discriminate).
    rewrite (infer_str float_repr (strip s))
      by (rewrite strip_idempotent, E; discriminate).
    now rewrite strip_idempotent.
Qed.

(** A minus sign before digits and thousands separators: the currency
    expression has no sign, so the plain-number step takes the string. *)
Lemma negative_number_inference (t : pystr) :
  digits_and_commas t = true ->
  (length (List.filter is_digit t) <= int_max_str_digits)%nat ->
  infer (VStr (chr "-" :: t))
  = Ok (VInt (- int_of_digits (List.filter is_digit t)), Some fmt_integer).
Proof.
  intros Ht Hlen. pose proof (number_pattern_negative t Ht) as Hnum.
  destruct (digits_and_commas_facts t Ht) as [Hall [Hne [Hdig [Hsp Hoth]]]].
  assert (Hstrip : strip (chr "-" :: t) = chr "-" :: t).
  { apply strip_id. intros c [<- | Hc]; [reflexivity | auto]. }
  rewrite infer_str by (rewrite Hstrip; discriminate). rewrite Hstrip.
  unfold infer_stripped, detect_numeric.
  assert (Hend : endswith (chr "-" :: t) (chr "%") = false).
  { unfold endswith. destruct (rev (chr "-" :: t)) as [|d w] eqn:E; [reflexivity|].
    assert (Hd : In d (chr "-" :: t)) by (apply List.in_rev; rewrite E; now left).
    destruct Hd as [<- | Hd]; [reflexivity|].
    apply Hoth; [assumption | reflexivity]. }
  rewrite Hend. unfold detect_number.
  change (is_match (re_match currency_pattern (chr "-" :: t))) with false.
  cbv iota. unfold number_shape in Hnum. rewrite Hnum.
  change (remove_char (chr ",") (chr "-" :: t))
    with (chr "-" :: remove_char (chr ",") t).
  rewrite remove_comma_digits by assumption.
  assert (Hdot : contains_char (chr ".") (chr "-" :: List.filter is_digit t) = false).
  { unfold contains_char. apply not_true_is_false. intros E.
    apply List.existsb_exists in E as [c [[<- | Hc] Heq]]; [discriminate Heq|].
    apply List.filter_In in Hc as [Hc _].
    rewrite (Hoth c _ Hc) in Heq by (reflexivity).
    discriminate. }
  rewrite Hdot, py_int_negative_digits by assumption. reflexivity.
Qed.

(** X3.  A minus sign followed by digits and thousands separators (at least
    one digit, within the digit limit of [int]) is converted to the
    negative integer the digits spell, with the plain integer format "0":
    this is the input that reaches the plain-number step. *)
Theorem X3_negative_number_gets_integer_format (t : pystr) :
  digits_and_commas t = true ->
  (length (List.filter is_digit t) <= int_max_str_digits)%nat ->
  infer (VStr (chr "-" :: t))
  = Ok (VInt (- int_of_digits (List.filter is_digit t)), Some fmt_integer).
Proof. apply negative_number_inference. Qed.

(** X4.  Digits and thousands separators followed by a percent sign are
    converted to the float the digits spell divided by 100, with the
    percentage format; the separators are dropped. *)
Theorem X4_percentage_is_divided_by_hundred (t : pystr) :
  digits_and_commas t = true ->
  infer (VStr (t ++ str "%"))
  = Ok (VFloat (FloatDiv (FloatOf (List.filter is_digit t)) 100), Some fmt_percent).
Proof.
  intros Ht.
  destruct (digits_and_commas_facts t Ht) as [Hall [Hne [Hdig [Hsp Hoth]]]].
  assert (Hstrip : strip (t ++ str "%") = t ++ str "%").
  { apply strip_id. intros c Hc. apply List.in_app_or in Hc as [Hc | [<- | []]];
      [auto | reflexivity]. }
  rewrite infer_str by (rewrite Hstrip; destruct t; discriminate). rewrite Hstrip.
  unfold infer_stripped, detect_numeric.
  assert (Hend : endswith (t ++ str "%") (chr "%") = true).
  { unfold endswith. rewrite List.rev_app_distr. reflexivity. }
  rewrite Hend. unfold drop_last.
  change (str "%") with [chr "%"]. rewrite List.removelast_last.
  rewrite remove_comma_digits by assumption.
  rewrite (remove_other_digits (chr ".")) by (assumption || (vm_compute; auto)).
  rewrite (remove_other_digits (chr "-")) by (assumption || (vm_compute; auto)).
  assert (Hisd : isdigit (List.filter is_digit t) = true).
  { unfold isdigit. destruct (List.filter is_digit t) as [|d ds] eqn:E;
      [contradiction|].
    apply List.forallb_forall. intros c Hc. apply digit_has_property.
    rewrite List.forallb_forall in Hdig. now apply Hdig. }
  rewrite Hisd, py_float_digits by assumption. reflexivity.
Qed.

End InferenceBranches.

(** *** Integers through [str] and [int] *)

Lemma uint_chars_digits (d : Decimal.uint) : forallb is_digit (uint_chars d) = true.
Proof. induction d; [reflexivity | simpl; assumption ..]. Qed.

Lemma uint_chars_value (d : Decimal.uint) :
  (forall p, fold_left (fun acc c => 10 * acc + digit_val c) (uint_chars d) (Z.pos p)
             = Z.pos (Pos.of_uint_acc d p))
  /\ fold_left (fun acc c => 10 * acc + digit_val c) (uint_chars d) 0
     = Z.of_N (Pos.of_uint d).
Proof.
  induction d as [|d [IHp IH0]|d [IHp IH0]|d [IHp IH0]|d [IHp IH0]|d [IHp IH0]
                  |d [IHp IH0]|d [IHp IH0]|d [IHp IH0]|d [IHp IH0]|d [IHp IH0]];
    (split; [intros p|]); try reflexivity;
    unfold uint_chars;
    cbn [NilEmpty.string_of_uint str list_ascii_of_string List.map fold_left];
    fold (str (NilEmpty.string_of_uint d)); fold (uint_chars d);
    cbn [Pos.of_uint_acc Pos.of_uint];
    first [ rewrite <- IHp; f_equal; vm_compute (digit_val _); lia
          | exact IH0
          | cbn [Z.of_N]; rewrite <- IHp; f_equal ].
Qed.

Lemma uint_chars_nonempty (d : Decimal.uint) : d <> Decimal.Nil -> uint_chars d <> [].
Proof. destruct d; [contradiction | discriminate ..]. Qed.

Lemma str_of_Z_pos (p : positive) : str_of_Z (Z.pos p) = uint_chars (Pos.to_uint p).
Proof.
  unfold str_of_Z, uint_chars. cbn [Z.to_int NilZero.string_of_int].
  pose proof (DecimalPos.Unsigned.to_uint_nonnil p) as Hn.
  destruct (Pos.to_uint p); [contradiction | reflexivity ..].
Qed.

Lemma str_of_Z_neg (p : positive) :
  str_of_Z (Z.neg p) = chr "-" :: uint_chars (Pos.to_uint p).
Proof.
  unfold str_of_Z, uint_chars. cbn [Z.to_int NilZero.string_of_int].
  pose proof (DecimalPos.Unsigned.to_uint_nonnil p) as Hn.
  destruct (Pos.to_uint p); [contradiction | reflexivity ..].
Qed.

Lemma int_of_uint_chars (p : positive) :
  int_of_digits (uint_chars (Pos.to_uint p)) = Z.pos p.
Proof.
  unfold int_of_digits. rewrite (proj2 (uint_chars_value _)).
  now rewrite DecimalPos.Unsigned.of_to.
Qed.

Lemma uint_chars_digits_and_commas (p : positive) :
  digits_and_commas (uint_chars (Pos.to_uint p)) = true.
Proof.
  pose proof (uint_chars_digits (Pos.to_uint p)) as Hd.
  pose proof (uint_chars_nonempty _ (DecimalPos.Unsigned.to_uint_nonnil p)) as Hne.
  unfold digits_and_commas. apply andb_true_intro. split.
  - apply List.forallb_forall. intros c Hc.
    rewrite List.forallb_forall in Hd. now rewrite (Hd c Hc).
  - destruct (uint_chars (Pos.to_uint p)) as [|c l]; [contradiction|].
    simpl in *. apply andb_prop in Hd as [-> _]. reflexivity.
Qed.

Section IntegerRoundTrip.

Variable float_repr : pyfloat -> pystr.

Local Abbreviation infer := (_infer_and_convert_data_type float_repr).

Lemma infer_int_as_text (z : Z) : infer (VInt z) = infer (VStr (str_of_Z z)).
Proof.
  assert (Hne : str_of_Z z <> []).
  { destruct z as [|p|p]; [discriminate | |].
    - rewrite str_of_Z_pos. apply uint_chars_nonempty, DecimalPos.Unsigned.to_uint_nonnil.
    - rewrite str_of_Z_neg. discriminate. }
  unfold _infer_and_convert_data_type. cbn [is_none eq_empty_str py_str orb].
  destruct (str_of_Z z); [contradiction | reflexivity].
Qed.

(** X5.  An integer input (within the digit limit of [int]) comes back as
    the same integer: it is printed and parsed again.  Its format is the
    currency-integer one when it is zero or positive and the plain integer
    one when it is negative. *)
Theorem X5_integer_value_survives_inference (z : Z) :
  (length (str_of_Z (Z.abs z)) <= int_max_str_digits)%nat ->
  infer (VInt z)
  = Ok (VInt z, Some (if z <? 0 then fmt_integer else fmt_currency_int)).
Proof.
  intros Hlen. destruct z as [|p|p]; [reflexivity| |].
  - change (Z.abs _) with (Z.pos p) in Hlen. rewrite str_of_Z_pos in Hlen.
    pose proof (uint_chars_digits_and_commas p) as Hdc.
    pose proof (filter_all_digits _ (uint_chars_digits (Pos.to_uint p))) as Hf.
    rewrite infer_int_as_text, str_of_Z_pos.
    rewrite (unsigned_number_gets_currency_format float_repr) by (rewrite ?Hf; assumption).
    now rewrite Hf, int_of_uint_chars.
  - change (Z.abs _) with (Z.pos p) in Hlen. rewrite str_of_Z_pos in Hlen.
    pose proof (uint_chars_digits_and_commas p) as Hdc.
    pose proof (filter_all_digits _ (uint_chars_digits (Pos.to_uint p))) as Hf.
    rewrite infer_int_as_text, str_of_Z_neg.
    rewrite (negative_number_inference float_repr) by (rewrite ?Hf; assumption).
    now rewrite Hf, int_of_uint_chars.
Qed.

End IntegerRoundTrip.

Lemma combine_seq_In {A} (l : list A) (k : nat) (j : Z) (x : A) :
  In (j, x) (combine (List.map Z.of_nat (seq k (length l))) l) ->
  exists n : nat, j = Z.of_nat (k + n) /\ l !! n = Some x.
Proof.
  revert k. induction l as [|y l IH]; intros k H; [destruct H|].
  simpl in H. destruct H as [H | H].
  - inversion H; subst. exists 0%nat. split; [f_equal; lia | reflexivity].
  - destruct (IH (S k) H) as [n [Hj Hn]]. exists (S n).
    split; [rewrite Hj; f_equal; lia | exact Hn].
Qed.

Lemma enumerate_In_lookup {A} (l : list A) (j : Z) (x : A) :
  In (j, x) (enumerate l) -> exists n : nat, j = Z.of_nat n /\ l !! n = Some x.
Proof. intros H. apply (combine_seq_In l 0) in H. exact H. Qed.

Lemma replace_sheet_titles (l : list worksheet) (name : pystr) (ws' : worksheet) :
  ws_title ws' = name ->
  List.map ws_title (replace_sheet l name ws') = List.map ws_title l.
Proof.
  intros Ht. induction l as [|w l IH]; [reflexivity|]. simpl.
  destruct (str_eqb (ws_title w) name) eqn:E; simpl.
  - apply str_eqb_true in E. congruence.
  - now rewrite IH.
Qed.

Lemma replace_sheet_others (l : list worksheet) (name : pystr) (ws' w : worksheet) :
  In w l -> ws_title w <> name -> In w (replace_sheet l name ws').
Proof.
  intros Hin Hne. induction l as [|x l IH]; [destruct Hin|]. simpl.
  destruct (str_eqb (ws_title x) name) eqn:E.
  - destruct Hin as [-> | Hin]; [|now right].
    apply str_eqb_true in E. contradiction.
  - destruct Hin as [-> | Hin]; [now left | right; auto].
Qed.

Lemma find_replaced_sheet (l : list worksheet) (name : pystr) (ws' : worksheet) :
  str_in name (List.map ws_title l) = true -> ws_title ws' = name ->
  List.find (fun w => str_eqb (ws_title w) name) (replace_sheet l name ws')
  = Some ws'.
Proof.
  unfold str_in. intros Hin Ht. induction l as [|x l IH]; [discriminate|].
  simpl in *. destruct (str_eqb (ws_title x) name) eqn:E; simpl.
  - now rewrite (proj2 (str_eqb_true _ _) Ht).
  - rewrite E. apply IH. rewrite str_eqb_sym, E in Hin. exact Hin.
Qed.

Lemma fold_min_max_init (a : Z) (l : list Z) :
  fold_right Z.min a l <= a <= fold_right Z.max a l.
Proof. induction l; simpl; lia. Qed.

Lemma fold_min_max_In (a x : Z) (l : list Z) :
  In x l -> fold_right Z.min a l <= x <= fold_right Z.max a l.
Proof.
  induction l as [|y l IH]; [intros []|]. intros [<- | Hin]; simpl.
  - pose proof (fold_min_max_init a l). lia.
  - specialize (IH Hin). lia.
Qed.

Lemma min_max_or_bounds (d x : Z) (l : list Z) :
  In x l -> min_or d l <= x <= max_or d l.
Proof.
  destruct l as [|y l]; [intros []|]. simpl. intros [<- | Hin].
  - apply fold_min_max_init.
  - now apply fold_min_max_In.
Qed.

Lemma cell_in_bounds (ws : worksheet) (r c : Z) :
  is_Some (ws_cells ws !! (r, c)) ->
  min_row ws <= r <= max_row ws /\ min_column ws <= c <= max_column ws.
Proof.
  intros [x Hx]. apply elem_of_map_to_list in Hx. apply list_elem_of_In in Hx.
  split; apply min_max_or_bounds.
  - unfold cell_rows. apply List.in_map_iff. exists ((r, c), x). auto.
  - unfold cell_columns. apply List.in_map_iff. exists ((r, c), x). auto.
Qed.

Lemma py_range_from (a : Z) (n : nat) :
  py_range a (a + Z.of_nat n) = List.map (fun i => a + Z.of_nat i) (seq 0 n).
Proof.
  unfold py_range. replace (Z.to_nat (a + Z.of_nat n - a)) with n by lia.
  reflexivity.
Qed.

Lemma map_seq_ext {A} (f : nat -> A) (l : list A) (k : nat) :
  (forall i x, l !! i = Some x -> f (k + i)%nat = x) ->
  List.map f (seq k (length l)) = l.
Proof.
  revert k. induction l as [|y l IH]; intros k H; [reflexivity|].
  simpl. f_equal.
  - rewrite <- (H 0%nat y eq_refl). f_equal. lia.
  - apply IH. intros i x Hi. rewrite <- (H (S i) x Hi). f_equal. lia.
Qed.

Lemma filter_map_swap {A B} (g : A -> B) (h : B -> bool) (l : list A) :
  List.map g (List.filter (fun a => h (g a)) l) = List.filter h (List.map g l).
Proof.
  induction l as [|a l IH]; [reflexivity|]. simpl.
  destruct (h (g a)); simpl; now rewrite IH.
Qed.

(** ** What a write changes *)

Section WriteFrame.

Variable float_repr : pyfloat -> pystr.
Variable is_date_format : pystr -> bool.
Variable avoid_duplicate_name : list pystr -> pystr -> pystr.
Variable parse_cell_range : pystr -> res (list (option Z)).

Local Abbreviation coords_of := (cell_coords parse_cell_range).
Local Abbreviation read_range := (read_excel_range parse_cell_range).
Local Abbreviation write_sheet :=
  (_write_data_to_worksheet float_repr is_date_format parse_cell_range).
Local Abbreviation write_file :=
  (write_data float_repr is_date_format avoid_duplicate_name parse_cell_range).
Local Abbreviation new_cell := (written_cell float_repr is_date_format).
Local Abbreviation put_cell := (write_cell float_repr is_date_format).
Local Abbreviation infer := (_infer_and_convert_data_type float_repr).

Lemma set_value_spec (ws ws' : worksheet) (row col : Z) (v : pyval) :
  set_value is_date_format ws row col v = Ok ws' ->
  exists c,
    bind_value is_date_format (cell_at ws row col) v = Ok c
    /\ ws' = Worksheet (ws_title ws) (<[(row, col) := c]> (ws_cells ws)).
Proof.
  unfold set_value. unfold_bind.
  destruct (bind_value _ _ _) as [c|e]; intros H; inversion H. eauto.
Qed.

(** What the setter makes of a cell. *)
Lemma bind_value_spec (old c : cell) (v : pyval) :
  bind_value is_date_format old v = Ok c ->
  cell_value c = stored_value v
  /\ cell_number_format c
     = if is_temporal v && negb (is_date_format (cell_number_format old))
       then iso_format v else cell_number_format old.
Proof.
  destruct v; cbn [bind_value stored_value is_temporal iso_format andb].
  all: try (intros H; inversion H; split; reflexivity).
  - unfold check_string. unfold_bind.
    destruct (existsb _ _); intros H; inversion H. split; reflexivity.
  - intros H. inversion H. cbn [cell_value cell_number_format].
    split; [reflexivity|]. now destruct (is_date_format _).
  - intros H. inversion H. cbn [cell_value cell_number_format].
    split; [reflexivity|]. now destruct (is_date_format _).
Qed.

(** One cell: the title is kept, no cell is removed and no other cell
    changes; on failure the target is as it was, on success it is what the
    body of the loop makes of the cell. *)
Lemma write_cell_spec (ws ws' : worksheet) (auto : bool) (row col : Z)
    (v : pyval) (r : res unit) :
  put_cell ws auto row col v = (ws', r) ->
  ws_title ws' = ws_title ws
  /\ (forall k, is_Some (ws_cells ws !! k) -> is_Some (ws_cells ws' !! k))
  /\ (forall rr cc, (row, col) <> (rr, cc) -> cell_at ws' rr cc = cell_at ws rr cc)
  /\ (forall e, r = Raise e -> cell_at ws' row col = cell_at ws row col)
  /\ (r = Ok tt ->
      new_cell auto (cell_at ws row col) v = Ok (cell_at ws' row col)
      /\ is_Some (ws_cells ws' !! (row, col))).
Proof.
  assert (Hkeep : forall (m : gmap (Z * Z) cell) k k' x,
             is_Some (m !! k) -> is_Some (<[k' := x]> m !! k)).
  { intros m k k' x Hk. rewrite lookup_insert. now case_decide. }
  destruct ws as [t m]. unfold write_cell, ws_cell. unfold_bind.
  destruct (check_cell row col) as [[]|e0].
  2:{ intros H. inversion H; subst. repeat split; auto; discriminate. }
  cbn [ws_title ws_cells].
  set (old := cell_at (Worksheet t m) row col).
  set (ws1 := Worksheet t (<[(row, col) := old]> m)).
  assert (H1 : forall rr cc, cell_at ws1 rr cc = cell_at (Worksheet t m) rr cc).
  { intros rr cc. unfold ws1. rewrite cell_at_insert.
    case_decide as Hk; [|reflexivity]. injection Hk as <- <-. reflexivity. }
  assert (Hfail :
            ws_title ws1 = t
            /\ (forall k, is_Some (m !! k) -> is_Some (ws_cells ws1 !! k))
            /\ (forall rr cc, (row, col) <> (rr, cc) ->
                              cell_at ws1 rr cc = cell_at (Worksheet t m) rr cc)
            /\ cell_at ws1 row col = cell_at (Worksheet t m) row col).
  { split; [reflexivity|]. split; [intros k Hk; now apply Hkeep|].
    split; intros; apply H1. }
  destruct Hfail as [Ft [Fk [Ff Fv]]].
  assert (Hdone : forall (c new : cell) (ws2 : worksheet),
            ws2 = Worksheet t (<[(row, col) := new]> (<[(row, col) := c]> (ws_cells ws1)))
                  \/ (new = c /\ ws2 = Worksheet t (<[(row, col) := c]> (ws_cells ws1))) ->
            ws_title ws2 = t
            /\ (forall k, is_Some (m !! k) -> is_Some (ws_cells ws2 !! k))
            /\ (forall rr cc, (row, col) <> (rr, cc) ->
                              cell_at ws2 rr cc = cell_at (Worksheet t m) rr cc)
            /\ cell_at ws2 row col = new
            /\ is_Some (ws_cells ws2 !! (row, col))).
  { intros c new ws2 [-> | [-> ->]]; cbn [ws_title ws_cells].
    - split; [reflexivity|]. split; [intros k Hk; now do 3 apply Hkeep|].
      split.
      + intros rr cc Hne. rewrite !cell_at_insert.
        case_decide; [contradiction|]. fold ws1. apply H1.
      + split; [|rewrite lookup_insert_eq; eauto].
        rewrite cell_at_insert. case_decide; [reflexivity | congruence].
    - split; [reflexivity|]. split; [intros k Hk; now do 2 apply Hkeep|].
      split.
      + intros rr cc Hne. rewrite !cell_at_insert.
        case_decide; [contradiction|]. fold ws1. apply H1.
      + split; [|rewrite lookup_insert_eq; eauto].
        rewrite cell_at_insert. case_decide; [reflexivity | congruence]. }
  unfold written_cell. unfold_bind.
  destruct auto.
  - destruct (infer v) as [[cv nf]|e]; [|intros H; inversion H; subst ws' r;
       split; [exact Ft|]; split; [exact Fk|]; split; [exact Ff|];
       split; [intros; exact Fv | discriminate]].
    destruct (set_value is_date_format ws1 row col cv) as [ws2|e] eqn:Es;
      [|intros H; inversion H; subst ws' r;
       split; [exact Ft|]; split; [exact Fk|]; split; [exact Ff|];
       split; [intros; exact Fv | discriminate]].
    apply set_value_spec in Es as [c [Hb ->]]. rewrite H1 in Hb. fold old in Hb.
    rewrite Hb. cbn [ws_title].
    destruct (truthy_format nf); intros H; inversion H; subst ws' r.
    + unfold set_number_format. cbn [ws_title ws_cells].
      rewrite cell_at_insert.
      destruct (decide ((row, col) = (row, col))) as [_|]; [|congruence].
      destruct (Hdone c (Cell (cell_value c) (default [] nf)) _ (or_introl eq_refl))
        as [Ht [Hk [Hf [Hv Hs]]]].
      split; [exact Ht|]. split; [exact Hk|]. split; [exact Hf|].
      split; [discriminate|]. intros _.
      split; [exact (f_equal Ok (eq_sym Hv)) | exact Hs].
    + destruct (Hdone c c _ (or_intror (conj eq_refl eq_refl)))
        as [Ht [Hk [Hf [Hv Hs]]]].
      split; [exact Ht|]. split; [exact Hk|]. split; [exact Hf|].
      split; [discriminate|]. intros _.
      split; [exact (f_equal Ok (eq_sym Hv)) | exact Hs].
  - destruct (set_value is_date_format ws1 row col v) as [ws2|e] eqn:Es;
      [|intros H; inversion H; subst ws' r;
       split; [exact Ft|]; split; [exact Fk|]; split; [exact Ff|];
       split; [intros; exact Fv | discriminate]].
    apply set_value_spec in Es as [c [Hb ->]]. rewrite H1 in Hb. fold old in Hb.
    rewrite Hb. cbn [ws_title]. intros H; inversion H; subst ws' r.
    destruct (Hdone c c _ (or_intror (conj eq_refl eq_refl)))
      as [Ht [Hk [Hf [Hv Hs]]]].
    split; [exact Ht|]. split; [exact Hk|]. split; [exact Hf|].
    split; [discriminate|]. intros _.
      split; [exact (f_equal Ok (eq_sym Hv)) | exact Hs].
Qed.

Lemma write_row_spec (auto : bool) (start_row start_col i : Z)
    (row : list (Z * pyval)) (ws ws' : worksheet) (r : res unit) :
  write_row float_repr is_date_format ws auto start_row start_col i row = (ws', r) ->
  ws_title ws' = ws_title ws
  /\ (forall k, is_Some (ws_cells ws !! k) -> is_Some (ws_cells ws' !! k))
  /\ (forall rr cc,
         (forall j v, In (j, v) row -> (start_row + i, start_col + j) <> (rr, cc)) ->
         cell_at ws' rr cc = cell_at ws rr cc)
  /\ (r = Ok tt -> NoDup (List.map fst row) ->
      forall j v, In (j, v) row ->
        new_cell auto (cell_at ws (start_row + i) (start_col + j)) v
        = Ok (cell_at ws' (start_row + i) (start_col + j))
        /\ is_Some (ws_cells ws' !! (start_row + i, start_col + j))).
Proof.
  revert ws. induction row as [|[j0 v0] row IH]; intros ws H; simpl in H.
  - inversion H; subst. split; [reflexivity|]. split; [auto|].
    split; [reflexivity|]. intros _ _ j v Hin. destruct Hin.
  - destruct (put_cell ws auto (start_row + i) (start_col + j0) v0)
      as [ws1 r1] eqn:Hw.
    destruct (write_cell_spec _ _ _ _ _ _ _ Hw) as [Ht [Hkeep [Hat [Hfail Hdone]]]].
    destruct r1 as [[]|e].
    + destruct (Hdone eq_refl) as [Hnew Hsome].
      destruct (IH _ H) as [Ht' [Hkeep' [Hframe Hval]]].
      split; [congruence|]. split; [auto|]. split.
      * intros rr cc Hne.
        rewrite Hframe by (intros j v Hin; eapply Hne; right; exact Hin).
        apply Hat. apply (Hne j0 v0). now left.
      * intros Hr Hnd j v [Heq | Hin].
        -- inversion Heq; subst j0 v0. inversion Hnd as [|? ? Hnotin Hnd']; subst.
           split; [|auto].
           rewrite Hframe; [exact Hnew|].
           intros j' v' Hin' Heq'. apply Hnotin. rewrite list_elem_of_In.
           apply List.in_map_iff. exists (j', v'). split; [|assumption].
           simpl. inversion Heq'. lia.
        -- inversion Hnd as [|? ? Hnotin Hnd']; subst.
           destruct (Hval eq_refl Hnd' j v Hin) as [Hv Hs]. split; [|assumption].
           rewrite <- Hv. f_equal. symmetry. apply Hat.
           intros Hk. apply Hnotin. rewrite list_elem_of_In.
           apply List.in_map_iff. exists (j, v). split; [|assumption].
           simpl. inversion Hk. lia.
    + inversion H; subst. split; [assumption|]. split; [assumption|].
      split; [|discriminate].
      intros rr cc Hne. apply Hat. apply (Hne j0 v0). now left.
Qed.

Lemma write_rows_spec (auto : bool) (start_row start_col : Z)
    (data : list (Z * list pyval)) (ws ws' : worksheet) (r : res unit) :
  write_rows float_repr is_date_format ws auto start_row start_col data = (ws', r) ->
  ws_title ws' = ws_title ws
  /\ (forall k, is_Some (ws_cells ws !! k) -> is_Some (ws_cells ws' !! k))
  /\ (forall rr cc,
         (forall i row j v, In (i, row) data -> In (j, v) (enumerate row) ->
                            (start_row + i, start_col + j) <> (rr, cc)) ->
         cell_at ws' rr cc = cell_at ws rr cc)
  /\ (r = Ok tt -> NoDup (List.map fst data) ->
      forall i row, In (i, row) data ->
      forall j v, In (j, v) (enumerate row) ->
        new_cell auto (cell_at ws (start_row + i) (start_col + j)) v
        = Ok (cell_at ws' (start_row + i) (start_col + j))
        /\ is_Some (ws_cells ws' !! (start_row + i, start_col + j))).
Proof.
  revert ws. induction data as [|[i0 row0] data IH]; intros ws H; simpl in H.
  - inversion H; subst. split; [reflexivity|]. split; [auto|].
    split; [reflexivity|]. intros _ _ i row Hin. destruct Hin.
  - destruct (write_row float_repr is_date_format ws auto start_row start_col i0
                (enumerate row0)) as [ws1 r1] eqn:Hrow.
    destruct (write_row_spec _ _ _ _ _ _ _ _ Hrow) as [Ht1 [Hkeep1 [Hframe1 Hval1]]].
    destruct r1 as [[]|e].
    + destruct (IH _ H) as [Ht [Hkeep [Hframe Hval]]].
      split; [congruence|]. split; [auto|]. split.
      * intros rr cc Hne.
        rewrite Hframe
          by (intros i row j v Hin Hj; eapply Hne; [right; exact Hin | exact Hj]).
        apply Hframe1. intros j v Hj. eapply Hne; [now left | exact Hj].
      * intros Hr Hnd i row [Heq | Hin] j v Hj.
        -- inversion Heq; subst i0 row0. inversion Hnd as [|? ? Hnotin Hnd']; subst.
           destruct (Hval1 eq_refl (enumerate_NoDup _) j v Hj) as [Hv Hs].
           split; [|auto]. rewrite Hframe; [exact Hv|].
           intros i' row' j' v' Hin' _ Heq'. apply Hnotin. rewrite list_elem_of_In.
           apply List.in_map_iff. exists (i', row'). split; [|assumption].
           simpl. inversion Heq'. lia.
        -- inversion Hnd as [|? ? Hnotin Hnd']; subst.
           destruct (Hval eq_refl Hnd' i row Hin j v Hj) as [Hv Hs].
           split; [|assumption]. rewrite <- Hv. f_equal. symmetry.
           apply Hframe1. intros j' v' _ Heq'. apply Hnotin. rewrite list_elem_of_In.
           apply List.in_map_iff. exists (i, row). split; [|assumption].
           simpl. inversion Heq'. lia.
    + inversion H; subst. split; [assumption|]. split; [assumption|].
      split; [|discriminate].
      intros rr cc Hne. apply Hframe1. intros j v Hj.
      eapply Hne; [now left | exact Hj].
Qed.

Lemma write_sheet_spec (ws ws' : worksheet) (data : list (list pyval))
    (start_cell : pystr) (auto : bool) (r : res unit) :
  write_sheet ws data start_cell auto = (ws', r) ->
  ws_title ws' = ws_title ws
  /\ (forall k, is_Some (ws_cells ws !! k) -> is_Some (ws_cells ws' !! k))
  /\ (forall e, coords_of (str "start") start_cell start_cell = Raise e -> ws' = ws)
  /\ (forall start_row start_col,
         coords_of (str "start") start_cell start_cell = Ok (start_row, start_col) ->
         (forall rr cc, ~ is_target data start_row start_col rr cc ->
                        cell_at ws' rr cc = cell_at ws rr cc)
         /\ (r = Ok tt ->
             forall (i j : nat) row val,
               data !! i = Some row -> row !! j = Some val ->
               new_cell auto
                 (cell_at ws (start_row + Z.of_nat i) (start_col + Z.of_nat j)) val
               = Ok (cell_at ws' (start_row + Z.of_nat i) (start_col + Z.of_nat j))
               /\ is_Some (ws_cells ws' !! (start_row + Z.of_nat i,
                                            start_col + Z.of_nat j)))).
Proof.
  unfold _write_data_to_worksheet.
  destruct data as [|row0 data].
  { intros H. inversion H; subst. split; [reflexivity|]. split; [auto|].
    split; [reflexivity|]. intros sr sc Hc. split; [reflexivity | discriminate]. }
  destruct (coords_of _ _ _) as [[sr sc]|e].
  - destruct (write_rows float_repr is_date_format ws auto sr sc
                (enumerate (row0 :: data))) as [ws1 r1] eqn:Hw.
    intros H. inversion H; subst ws1 r.
    destruct (write_rows_spec _ _ _ _ _ _ _ Hw) as [Ht [Hkeep [Hframe Hval]]].
    split; [assumption|]. split; [assumption|]. split; [discriminate|].
    intros start_row start_col Hc. inversion Hc; subst sr sc. split.
    + intros rr cc Hnot. apply Hframe. intros i row j v Hi Hj Heq.
      apply enumerate_In_lookup in Hi as [n [-> Hn]].
      apply enumerate_In_lookup in Hj as [m [-> Hm]].
      apply Hnot. exists n, m, row, v. inversion Heq. auto.
    + intros Hr i j row val Hi Hj.
      apply (proj1 (as_data_error_ok _ _)) in Hr.
      eapply (Hval Hr (enumerate_NoDup _)); apply enumerate_lookup; eassumption.
  - intros H. inversion H; subst. split; [reflexivity|]. split; [auto|].
    split; [reflexivity|]. discriminate.
Qed.

(** A relation between the cell before and the cell after that every
    assignment respects holds between every cell of the worksheet before
    and after the write, whatever the outcome. *)
Lemma write_sheet_invariant (R : cell -> cell -> Prop) (P : pyval -> Prop)
    (auto : bool) :
  (forall c, R c c) ->
  (forall a b c, R a b -> R b c -> R a c) ->
  (forall old v c, P v -> new_cell auto old v = Ok c -> R old c) ->
  forall (ws ws' : worksheet) (data : list (list pyval)) (start_cell : pystr)
         (r : res unit),
  (forall row v, In row data -> In v row -> P v) ->
  write_sheet ws data start_cell auto = (ws', r) ->
  forall rr cc, R (cell_at ws rr cc) (cell_at ws' rr cc).
Proof.
  intros Hrefl Htrans Hstep.
  assert (Hcell : forall ws ws' row col v r,
             P v -> put_cell ws auto row col v = (ws', r) ->
             forall rr cc, R (cell_at ws rr cc) (cell_at ws' rr cc)).
  { intros ws ws' row col v r Hv Hw rr cc.
    destruct (write_cell_spec _ _ _ _ _ _ _ Hw) as [_ [_ [Hat [Hfail Hdone]]]].
    destruct (decide ((row, col) = (rr, cc))) as [Hk | Hk].
    - injection Hk as <- <-. destruct r as [[]|e].
      + destruct (Hdone eq_refl) as [Hnew _]. now apply (Hstep _ v).
      + rewrite (Hfail e eq_refl). apply Hrefl.
    - rewrite (Hat rr cc Hk). apply Hrefl. }
  assert (Hrow : forall sr sc i row ws ws' r,
             (forall j v, In (j, v) row -> P v) ->
             write_row float_repr is_date_format ws auto sr sc i row = (ws', r) ->
             forall rr cc, R (cell_at ws rr cc) (cell_at ws' rr cc)).
  { intros sr sc i row. induction row as [|[j0 v0] row IH];
      intros ws ws' r HP H rr cc; simpl in H.
    - inversion H; subst. apply Hrefl.
    - destruct (put_cell ws auto (sr + i) (sc + j0) v0) as [ws1 r1] eqn:Hw.
      assert (H1 : R (cell_at ws rr cc) (cell_at ws1 rr cc)).
      { eapply Hcell; [|exact Hw]. apply (HP j0). now left. }
      destruct r1 as [[]|e].
      + eapply Htrans; [exact H1|]. eapply IH; [|exact H].
        intros j v Hin. apply (HP j). now right.
      + inversion H; subst. exact H1. }
  assert (Hrows : forall sr sc rows ws ws' r,
             (forall i row j v, In (i, row) rows -> In (j, v) (enumerate row) -> P v) ->
             write_rows float_repr is_date_format ws auto sr sc rows = (ws', r) ->
             forall rr cc, R (cell_at ws rr cc) (cell_at ws' rr cc)).
  { intros sr sc rows. induction rows as [|[i0 row0] rows IH];
      intros ws ws' r HP H rr cc; simpl in H.
    - inversion H; subst. apply Hrefl.
    - destruct (write_row float_repr is_date_format ws auto sr sc i0
                  (enumerate row0)) as [ws1 r1] eqn:Hw.
      assert (H1 : R (cell_at ws rr cc) (cell_at ws1 rr cc)).
      { eapply Hrow; [|exact Hw]. intros j v Hj. eapply HP; [now left | exact Hj]. }
      destruct r1 as [[]|e].
      + eapply Htrans; [exact H1|]. eapply IH; [|exact H].
        intros i row j v Hin Hj. eapply HP; [right; exact Hin | exact Hj].
      + inversion H; subst. exact H1. }
  intros ws ws' data start_cell r HP. unfold _write_data_to_worksheet.
  destruct data as [|row0 data]; [intros H; inversion H; subst; intros; apply Hrefl|].
  destruct (coords_of _ _ _) as [[sr sc]|e];
    [|intros H; inversion H; subst; intros; apply Hrefl].
  destruct (write_rows float_repr is_date_format ws auto sr sc
              (enumerate (row0 :: data))) as [ws1 r1] eqn:Hw.
  intros H. inversion H; subst ws1 r. eapply Hrows; [|exact Hw].
  intros i row j v Hi Hj. apply (HP row v).
  - unfold enumerate in Hi. now apply List.in_combine_r in Hi.
  - unfold enumerate in Hj. now apply List.in_combine_r in Hj.
Qed.


Lemma inferred_format_truthy (val cv : pyval) (f : pystr) :
  infer val = Ok (cv, Some f) -> truthy_format (Some f) = true.
Proof.
  intros H. apply infer_fits in H as [Hf _].
  assert (Hne : forall l, str_in f l = true -> forallb (fun w => negb (str_eqb w [])) l = true ->
                          f <> []).
  { intros l Hin Hl E. subst f. unfold str_in in Hin.
    apply List.existsb_exists in Hin as [w [Hw He]].
    rewrite List.forallb_forall in Hl. specialize (Hl w Hw).
    rewrite str_eqb_sym, He in Hl. discriminate. }
  assert (f <> []) as Hf'.
  { destruct cv; cbn [format_fits] in Hf; try discriminate.
    - now apply (Hne _ Hf).
    - now apply (Hne _ Hf).
    - apply str_eqb_true in Hf. subst f. discriminate.
    - apply str_eqb_true in Hf. subst f. discriminate. }
  destruct f; [contradiction | reflexivity].
Qed.

(** What a write with type detection makes of a cell. *)
Lemma detected_cell_spec (old new : cell) (val : pyval) :
  new_cell true old val = Ok new ->
  exists converted_value number_format,
    infer val = Ok (converted_value, number_format)
    /\ cell_value new = stored_value converted_value
    /\ cell_number_format new
       = match number_format with
         | Some f => f
         | None => cell_number_format old
         end.
Proof.
  unfold written_cell. unfold_bind.
  destruct (infer val) as [[cv nf]|e] eqn:Hinf; [|discriminate].
  destruct (bind_value is_date_format old cv) as [c|e] eqn:Hb; [|discriminate].
  intros H. inversion H; subst new. exists cv, nf. split; [reflexivity|].
  apply bind_value_spec in Hb as [Hv Hf].
  destruct nf as [f|].
  - rewrite (inferred_format_truthy _ _ _ Hinf). split; [exact Hv | reflexivity].
  - cbn [truthy_format truthy_str]. split; [exact Hv|]. rewrite Hf.
    apply infer_fits in Hinf as [Hfit _].
    destruct cv; cbn [format_fits] in Hfit; try discriminate; reflexivity.
Qed.

(** X6.  After a successful write with type detection, the cell at offset
    (i, j) from the start cell holds the value inferred from [data[i][j]],
    text being cut to the 32767 characters a cell can hold; its number
    format is the inferred format when there is one, and the format the
    cell had before otherwise. *)
Theorem X6_detected_write_sets_value_and_format (ws ws' : worksheet)
    (data : list (list pyval)) (start_cell : pystr) :
  write_sheet ws data start_cell true = (ws', Ok tt) ->
  exists start_row start_col,
    coords_of (str "start") start_cell start_cell = Ok (start_row, start_col)
    /\ forall (i j : nat) row val,
         data !! i = Some row -> row !! j = Some val ->
         exists converted_value number_format,
           infer val = Ok (converted_value, number_format)
           /\ cell_value (cell_at ws' (start_row + Z.of_nat i) (start_col + Z.of_nat j))
              = stored_value converted_value
           /\ cell_number_format
                (cell_at ws' (start_row + Z.of_nat i) (start_col + Z.of_nat j))
              = match number_format with
                | Some f => f
                | None =>
                    cell_number_format
                      (cell_at ws (start_row + Z.of_nat i) (start_col + Z.of_nat j))
                end.
Proof.
  intros H. destruct (write_sheet_spec _ _ _ _ _ _ H) as [_ [_ [Hraise Hok]]].
  destruct (coords_of (str "start") start_cell start_cell) as [[sr sc]|e] eqn:Hc.
  - exists sr, sc. split; [reflexivity|].
    intros i j row val Hi Hj.
    destruct (Hok sr sc eq_refl) as [_ Hval].
    destruct (Hval eq_refl i j row val Hi Hj) as [Hcell _].
    now apply detected_cell_spec in Hcell.
  - exfalso. unfold _write_data_to_worksheet in H. rewrite Hc in H.
    destruct data; apply (f_equal snd) in H; cbn [snd] in H;
      apply (proj1 (as_data_error_ok _ _)) in H; discriminate.
Qed.

(** X7.  Whatever its outcome, a write to a worksheet keeps the title,
    removes no cell, leaves the worksheet as it was when the start cell
    does not resolve, and leaves every cell that is not at an offset (i, j)
    of the data as it was. *)
Theorem X7_write_touches_only_its_targets (ws ws' : worksheet)
    (data : list (list pyval)) (start_cell : pystr) (auto_detect_types : bool)
    (r : res unit) :
  write_sheet ws data start_cell auto_detect_types = (ws', r) ->
  ws_title ws' = ws_title ws
  /\ (forall k, is_Some (ws_cells ws !! k) -> is_Some (ws_cells ws' !! k))
  /\ (forall e, coords_of (str "start") start_cell start_cell = Raise e -> ws' = ws)
  /\ (forall start_row start_col row col,
         coords_of (str "start") start_cell start_cell = Ok (start_row, start_col) ->
         ~ is_target data start_row start_col row col ->
         cell_at ws' row col = cell_at ws row col).
Proof.
  intros H. destruct (write_sheet_spec _ _ _ _ _ _ H) as [Ht [Hk [Hraise Hok]]].
  repeat split; try assumption.
  intros sr sc row col Hc Hn. now apply (proj1 (Hok sr sc Hc)).
Qed.

(** What a successful [write_data] has done, step by step. *)
Lemma write_data_success (fs fs' : files) (filepath : pystr)
    (sheet_name : option pystr) (data : option (list (list pyval)))
    (start_cell : pystr) (auto : bool) (result : write_result) :
  write_file fs filepath sheet_name data start_cell auto = (fs', Ok result) ->
  exists wb wb1 name ws ws' rows,
    data = Some rows /\ rows <> []
    /\ fs !! filepath = Some wb
    /\ target_sheet avoid_duplicate_name wb sheet_name = Ok (wb1, name)
    /\ wb_getitem wb1 name = Ok ws
    /\ write_sheet ws rows start_cell auto = (ws', Ok tt)
    /\ fs' = save fs filepath (wb_update wb1 name ws')
    /\ result = WriteResult
                  (str "Data written to " ++ name ++ str " with type detection")
                  name.
Proof.
  unfold write_data.
  destruct data as [[|row0 rows]|]; cbn [falsy_data];
    try (cbn; discriminate).
  unfold load_workbook. destruct (fs !! filepath) as [wb|] eqn:Hfs;
    [|cbn; discriminate].
  unfold_bind.
  destruct (target_sheet avoid_duplicate_name wb sheet_name)
    as [[wb1 name]|e] eqn:Ht; [|cbn; case_if; discriminate].
  cbn beta iota. destruct (wb_getitem wb1 name) as [ws|e] eqn:Hg;
    [|cbn; case_if; discriminate].
  cbn beta iota.
  destruct (cell_coords parse_cell_range (str "start") start_cell start_cell)
    as [[sr sc]|e] eqn:Hc; [|cbn; case_if; discriminate].
  cbn beta iota. change (default [] (Some (row0 :: rows))) with (row0 :: rows).
  cbn [length Nat.ltb Nat.leb].
  destruct (write_sheet ws (row0 :: rows) start_cell auto) as [ws' r] eqn:Hw.
  destruct r as [[]|e]; [|cbn; case_if; discriminate].
  cbn. intros H. inversion H; subst.
  exists wb, wb1, name, ws, ws', (row0 :: rows).
  repeat split; try assumption; try reflexivity. discriminate.
Qed.

Lemma write_data_failure (fs fs' : files) (filepath : pystr)
    (sheet_name : option pystr) (data : option (list (list pyval)))
    (start_cell : pystr) (auto : bool) (e : exn) :
  write_file fs filepath sheet_name data start_cell auto = (fs', Raise e) ->
  fs' = fs /\ exn_kind_of e = DataError.
Proof.
  unfold write_data.
  match goal with
  | |- (match as_data_error ?m with _ => _ end) = _ -> _ =>
      destruct m as [[fs1 res1]|e1]
  end.
  - cbn. discriminate.
  - unfold as_data_error, catch. destruct (negb (is_kind [DataError] e1)) eqn:E;
      intros H; inversion H; subst; split; try reflexivity.
    apply negb_false_iff in E. unfold is_kind in E. cbn in E.
    destruct (exn_kind_of e); try discriminate E. reflexivity.
Qed.

Lemma target_sheet_cases (wb wb1 : workbook) (sheet_name : option pystr)
    (name : pystr) :
  target_sheet avoid_duplicate_name wb sheet_name = Ok (wb1, name) ->
  (wb1 = wb /\ str_in name (sheetnames wb) = true)
  \/ (wb1 = Workbook
              (wb_sheets wb
               ++ [Worksheet (avoid_duplicate_name (sheetnames wb) name) ∅])
              (wb_active_index wb)
      /\ str_in name (sheetnames wb) = false
      /\ sheet_name = Some name
      /\ List.find is_invalid_title_char name = None).
Proof.
  unfold target_sheet. destruct (truthy_str sheet_name) eqn:Et; cbn [negb].
  - destruct sheet_name as [[|c n]|]; try discriminate Et.
    change (default [] (Some (c :: n))) with (c :: n).
    destruct (str_in (c :: n) (sheetnames wb)) eqn:E; cbn [negb].
    + intros H; inversion H; subst; auto.
    + unfold create_sheet. unfold_bind.
      destruct (List.find is_invalid_title_char (c :: n)) eqn:Ef; [discriminate|].
      intros H; inversion H; subst. right. auto.
  - destruct (wb_active wb) as [aws|] eqn:Ea; [|discriminate].
    intros H. inversion H; subst. left. split; [reflexivity|].
    unfold wb_active in Ea. apply List.nth_error_In in Ea.
    unfold str_in, sheetnames. apply List.existsb_exists.
    exists (ws_title aws). split; [now apply List.in_map|].
    now apply str_eqb_true.
Qed.

(** A sheet that has been created is found under the name asked for only
    when the library has kept the name as its title. *)
Lemma created_sheet_found (l : list worksheet) (t name : pystr) (ws : worksheet) :
  str_in name (List.map ws_title l) = false ->
  List.find (fun w => str_eqb (ws_title w) name) (l ++ [Worksheet t ∅]) = Some ws ->
  t = name.
Proof.
  intros Hnew Hfind. apply List.find_some in Hfind as [Hin Ht].
  apply str_eqb_true in Ht. apply List.in_app_or in Hin as [Hin | [<- | []]].
  - exfalso. unfold str_in in Hnew.
    assert (Hex : existsb (str_eqb name) (List.map ws_title l) = true).
    { apply List.existsb_exists. exists (ws_title ws).
      split; [now apply List.in_map | now apply str_eqb_true]. }
    congruence.
  - exact Ht.
Qed.


(** The value of a written cell, from the raw value. *)
Lemma written_cell_value (auto : bool) (old new : cell) (val : pyval) :
  new_cell auto old val = Ok new ->
  (auto = false -> cell_value new = stored_value val)
  /\ (auto = true ->
      exists converted_value number_format,
        infer val = Ok (converted_value, number_format)
        /\ cell_value new = stored_value converted_value).
Proof.
  intros H. split; intros ->.
  - now apply bind_value_spec in H.
  - apply detected_cell_spec in H as [cv [nf [Hi [Hv _]]]]. eauto.
Qed.


Lemma map_lookup_inv {A B} (g : A -> B) (l : list A) (i : nat) (x : B) :
  List.map g l !! i = Some x -> exists y, l !! i = Some y /\ x = g y.
Proof.
  revert i. induction l as [|a l IH]; intros i H; [destruct i; discriminate|].
  destruct i as [|i]; simpl in H.
  - inversion H. exists a. split; reflexivity.
  - now apply IH.
Qed.

Lemma has_value_stored (row : list pyval) :
  has_value (List.map stored_value row) = has_value row.
Proof.
  unfold has_value. induction row as [|v row IH]; [reflexivity|].
  simpl. rewrite IH. now destruct v.
Qed.

(** After a raw write of a matrix with rows of one width, the plain loop
    over the written rectangle returns the stored rows that hold a
    value. *)
Lemma raw_write_then_read_rows (ws ws' : worksheet) (data : list (list pyval))
    (start_cell : pystr) (n : nat) (start_row start_col : Z) :
  write_sheet ws data start_cell false = (ws', Ok tt) ->
  coords_of (str "start") start_cell start_cell = Ok (start_row, start_col) ->
  (forall row, In row data -> length row = n) ->
  1 <= start_row -> start_row + Z.of_nat (length data) - 1 <= max_sheet_row ->
  1 <= start_col ->
  read_rows ws' (py_range start_row (start_row + Z.of_nat (length data)))
    (py_range start_col (start_col + Z.of_nat n)) []
  = Ok (List.filter has_value (List.map (List.map stored_value) data)).
Proof.
  intros Hw Hc Hwidth H1 H2 H3.
  destruct (write_sheet_spec _ _ _ _ _ _ Hw) as [_ [_ [_ Hok]]].
  destruct (Hok _ _ Hc) as [_ Hval]. specialize (Hval eq_refl).
  rewrite read_rows_spec.
  2:{ intros row col Hr Hcol. apply in_py_range in Hr, Hcol.
      apply check_cell_ok; lia. }
  cbn [app]. f_equal.
  rewrite (filter_map_swap (row_values ws' _) has_value). f_equal.
  rewrite (py_range_from start_row), List.map_map.
  rewrite <- (List.length_map (List.map stored_value) data).
  apply map_seq_ext.
  intros i srow Hi. cbn [Nat.add].
  apply map_lookup_inv in Hi as [row [Hi ->]].
  assert (Hlen : length row = n).
  { apply Hwidth. apply list_elem_of_In. eapply list_elem_of_lookup_2. exact Hi. }
  unfold row_values. rewrite py_range_from, List.map_map, <- Hlen.
  rewrite <- (List.length_map stored_value row).
  apply map_seq_ext. intros j sv Hj. cbn [Nat.add].
  apply map_lookup_inv in Hj as [v [Hj ->]].
  destruct (Hval i j row v Hi Hj) as [Hcell _].
  now apply bind_value_spec in Hcell.
Qed.


End WriteFrame.

Lemma split_length (c : char) (s : pystr) :
  length (split c s) = S (length (List.filter (fun d => (d =? c)%N) s)).
Proof.
  induction s as [|d s IH]; [reflexivity|]. simpl.
  destruct (d =? c)%N; simpl; [now rewrite IH|].
  destruct (split c s) as [|p ps]; simpl in *; [discriminate IH | exact IH].
Qed.

Lemma is_prefix_app_l (p a b : pystr) :
  is_prefix p a = true -> is_prefix p (a ++ b) = true.
Proof.
  revert a. induction p as [|c p IH]; intros a H; [reflexivity|].
  destruct a as [|d a]; [discriminate|]. simpl in *.
  apply andb_prop in H as [H1 H2]. rewrite H1. now apply IH.
Qed.

(** X13.  With an absolute files directory, the path that [get_excel_path]
    returns is absolute, and resolving it again returns it unchanged,
    with or without a files directory. *)
Theorem X13_resolved_path_is_stable (base filename path : pystr) :
  isabs base = true ->
  get_excel_path (Some base) filename = Ok path ->
  isabs path = true
  /\ forall mode, get_excel_path mode path = Ok path.
Proof.
  intros Hb H.
  assert (Hp : isabs path = true).
  { unfold get_excel_path in H. destruct (isabs filename) eqn:Ef.
    - inversion H; subst. exact Ef.
    - inversion H; subst. unfold path_join. rewrite Ef.
      unfold isabs in *. case_if; now apply is_prefix_app_l. }
  split; [exact Hp|]. intros mode. unfold get_excel_path. now rewrite Hp.
Qed.

(** ** Edge cases of the readers *)

Section ReadEdges.

Variable parse_cell_range : pystr -> res (list (option Z)).
Variable validation_info : Type.
Variable get_data_validation_for_cell :
  worksheet -> pystr -> res (option validation_info).

Local Abbreviation coords_of := (cell_coords parse_cell_range).
Local Abbreviation read_range := (read_excel_range parse_cell_range).
Local Abbreviation read_meta :=
  (read_excel_range_with_metadata parse_cell_range get_data_validation_for_cell).

(** X10.  On a sheet that reports a single empty cell, and with no end
    cell, the plain read returns the empty sequence for any start cell
    that resolves inside the sheet limits. *)
Theorem X10_empty_sheet_reads_as_nothing (fs : files)
    (filepath sheet_name start_cell : pystr) (end_cell : option pystr)
    (preview_only : bool) (wb : workbook) (ws : worksheet)
    (start_ref : pystr) (end_ref : option pystr) (start_row start_col : Z) :
  fs !! filepath = Some wb ->
  wb_getitem wb sheet_name = Ok ws ->
  split_start start_cell end_cell = Ok (start_ref, end_ref) ->
  truthy_str end_ref = false ->
  coords_of (str "start") start_ref (start_ref ++ str ":" ++ start_ref)
    = Ok (start_row, start_col) ->
  sheet_is_empty ws = true -> 1 <= min_column ws ->
  1 <= start_row <= max_sheet_row -> 1 <= start_col ->
  read_range fs filepath sheet_name start_cell end_cell preview_only = Ok [].
Proof.
  intros Hfs Hws Hsplit Hnone Hstart Hempty Hmin Hr Hc.
  destruct (wb_getitem_in _ _ _ Hws) as [Hin _].
  pose proof Hempty as He. unfold sheet_is_empty in He.
  apply andb_prop in He as [He Hnone1]. apply andb_prop in He as [Hmr Hmc].
  apply Z.eqb_eq in Hmr, Hmc.
  assert (Hb : is_ok (boundary_text ws) = true)
    by (apply boundary_text_ok; lia).
  unfold read_excel_range, load_workbook. rewrite Hfs. unfold_bind.
  rewrite Hin. cbn [negb]. rewrite Hws, Hsplit. cbn beta iota.
  rewrite Hstart. cbn beta iota. rewrite Hnone, Hempty. cbn beta iota.
  rewrite Hmr, Hmc.
  destruct (Z.ltb_spec 1 start_row) as [Hlt|Hge]; cbn [orb].
  - destruct (boundary_text ws); [reflexivity | discriminate Hb].
  - destruct (Z.ltb_spec 1 start_col) as [Hlt'|Hge'].
    + destruct (boundary_text ws); [reflexivity | discriminate Hb].
    + assert (start_row = 1) by lia. assert (start_col = 1) by lia. subst.
      rewrite read_rows_spec
        by (intros row col Hrow Hcol; apply in_py_range in Hrow, Hcol;
            apply check_cell_ok; [unfold max_sheet_row|]; lia).
      change (py_range 1 (1 + 1)) with [1]. cbn [List.filter List.map app].
      unfold row_values, has_value. cbn [List.map existsb].
      rewrite Hnone1. reflexivity.
Qed.

(** X11.  When the start cell lies beyond the sheet's reported maximum row
    or column, the metadata read returns the range text of the start cell
    followed by a colon, the sheet name and no cells, provided an end cell
    is supplied and resolves, or no end cell is supplied and the sheet is
    empty or the start cell is not written "A1". *)
Theorem X11_metadata_read_of_out_of_bounds_start (fs : files)
    (filepath sheet_name start_cell : pystr) (end_cell : option pystr)
    (include_validation : bool) (wb : workbook) (ws : worksheet)
    (start_ref : pystr) (end_ref : option pystr) (start_row start_col : Z) :
  fs !! filepath = Some wb ->
  wb_getitem wb sheet_name = Ok ws ->
  split_start start_cell end_cell = Ok (start_ref, end_ref) ->
  coords_of (str "start") start_ref (start_ref ++ str ":" ++ start_ref)
    = Ok (start_row, start_col) ->
  max_row ws < start_row \/ max_column ws < start_col ->
  1 <= min_column ws -> max_column ws <= 18278 ->
  (exists end_text,
      end_ref = Some end_text /\ end_text <> []
      /\ is_ok (coords_of (str "end") end_text (end_text ++ str ":" ++ end_text))
         = true)
  \/ (truthy_str end_ref = false
      /\ (sheet_is_empty ws = true \/ start_ref <> str "A1")) ->
  read_meta fs filepath sheet_name start_cell end_cell include_validation
  = Ok (RangeData (start_ref ++ str ":") sheet_name []).
Proof.
  intros Hfs Hws Hsplit Hstart Hbeyond Hmin Hmax Hcase.
  destruct (wb_getitem_in _ _ _ Hws) as [Hin _].
  assert (Hcheck : (max_row ws <? start_row) || (max_column ws <? start_col) = true).
  { apply orb_true_iff. destruct Hbeyond; [left | right]; now apply Z.ltb_lt. }
  pose proof (boundary_text_ok ws Hmin Hmax) as Hb.
  unfold read_excel_range_with_metadata, load_workbook. rewrite Hfs. unfold_bind.
  rewrite Hin. cbn [negb]. rewrite Hws, Hsplit. cbn beta iota.
  rewrite Hstart. cbn beta iota.
  destruct Hcase as [[end_text [-> [Hne Hend]]] | [Hnone Hwhich]].
  - assert (Ht : truthy_str (Some end_text) = true)
      by (destruct end_text; [contradiction | reflexivity]).
    rewrite Ht. change (default [] (Some end_text)) with end_text.
    destruct (coords_of (str "end") end_text _) as [[er ec]|]; [|discriminate Hend].
    cbn beta iota. rewrite Hcheck.
    destruct (boundary_text ws); [reflexivity | discriminate Hb].
  - rewrite Hnone. destruct Hwhich as [Hempty | Hnot].
    + rewrite Hempty. cbn beta iota. rewrite Hcheck.
      destruct (boundary_text ws); [reflexivity | discriminate Hb].
    + apply str_eqb_false in Hnot. rewrite Hnot.
      destruct (sheet_is_empty ws); cbn beta iota; rewrite Hcheck;
        (destruct (boundary_text ws); [reflexivity | discriminate Hb]).
Qed.

(** X12.  A start cell with two or more colons makes both readers raise a
    [DataError] whose text is that of the failed unpacking of the split,
    "too many values to unpack (expected 2)". *)
Theorem X12_second_colon_is_a_data_error (fs : files)
    (filepath sheet_name start_cell : pystr) (end_cell : option pystr)
    (flag : bool) (wb : workbook) (ws : worksheet) :
  fs !! filepath = Some wb ->
  wb_getitem wb sheet_name = Ok ws ->
  (2 <= length (List.filter (fun d => (d =? chr ":")%N) start_cell))%nat ->
  read_range fs filepath sheet_name start_cell end_cell flag
  = Raise (Exn DataError (str "too many values to unpack (expected 2)"))
  /\ read_meta fs filepath sheet_name start_cell end_cell flag
     = Raise (Exn DataError (str "too many values to unpack (expected 2)")).
Proof.
  intros Hfs Hws Hcount.
  destruct (wb_getitem_in _ _ _ Hws) as [Hin _].
  assert (Hcolon : contains_char (chr ":") start_cell = true).
  { unfold contains_char. apply List.existsb_exists.
    destruct (List.filter (fun d => (d =? chr ":")%N) start_cell) as [|d l] eqn:E;
      [simpl in Hcount; lia|].
    assert (Hd : In d (List.filter (fun d => (d =? chr ":")%N) start_cell))
      by (rewrite E; now left).
    apply List.filter_In in Hd. exists d. exact Hd. }
  assert (Hsplit : split_start start_cell end_cell
                   = Raise (Exn ValueError (str "too many values to unpack (expected 2)"))).
  { unfold split_start. rewrite Hcolon.
    pose proof (split_length (chr ":") start_cell) as Hl.
    destruct (split (chr ":") start_cell) as [|a [|b [|c l]]]; simpl in Hl;
      try lia; reflexivity. }
  split.
  - unfold read_excel_range, load_workbook. rewrite Hfs. unfold_bind.
    rewrite Hin. cbn [negb]. rewrite Hws, Hsplit. reflexivity.
  - unfold read_excel_range_with_metadata, load_workbook. rewrite Hfs. unfold_bind.
    rewrite Hin. cbn [negb]. rewrite Hws, Hsplit. reflexivity.
Qed.

End ReadEdges.

(** ** The writing tool *)

Section WriteTool.

Variable float_repr : pyfloat -> pystr.
Variable is_date_format : pystr -> bool.
Variable avoid_duplicate_name : list pystr -> pystr -> pystr.
Variable parse_cell_range : pystr -> res (list (option Z)).

Local Abbreviation write_tool :=
  (write_data_to_excel float_repr is_date_format avoid_duplicate_name
     parse_cell_range).


End WriteTool.

Lemma sorted_NoDup (l : list Z) : StronglySorted Z.lt l -> List.NoDup l.
Proof.
  induction 1 as [|x l Hs IH Hall]; constructor; [|assumption].
  intros Hin. rewrite List.Forall_forall in Hall. specialize (Hall x Hin). lia.
Qed.

Lemma py_range_NoDup (a b : Z) : List.NoDup (py_range a b).
Proof. apply sorted_NoDup, py_range_sorted. Qed.

Lemma filter_length_ext {A} (f g : A -> bool) (l : list A) :
  (forall x, In x l -> f x = g x) ->
  length (List.filter f l) = length (List.filter g l).
Proof. intros H. now rewrite (List.filter_ext_in f g l H). Qed.

(** ** Automatic formatting *)

Section AutoFormatProperties.

Variable float_repr : pyfloat -> pystr.
Variable is_date_format : pystr -> bool.
Variable parse_cell_range_2 : pystr -> pystr -> res (list (option Z)).

Local Abbreviation will_format := (will_format float_repr).
Local Abbreviation reformatted := (reformatted float_repr).

(** A value that comes with a format is a number, a date or a date-time:
    the setter takes it as it is. *)
Lemma bind_formatted (old : cell) (value cv : pyval) (nf : option pystr) :
  _infer_and_convert_data_type float_repr value = Ok (cv, nf) ->
  truthy_format nf = true ->
  exists f, bind_value is_date_format old cv = Ok (Cell cv f).
Proof.
  intros Hi Hf. apply infer_fits in Hi as [Hfit _].
  destruct nf as [f|]; [|discriminate Hf].
  destruct cv; cbn [format_fits] in Hfit; try discriminate Hfit;
    eexists; reflexivity.
Qed.

Lemma format_cell_spec (ws : worksheet) (row col count : Z) :
  check_cell row col = Ok tt ->
  exists ws',
    format_cell float_repr is_date_format ws row col count
    = Ok (ws', count + (if will_format (cell_at ws row col) then 1 else 0))
    /\ ws_title ws' = ws_title ws
    /\ forall r c,
         cell_at ws' r c
         = if decide ((row, col) = (r, c)) then reformatted (cell_at ws r c)
           else cell_at ws r c.
Proof.
  intros Hc. unfold format_cell, ws_cell. rewrite Hc. unfold_bind.
  destruct ws as [t m]. cbn [ws_title ws_cells].
  rewrite cell_at_insert.
  destruct (decide ((row, col) = (row, col))) as [_|]; [|congruence].
  unfold reformatted, will_format.
  set (old := cell_at (Worksheet t m) row col).
  assert (Hold : forall r c, (row, col) = (r, c) -> cell_at (Worksheet t m) r c = old).
  { intros r c Hk. injection Hk as <- <-. reflexivity. }
  destruct (negb (is_none (cell_value old))) eqn:Hv; cbn [andb].
  - destruct (infer_total float_repr (cell_value old)) as [[cv nf] Hi].
    rewrite Hi.
    destruct (truthy_format nf && negb (is_none cv)) eqn:Hf.
    + destruct (bind_formatted old _ _ _ Hi (proj1 (andb_prop _ _ Hf)))
        as [f Hbind].
      unfold set_value. cbn [ws_title ws_cells]. rewrite cell_at_insert.
      destruct (decide ((row, col) = (row, col))) as [_|]; [|congruence].
      rewrite Hbind. unfold_bind.
      eexists. split; [reflexivity|].
      unfold set_number_format. cbn [ws_title ws_cells].
      split; [reflexivity|]. intros r c. rewrite !cell_at_insert.
      destruct (decide ((row, col) = (row, col))) as [_|]; [|congruence].
      cbn [cell_value cell_number_format].
      case_decide as Hk; [|reflexivity].
      rewrite (Hold r c Hk), Hv, Hi, Hf. reflexivity.
    + eexists. split; [cbv beta iota; now rewrite Z.add_0_r|]. split; [reflexivity|].
      intros r c. rewrite cell_at_insert.
      case_decide as Hk; [|reflexivity].
      rewrite (Hold r c Hk), Hv, Hi, Hf. reflexivity.
  - eexists. split; [cbv beta iota; now rewrite Z.add_0_r|]. split; [reflexivity|].
    intros r c. rewrite cell_at_insert.
    case_decide as Hk; [|reflexivity].
    rewrite (Hold r c Hk), Hv. reflexivity.
Qed.

Lemma format_row_spec (row : Z) (cols : list Z) :
  forall (ws : worksheet) (count : Z),
  List.NoDup cols ->
  (forall c, In c cols -> check_cell row c = Ok tt) ->
  exists ws',
    format_row float_repr is_date_format ws row cols count
    = Ok (ws', count + count_formatted float_repr ws [row] cols)
    /\ ws_title ws' = ws_title ws
    /\ (forall c, In c cols -> cell_at ws' row c = reformatted (cell_at ws row c))
    /\ (forall r c, ~ (r = row /\ In c cols) -> cell_at ws' r c = cell_at ws r c).
Proof.
  unfold count_formatted. cbn [list_prod]. setoid_rewrite List.app_nil_r.
  induction cols as [|col cols IH]; intros ws count Hnd Hchk.
  - exists ws. cbn. rewrite Z.add_0_r. repeat split; auto. intros c [].
  - inversion Hnd as [|? ? Hnotin Hnd']; subst.
    destruct (format_cell_spec ws row col count) as [ws1 [H1 [Ht1 Hc1]]];
      [apply Hchk; now left|].
    destruct (IH ws1 (count + (if will_format (cell_at ws row col) then 1 else 0))
                Hnd') as [ws' [H2 [Ht2 [Hin2 Hout2]]]];
      [intros c Hc; apply Hchk; now right|].
    exists ws'. cbn [format_row]. rewrite H1. unfold_bind. rewrite H2.
    split.
    { f_equal. f_equal. cbn [List.map List.filter fst snd].
      assert (Hlen : length (List.filter
                (fun rc => will_format (cell_at ws1 (fst rc) (snd rc)))
                (List.map (fun y => (row, y)) cols))
              = length (List.filter
                (fun rc => will_format (cell_at ws (fst rc) (snd rc)))
                (List.map (fun y => (row, y)) cols))).
      { apply filter_length_ext. intros [r c] Hrc.
        apply List.in_map_iff in Hrc as [y [Hy Hyin]]. inversion Hy; subst.
        cbn [fst snd]. rewrite Hc1. case_decide as Hk; [|reflexivity].
        inversion Hk; subst. contradiction. }
      rewrite Hlen.
      destruct (will_format (cell_at ws row col)); cbn [length]; lia. }
    split; [congruence|]. split.
    + intros c [<- | Hc].
      * rewrite Hout2 by (intros [_ Hc]; contradiction).
        rewrite Hc1. case_decide; [reflexivity | congruence].
      * rewrite (Hin2 c Hc), Hc1. case_decide as Hk; [|reflexivity].
        inversion Hk; subst. contradiction.
    + intros r c Hn. rewrite Hout2 by (intros [-> Hc]; apply Hn; split; [reflexivity | now right]).
      rewrite Hc1. case_decide as Hk; [|reflexivity].
      inversion Hk; subst. exfalso. apply Hn. split; [reflexivity | now left].
Qed.

Lemma format_rows_spec (start_col end_col : Z) (rows : list Z) :
  let cols := py_range start_col (end_col + 1) in
  forall (ws : worksheet) (count : Z),
  List.NoDup rows ->
  (forall r c, In r rows -> In c cols -> check_cell r c = Ok tt) ->
  exists ws',
    format_rows float_repr is_date_format ws rows (Some start_col) (Some end_col) count
    = Ok (ws', count + count_formatted float_repr ws rows cols)
    /\ ws_title ws' = ws_title ws
    /\ (forall r c, In r rows -> In c cols ->
          cell_at ws' r c = reformatted (cell_at ws r c))
    /\ (forall r c, ~ (In r rows /\ In c cols) -> cell_at ws' r c = cell_at ws r c).
Proof.
  intros cols. induction rows as [|row rows IH]; intros ws count Hnd Hchk.
  - exists ws. unfold count_formatted. cbn. rewrite Z.add_0_r.
    repeat split; auto. intros r c [].
  - inversion Hnd as [|? ? Hnotin Hnd']; subst.
    destruct (format_row_spec row cols ws count (py_range_NoDup _ _))
      as [ws1 [H1 [Ht1 [Hin1 Hout1]]]];
      [intros c Hc; apply Hchk; [now left | exact Hc]|].
    destruct (IH ws1 (count + count_formatted float_repr ws [row] cols) Hnd')
      as [ws' [H2 [Ht2 [Hin2 Hout2]]]];
      [intros r c Hr Hc; apply Hchk; [now right | exact Hc]|].
    exists ws'. cbn [format_rows range_through]. unfold_bind.
    fold cols. rewrite H1. rewrite H2.
    split.
    { f_equal. f_equal. unfold count_formatted. cbn [list_prod].
      rewrite List.app_nil_r, List.filter_app, List.length_app.
      assert (Hlen : length (List.filter
                (fun rc => will_format (cell_at ws1 (fst rc) (snd rc)))
                (list_prod rows cols))
              = length (List.filter
                (fun rc => will_format (cell_at ws (fst rc) (snd rc)))
                (list_prod rows cols))).
      { apply filter_length_ext. intros [r c] Hrc.
        apply List.in_prod_iff in Hrc as [Hr Hc]. cbn [fst snd].
        rewrite Hout1; [reflexivity|]. intros [-> _]. contradiction. }
      rewrite Hlen. lia. }
    split; [congruence|]. split.
    + intros r c [<- | Hr] Hc.
      * rewrite Hout2 by (intros [Hr _]; contradiction). now apply Hin1.
      * rewrite (Hin2 r c Hr Hc). rewrite Hout1; [reflexivity|].
        intros [-> _]. contradiction.
    + intros r c Hn.
      rewrite Hout2 by (intros [Hr Hc]; apply Hn; split; [now right | exact Hc]).
      apply Hout1. intros [-> Hc]. apply Hn. split; [now left | exact Hc].
Qed.

(** X15.  When the path resolves, the workbook loads, the sheet exists and
    the bounds are four integers inside the sheet limits, automatic
    formatting saves the workbook with the sheet rewritten cell by cell:
    inside the rectangle a cell that holds a value for which a format is
    inferred gets the inferred value and format, every other cell of the
    sheet is as before.  The text returned counts the rewritten cells,
    when an end cell was given or the last column has a letter. *)
Theorem X15_auto_format_rewrites_the_detected_cells
    (EXCEL_FILES_PATH : option pystr) (fs : files)
    (filepath sheet_name start_cell path : pystr) (end_cell : option pystr)
    (wb : workbook) (ws : worksheet) (start_row start_col end_row end_col : Z) :
  get_excel_path EXCEL_FILES_PATH filepath = Ok path ->
  load_workbook fs path = Ok wb ->
  wb_getitem wb sheet_name = Ok ws ->
  format_bounds parse_cell_range_2 ws start_cell end_cell
  = Ok (inr (Some start_row, Some start_col, Some end_row, Some end_col)) ->
  1 <= start_row -> end_row <= max_sheet_row -> 1 <= start_col ->
  exists ws',
    fst (auto_format_data_range float_repr is_date_format parse_cell_range_2 EXCEL_FILES_PATH
           fs filepath sheet_name start_cell end_cell)
    = save fs path (wb_update wb sheet_name ws')
    /\ wb_getitem (wb_update wb sheet_name ws') sheet_name = Ok ws'
    /\ (forall r c,
          cell_at ws' r c
          = if decide ((start_row <= r <= end_row) /\ (start_col <= c <= end_col))
            then reformatted (cell_at ws r c)
            else cell_at ws r c)
    /\ (truthy_str end_cell = true \/ 1 <= end_col <= 18278 ->
        exists range_desc,
          snd (auto_format_data_range float_repr is_date_format parse_cell_range_2
                 EXCEL_FILES_PATH fs filepath sheet_name start_cell end_cell)
          = str "Applied automatic formatting to "
            ++ str_of_Z (count_formatted float_repr ws
                           (py_range start_row (end_row + 1))
                           (py_range start_col (end_col + 1)))
            ++ str " cells in range " ++ range_desc).
Proof.
  intros Hpath Hload Hws Hb Hsr Her Hsc.
  destruct (wb_getitem_in _ _ _ Hws) as [Hin [Ht _]].
  destruct (format_rows_spec start_col end_col (py_range start_row (end_row + 1))
              ws 0 (py_range_NoDup _ _)) as [ws' [Hrun [Ht' [Hin' Hout']]]].
  { intros r c Hr Hc. apply in_py_range in Hr, Hc.
    apply check_cell_ok; lia. }
  exists ws'.
  assert (Hcells : forall r c,
            cell_at ws' r c
            = if decide ((start_row <= r <= end_row) /\ (start_col <= c <= end_col))
              then reformatted (cell_at ws r c) else cell_at ws r c).
  { intros r c. case_decide as Hd.
    - apply Hin'; apply in_py_range; lia.
    - apply Hout'. rewrite !in_py_range. lia. }
  assert (Hget : wb_getitem (wb_update wb sheet_name ws') sheet_name = Ok ws').
  { unfold wb_getitem, wb_update. cbn [wb_sheets].
    rewrite find_replaced_sheet; [reflexivity | exact Hin | congruence]. }
  unfold auto_format_data_range. rewrite Hpath. unfold_bind. rewrite Hload.
  rewrite Hin. cbn [negb]. rewrite Hws, Hb. cbn [range_through].
  rewrite Hrun. rewrite Z.add_0_l.
  destruct (truthy_str end_cell) eqn:He.
  - cbn [fst snd]. repeat split; auto. intros _. eexists. reflexivity.
  - destruct (get_column_letter end_col) as [letter|e] eqn:Hl; cbn [fst snd].
    + repeat split; auto. intros _. eexists. reflexivity.
    + repeat split; auto. intros [|Hr]; [discriminate|].
      rewrite (get_column_letter_ok _ Hr) in Hl. discriminate.
Qed.

End AutoFormatProperties.

Section AutoFormatFrame.

Variable float_repr : pyfloat -> pystr.
Variable is_date_format : pystr -> bool.
Variable parse_cell_range_2 : pystr -> pystr -> res (list (option Z)).

Local Abbreviation reformatted := (reformatted float_repr).

Lemma format_cell_checked (ws ws' : worksheet) (row col count count' : Z) :
  format_cell float_repr is_date_format ws row col count = Ok (ws', count') ->
  check_cell row col = Ok tt.
Proof.
  unfold format_cell, ws_cell. unfold_bind.
  destruct (check_cell row col) as [[]|e]; [reflexivity | discriminate].
Qed.

Lemma format_row_checked (row : Z) (cols : list Z) :
  forall (ws ws' : worksheet) (count count' : Z),
  format_row float_repr is_date_format ws row cols count = Ok (ws', count') ->
  forall c, In c cols -> check_cell row c = Ok tt.
Proof.
  induction cols as [|col cols IH]; intros ws ws' count count' H c Hc;
    [destruct Hc|].
  cbn [format_row] in H. revert H. unfold_bind.
  destruct (format_cell float_repr is_date_format ws row col count) as [[ws1 n1]|e] eqn:E;
    [|discriminate].
  intros H. destruct Hc as [<- | Hc].
  - exact (format_cell_checked _ _ _ _ _ _ E).
  - exact (IH _ _ _ _ H c Hc).
Qed.

(** Whatever the bounds, a run of the loops that returns has kept the title
    and left every cell as it was or reformatted. *)
Lemma format_rows_frame (start_col end_col : option Z) (rows : list Z) :
  forall (ws ws' : worksheet) (count count' : Z),
  List.NoDup rows ->
  format_rows float_repr is_date_format ws rows start_col end_col count = Ok (ws', count') ->
  ws_title ws' = ws_title ws
  /\ forall r c,
       (~ In r rows -> cell_at ws' r c = cell_at ws r c)
       /\ (cell_at ws' r c = cell_at ws r c
           \/ cell_at ws' r c = reformatted (cell_at ws r c)).
Proof.
  induction rows as [|row rows IH]; intros ws ws' count count' Hnd H.
  - inversion H; subst. split; [reflexivity|]. intros r c. split; auto.
  - inversion Hnd as [|? ? Hnotin Hnd']; subst.
    cbn [format_rows] in H. revert H. unfold_bind.
    destruct (range_through start_col end_col) as [cols|e] eqn:Er; [|discriminate].
    assert (Hcols : List.NoDup cols).
    { unfold range_through in Er.
      destruct end_col; [|discriminate]. destruct start_col; [|discriminate].
      inversion Er; subst. apply py_range_NoDup. }
    destruct (format_row float_repr is_date_format ws row cols count) as [[ws1 n1]|e] eqn:E;
      [|discriminate].
    intros H.
    destruct (format_row_spec float_repr is_date_format row cols ws count Hcols
                (format_row_checked _ _ _ _ _ _ E))
      as [ws1' [E' [Ht1 [Hin1 Hout1]]]].
    rewrite E in E'. inversion E'; subst ws1'. clear E'.
    destruct (IH _ _ _ _ Hnd' H) as [Ht2 Hc2].
    split; [congruence|]. intros r c. destruct (Hc2 r c) as [Hout2 Hany2].
    split.
    + intros Hn. rewrite Hout2 by (intros Hr; apply Hn; now right).
      apply Hout1. intros [-> _]. apply Hn. now left.
    + destruct (Z.eq_dec r row) as [-> | Hne].
      * rewrite (Hout2 Hnotin).
        destruct (List.in_dec Z.eq_dec c cols) as [Hc | Hc].
        -- right. now apply Hin1.
        -- left. apply Hout1. tauto.
      * rewrite (Hout1 r c) in Hany2 by tauto. exact Hany2.
Qed.

(** X17.  Whatever its arguments, automatic formatting leaves the files as
    they were or replaces, in the file at the resolved path, the named
    sheet by a sheet with the same title in which every cell is as before
    or holds the value and format inferred from its value: no other file
    and no other sheet is touched, and no cell is emptied. *)
Theorem X17_auto_format_changes_one_sheet
    (EXCEL_FILES_PATH : option pystr) (fs : files)
    (filepath sheet_name start_cell : pystr) (end_cell : option pystr) :
  fst (auto_format_data_range float_repr is_date_format parse_cell_range_2 EXCEL_FILES_PATH
         fs filepath sheet_name start_cell end_cell)
  = fs
  \/ exists path wb ws ws',
       get_excel_path EXCEL_FILES_PATH filepath = Ok path
       /\ fs !! path = Some wb
       /\ wb_getitem wb sheet_name = Ok ws
       /\ fst (auto_format_data_range float_repr is_date_format parse_cell_range_2
                 EXCEL_FILES_PATH fs filepath sheet_name start_cell end_cell)
          = <[path := wb_update wb sheet_name ws']> fs
       /\ ws_title ws' = ws_title ws
       /\ forall r c,
            cell_at ws' r c = cell_at ws r c
            \/ cell_at ws' r c = reformatted (cell_at ws r c).
Proof.
  unfold auto_format_data_range. unfold_bind.
  destruct (get_excel_path EXCEL_FILES_PATH filepath) as [path|e] eqn:Ep;
    [|now left].
  unfold load_workbook.
  destruct (fs !! path) as [wb|] eqn:Ef; [|now left].
  destruct (negb (str_in sheet_name (sheetnames wb))); [now left|].
  destruct (wb_getitem wb sheet_name) as [ws|e] eqn:Ew; [|now left].
  destruct (format_bounds parse_cell_range_2 ws start_cell end_cell)
    as [[text | [[[sr sc] er] ec]] | e] eqn:Eb; [now left | | now left].
  destruct (range_through sr er) as [rows|e] eqn:Er; [|now left].
  assert (Hrows : List.NoDup rows).
  { unfold range_through in Er.
    destruct er; [|discriminate]. destruct sr; [|discriminate].
    inversion Er; subst. apply py_range_NoDup. }
  destruct (format_rows float_repr is_date_format ws rows sc ec 0) as [[ws' n]|e] eqn:Erun;
    [|now left].
  destruct (format_rows_frame _ _ _ _ _ _ _ Hrows Erun) as [Ht Hcells].
  right. exists path, wb, ws, ws'.
  split; [reflexivity|]. split; [exact Ef|]. split; [exact Ew|].
  split.
  - unfold save.
    destruct (truthy_str end_cell); [reflexivity|].
    destruct ec as [c|]; [destruct (get_column_letter c)|]; reflexivity.
  - split; [exact Ht|]. intros r c. apply Hcells.
Qed.

End AutoFormatFrame.

Lemma currency_symbol_facts (sym : char) :
  is_currency_symbol sym = true ->
  is_space sym = false /\ is_digit sym = false /\ is_comma sym = false
  /\ (sym =? chr "%")%N = false /\ (sym =? chr ".")%N = false.
Proof.
  unfold is_currency_symbol. intros H.
  repeat (apply orb_prop in H as [H|H]); apply N.eqb_eq in H; subst sym;
    repeat split; reflexivity.
Qed.

Lemma currency_pattern_symbol (sym : char) (t : pystr) :
  is_currency_symbol sym = true -> digits_and_commas t = true ->
  currency_shape (sym :: t) = true.
Proof.
  intros Hsym H. unfold digits_and_commas in H. apply andb_prop in H as [Hall Hex].
  assert (Hne : t <> []) by (destruct t; [discriminate Hex | discriminate]).
  unfold currency_shape, is_match, re_match.
  apply (is_match_head _ ([], [])).
  unfold currency_pattern. cbn [cat_all]. cbn [rmatch].
  eapply List.in_flat_map. exists ([], t). split.
  - apply List.in_or_app. left. rewrite Hsym. now left.
  - eapply List.in_flat_map. exists ([], []). split.
    + apply (plus_all _ [] t Hne Hall).
    + vm_compute. now left.
Qed.

Section CurrencySymbol.
Variable float_repr : pyfloat -> pystr.

Local Abbreviation infer := (_infer_and_convert_data_type float_repr).

(** X16.  A currency symbol ($, euro, pound or yen) followed by digits and
    thousands separators (at least one digit, within the digit limit of
    [int]) is converted to the integer the digits spell, with the
    currency-integer format; symbol and separators are dropped. *)
Theorem X16_currency_symbol_is_dropped (sym : char) (t : pystr) :
  is_currency_symbol sym = true ->
  digits_and_commas t = true ->
  (length (List.filter is_digit t) <= int_max_str_digits)%nat ->
  infer (VStr (sym :: t))
  = Ok (VInt (int_of_digits (List.filter is_digit t)), Some fmt_currency_int).
Proof.
  intros Hsym Ht Hlen. pose proof (currency_pattern_symbol sym t Hsym Ht) as Hcur.
  destruct (currency_symbol_facts sym Hsym) as [Hsp' [Hd' [Hc' [Hpct Hdot']]]].
  destruct (digits_and_commas_facts t Ht) as [Hall [Hne [Hdig [Hsp Hoth]]]].
  assert (Hstrip : strip (sym :: t) = sym :: t).
  { apply strip_id. intros c [<- | Hc]; [assumption | auto]. }
  rewrite infer_str by (rewrite Hstrip; discriminate). rewrite Hstrip.
  unfold infer_stripped, detect_numeric.
  assert (Hend : endswith (sym :: t) (chr "%") = false).
  { unfold endswith. destruct (rev (sym :: t)) as [|d w] eqn:E; [reflexivity|].
    assert (Hd : In d (sym :: t)) by (apply List.in_rev; rewrite E; now left).
    destruct Hd as [<- | Hd]; [assumption|].
    apply Hoth; [assumption | reflexivity]. }
  rewrite Hend. unfold detect_number.
  unfold currency_shape in Hcur. rewrite Hcur.
  assert (Hsc : strip_currency (sym :: t) = List.filter is_digit t).
  { unfold strip_currency. cbn [List.filter]. rewrite Hsym. cbn [orb negb].
    now apply strip_currency_digits. }
  rewrite Hsc.
  assert (Hdot : contains_char (chr ".") (List.filter is_digit t) = false).
  { unfold contains_char. apply not_true_is_false. intros E.
    apply List.existsb_exists in E as [c [Hc Heq]].
    apply List.filter_In in Hc as [Hc _].
    rewrite (Hoth c _ Hc) in Heq by (reflexivity).
    discriminate. }
  rewrite Hdot, py_int_digits by assumption. reflexivity.
Qed.

End CurrencySymbol.

(** ** Concrete runs of the further properties *)






Lemma X1_witness :
  format_fits (VStr (str "hello"), None) = true
  /\ forall t, fst (VStr (str "hello"), @None pystr) = VStr t ->
               t = strip (py_str no_float_repr (VStr (str " hello ")))
               /\ t <> [].
Proof.
  apply (X1_inferred_format_fits_value no_float_repr (VStr (str " hello "))).
  vm_compute; reflexivity.
Defined.

Lemma X3_witness :
  _infer_and_convert_data_type no_float_repr (VStr (str "-1,250"))
  = Ok (VInt (-1250), Some fmt_integer).
Proof.
  apply (X3_negative_number_gets_integer_format no_float_repr (str "1,250"));
    [reflexivity | apply Nat.leb_le; vm_compute; reflexivity].
Defined.

Lemma X4_witness :
  _infer_and_convert_data_type no_float_repr (VStr (str "1,250%"))
  = Ok (VFloat (FloatDiv (FloatOf (str "1250")) 100), Some fmt_percent).
Proof.
  apply (X4_percentage_is_divided_by_hundred no_float_repr (str "1,250")).
  reflexivity.
Defined.

Lemma X5_witness :
  _infer_and_convert_data_type no_float_repr (VInt (-1250))
  = Ok (VInt (-1250), Some fmt_integer).
Proof.
  apply (X5_integer_value_survives_inference no_float_repr (-1250)).
  apply Nat.leb_le. vm_compute. reflexivity.
Defined.

Lemma X6_witness :
  let ws' :=
    fst (_write_data_to_worksheet no_float_repr date_letters
           spec_parse_cell_range demo_sheet
           [[VStr (str "07"); VStr (str "50%")]] (str "B2") true) in
  exists start_row start_col,
    cell_coords spec_parse_cell_range (str "start") (str "B2") (str "B2")
    = Ok (start_row, start_col)
    /\ exists converted_value number_format,
         _infer_and_convert_data_type no_float_repr (VStr (str "50%"))
         = Ok (converted_value, number_format)
         /\ cell_value (cell_at ws' (start_row + Z.of_nat 0) (start_col + Z.of_nat 1))
            = stored_value converted_value.
Proof.
  intros ws'.
  destruct (X6_detected_write_sets_value_and_format no_float_repr date_letters
              spec_parse_cell_range demo_sheet ws'
              [[VStr (str "07"); VStr (str "50%")]] (str "B2"))
    as [sr [sc [Hc Hcells]]]; [vm_compute; reflexivity|].
  exists sr, sc. split; [exact Hc|].
  destruct (Hcells 0%nat 1%nat [VStr (str "07"); VStr (str "50%")]
              (VStr (str "50%")) eq_refl eq_refl) as [cv [nf [Hi [Hv _]]]].
  exists cv, nf. split; [exact Hi | exact Hv].
Defined.

Lemma X7_witness :
  let ws' :=
    fst (_write_data_to_worksheet no_float_repr date_letters
           spec_parse_cell_range demo_sheet
           [[VStr (str "07")]] (str "B2") false) in
  ws_title ws' = ws_title demo_sheet /\ cell_at ws' 1 1 = cell_at demo_sheet 1 1.
Proof.
  intros ws'.
  destruct (X7_write_touches_only_its_targets no_float_repr date_letters
              spec_parse_cell_range demo_sheet ws' [[VStr (str "07")]]
              (str "B2") false (Ok tt)) as [Ht [_ [_ Hframe]]];
    [vm_compute; reflexivity|].
  split; [exact Ht|].
  apply (Hframe 2 2 1 1); [vm_compute; reflexivity|].
  intros [i [j [r [v [_ [_ [Hr _]]]]]]]. lia.
Defined.



Lemma X10_witness :
  read_excel_range spec_parse_cell_range empty_files (str "/data/empty.xlsx")
    (str "Sheet1") (str "C3") None false
  = Ok [].
Proof.
  apply (X10_empty_sheet_reads_as_nothing spec_parse_cell_range empty_files
           (str "/data/empty.xlsx") (str "Sheet1") (str "C3") None false
           (Workbook [empty_sheet] 0) empty_sheet (str "C3") None 3 3).
  - vm_compute; reflexivity.
  - vm_compute; reflexivity.
  - vm_compute; reflexivity.
  - reflexivity.
  - vm_compute; reflexivity.
  - vm_compute; reflexivity.
  - vm_compute; discriminate.
  - split; [lia | vm_compute; discriminate].
  - lia.
Defined.

Lemma X11_witness :
  read_excel_range_with_metadata spec_parse_cell_range
    (fun _ _ => Ok (@None unit)) demo_files (str "/data/book.xlsx")
    (str "Sheet1") (str "Z100") None true
  = Ok (RangeData (str "Z100:") (str "Sheet1") []).
Proof.
  apply (X11_metadata_read_of_out_of_bounds_start spec_parse_cell_range unit
           (fun _ _ => Ok None) demo_files (str "/data/book.xlsx")
           (str "Sheet1") (str "Z100") None true demo_workbook demo_sheet
           (str "Z100") None 100 26).
  - vm_compute; reflexivity.
  - vm_compute; reflexivity.
  - vm_compute; reflexivity.
  - vm_compute; reflexivity.
  - left. vm_compute; reflexivity.
  - vm_compute; discriminate.
  - vm_compute; discriminate.
  - right. split; [reflexivity | right; discriminate].
Defined.

Lemma X12_witness :
  read_excel_range spec_parse_cell_range demo_files (str "/data/book.xlsx")
    (str "Sheet1") (str "A1:B2:C3") None false
  = Raise (Exn DataError (str "too many values to unpack (expected 2)"))
  /\ read_excel_range_with_metadata spec_parse_cell_range
       (fun _ _ => Ok (@None unit)) demo_files (str "/data/book.xlsx")
       (str "Sheet1") (str "A1:B2:C3") None false
     = Raise (Exn DataError (str "too many values to unpack (expected 2)")).
Proof.
  apply (X12_second_colon_is_a_data_error spec_parse_cell_range unit
           (fun _ _ => Ok None) demo_files (str "/data/book.xlsx")
           (str "Sheet1") (str "A1:B2:C3") None false demo_workbook demo_sheet).
  - vm_compute; reflexivity.
  - vm_compute; reflexivity.
  - vm_compute; lia.
Defined.

Lemma X13_witness :
  isabs (str "/srv/files/book.xlsx") = true
  /\ forall mode,
       get_excel_path mode (str "/srv/files/book.xlsx")
       = Ok (str "/srv/files/book.xlsx").
Proof.
  apply (X13_resolved_path_is_stable (str "/srv/files") (str "book.xlsx"));
    vm_compute; reflexivity.
Defined.


Lemma X15_witness :
  let outcome :=
    auto_format_data_range no_float_repr date_letters
      (fun a b => spec_parse_cell_range (a ++ str ":" ++ b)) None ledger_files
      (str "/data/book.xlsx") (str "Sheet1") (str "A1") None in
  exists ws',
    fst outcome
    = save ledger_files (str "/data/book.xlsx")
        (wb_update (Workbook [ledger_sheet] 0) (str "Sheet1") ws')
    /\ cell_at ws' 1 2 = Cell (VInt 1000) fmt_currency_int
    /\ cell_at ws' 3 2 = Cell (VBool true) (str "General")
    /\ exists range_desc,
         snd outcome
         = str "Applied automatic formatting to 3 cells in range " ++ range_desc.
Proof.
  intros outcome.
  destruct (X15_auto_format_rewrites_the_detected_cells no_float_repr
              date_letters
              (fun a b => spec_parse_cell_range (a ++ str ":" ++ b)) None
              ledger_files (str "/data/book.xlsx") (str "Sheet1") (str "A1")
              (str "/data/book.xlsx") None (Workbook [ledger_sheet] 0)
              ledger_sheet 1 1 3 2)
    as [ws' [Hfst [_ [Hcells Htext]]]].
  - vm_compute; reflexivity.
  - vm_compute; reflexivity.
  - vm_compute; reflexivity.
  - vm_compute; reflexivity.
  - lia.
  - vm_compute; discriminate.
  - lia.
  - exists ws'. split; [exact Hfst|].
    split; [rewrite (Hcells 1 2); vm_compute; reflexivity|].
    split; [rewrite (Hcells 3 2); vm_compute; reflexivity|].
    destruct Htext as [range_desc Hdesc]; [right; lia|].
    exists range_desc. exact Hdesc.
Defined.

Lemma X16_witness :
  _infer_and_convert_data_type no_float_repr (VStr (str "$1,000"))
  = Ok (VInt 1000, Some fmt_currency_int).
Proof.
  apply (X16_currency_symbol_is_dropped no_float_repr (chr "$") (str "1,000"));
    [reflexivity | reflexivity | apply Nat.leb_le; vm_compute; reflexivity].
Defined.
